(** * OneGov FIT: the schema-driven JSON extraction engine and the entity cache

    A shallow embedding of

    - [R01_JSON_BackendStructure.js]: the column-schema registry
      [COLUMN_SCHEMAS], the path resolver [getNestedValue], the extractors
      [getPrimaryValue], [getFiscalYearData], [getCategories], and the
      validators [validateJsonStructure], [parseAndValidateJson],
      [validateRowJsonColumns];
    - the data manager class [OneGovDataManager]: [needsRefresh],
      [loadAllData], [loadEntitySheet], [parseJSON],
      [extractTotalObligations], [getEntities].

    Scope of the model.  Values are the values [JSON.parse] produces, plus
    [undefined].  [JSON.parse] itself is a parameter of the functions that
    call it.  Strings are sequences of code units below 256.

    Numbers are integers (and NaN), added exactly, and a numeral is read up
    to its integer part.  The code adds in double precision, which is exact
    on integers as long as the absolute values of the terms add up to at
    most [2^53]: the statements about sums carry this bound
    ([adds_exactly]) and take the amounts to be numbers.

    A property read sees own properties: the fields of an object, the
    indices and [length] of an array or a text.  The field names the source
    reads are not names of inherited members, so reads by such a name are
    as in the code.  Where a key is arbitrary (a step of a path, a year, a
    schema key), the members an object inherits from [Object.prototype]
    ([OBJECT_PROTOTYPE]) are told apart: the registry lookups of
    [validateJsonStructure] and [extractNormalizedData] follow them, and
    the statements about paths and years leave them out ([absent],
    [typed_entry]).  The conversion of an object to a text is the inherited
    one, which gives [[object Object]]; an object with an own [toString]
    hides it, and the statements about values that are converted leave
    such objects out ([convertible]). *)

From Stdlib Require Import ZArith List String Ascii Bool Lia Arith.
From Stdlib Require Import DecimalString DecimalPos DecimalZ.
Import ListNotations.
Open Scope string_scope.
Open Scope Z_scope.

(* ================================================================= *)
(** ** Exceptions *)

Inductive exn : Type :=
| TypeError
| SyntaxError
| ServiceError.

Inductive outcome (A : Type) : Type :=
| Ok (a : A)
| Throw (e : exn).

Arguments Ok {A} a.
Arguments Throw {A} e.

Definition bind {A B : Type} (c : outcome A) (k : A -> outcome B) : outcome B :=
  match c with
  | Ok a => k a
  | Throw e => Throw e
  end.

Notation "x <- c ;; k" := (bind c (fun x => k))
  (at level 61, c at next level, right associativity).

(** [forEach] with a body that may throw, threading an accumulator. *)
Fixpoint forEach {A S : Type} (body : S -> A -> outcome S) (xs : list A) (s : S)
  : outcome S :=
  match xs with
  | [] => Ok s
  | x :: rest => s' <- body s x ;; forEach body rest s'
  end.

(* ================================================================= *)
(** ** Values of the host language *)

Module JS.

Unset Elimination Schemes.

Inductive value : Type :=
| VUndef
| VNull
| VBool (b : bool)
| VNum (z : Z)
| VNaN
| VStr (s : string)
| VArr (items : list value)
| VObj (fields : list (string * value)).

Set Elimination Schemes.

(** The fields of [VObj] are listed in enumeration order, the order
    [Object.entries] yields them. *)

Definition truthy (v : value) : bool :=
  match v with
  | VUndef | VNull | VNaN => false
  | VBool b => b
  | VNum z => negb (z =? 0)
  | VStr s => negb (s =? "")%string
  | VArr _ | VObj _ => true
  end.

Definition is_undef (v : value) : bool :=
  match v with VUndef => true | _ => false end.

Definition nullish (v : value) : bool :=
  match v with VUndef | VNull => true | _ => false end.

Definition typeof (v : value) : string :=
  match v with
  | VUndef => "undefined"
  | VNull | VArr _ | VObj _ => "object"
  | VBool _ => "boolean"
  | VNum _ | VNaN => "number"
  | VStr _ => "string"
  end.

Definition isArray (v : value) : bool :=
  match v with VArr _ => true | _ => false end.

(** [a || b] *)
Definition or_else (a b : value) : value := if truthy a then a else b.

(* ----------------------------------------------------------------- *)
(** *** Text *)

Definition dec (z : Z) : string := NilZero.string_of_int (Z.to_int z).
Definition dec_nat (n : nat) : string := dec (Z.of_nat n).

Definition is_space (c : ascii) : bool :=
  let n := nat_of_ascii c in
  ((9 <=? n) && (n <=? 13) || (n =? 32) || (n =? 160))%nat.

Fixpoint trim_start (s : string) : string :=
  match s with
  | String c rest => if is_space c then trim_start rest else s
  | EmptyString => EmptyString
  end.

Definition rev_string (s : string) : string :=
  string_of_list_ascii (rev (list_ascii_of_string s)).

(** [s.trim()] *)
Definition trim (s : string) : string :=
  rev_string (trim_start (rev_string (trim_start s))).

(** [s.startsWith(p)] *)
Definition startsWith (s p : string) : bool := String.prefix p s.

Definition lower (c : ascii) : ascii :=
  let n := nat_of_ascii c in
  if ((65 <=? n) && (n <=? 90)
      || (192 <=? n) && (n <=? 222) && negb (n =? 215))%nat
  then ascii_of_nat (n + 32) else c.

(** [s.toLowerCase()] *)
Fixpoint toLowerCase (s : string) : string :=
  match s with
  | String c rest => String (lower c) (toLowerCase rest)
  | EmptyString => EmptyString
  end.

(** [s.split(sep)] for a one-character separator. *)
Fixpoint split_acc (sep : ascii) (s : string) (piece : string) : list string :=
  match s with
  | EmptyString => [rev_string piece]
  | String c rest =>
      if Ascii.eqb c sep then rev_string piece :: split_acc sep rest EmptyString
      else split_acc sep rest (String c piece)
  end.

Definition split (sep : ascii) (s : string) : list string :=
  split_acc sep s EmptyString.

Definition is_digit (c : ascii) : bool :=
  let n := nat_of_ascii c in ((48 <=? n) && (n <=? 57))%nat.

Definition digit_val (c : ascii) : Z := Z.of_nat (nat_of_ascii c - 48).

Fixpoint digits_acc (s : string) (acc : Z) : Z * string :=
  match s with
  | String c rest =>
      if is_digit c then digits_acc rest (10 * acc + digit_val c) else (acc, s)
  | EmptyString => (acc, s)
  end.

Definition starts_with_digit (s : string) : bool :=
  match s with String c _ => is_digit c | EmptyString => false end.

(** The integer a text starts with, after leading blanks and an optional
    sign; NaN when there is none. *)
Definition parse_int_prefix (s : string) : value :=
  let t := trim_start s in
  match t with
  | String "-" rest =>
      if starts_with_digit rest then VNum (- fst (digits_acc rest 0)) else VNaN
  | String "+" rest =>
      if starts_with_digit rest then VNum (fst (digits_acc rest 0)) else VNaN
  | _ => if starts_with_digit t then VNum (fst (digits_acc t 0)) else VNaN
  end.

(** A key is an array index when it is the decimal text of a number below
    2^32 - 1. *)
Definition array_index (k : string) : option Z :=
  if starts_with_digit k then
    let '(n, rest) := digits_acc k 0 in
    if ((rest =? "")%string && (dec n =? k)%string && (n <? 4294967295))%bool
    then Some n else None
  else None.

(** [isNaN(key)] on a text: the text is not a numeral. *)
Definition isNaN_text (s : string) : bool :=
  let t := trim s in
  if (t =? "")%string then false
  else
    let body := match t with
                | String "-" r => r
                | String "+" r => r
                | _ => t
                end in
    negb (starts_with_digit body && (snd (digits_acc body 0) =? "")%string).

(* ----------------------------------------------------------------- *)
(** *** Objects, arrays and property reads *)

Fixpoint assoc {A : Type} (k : string) (fs : list (string * A)) : option A :=
  match fs with
  | [] => None
  | (k', v) :: rest => if (k' =? k)%string then Some v else assoc k rest
  end.

Fixpoint indexed_from {A : Type} (i : nat) (xs : list A) : list (string * A) :=
  match xs with
  | [] => []
  | x :: rest => (dec_nat i, x) :: indexed_from (S i) rest
  end.

Definition chars (s : string) : list value :=
  map (fun c => VStr (String c EmptyString)) (list_ascii_of_string s).

(** [Object.entries(v)] for a [v] that is neither null nor undefined. *)
Definition entries (v : value) : list (string * value) :=
  match v with
  | VObj fs => fs
  | VArr xs => indexed_from 0 xs
  | VStr s => indexed_from 0 (chars s)
  | _ => []
  end.

Definition values (v : value) : list value := map snd (entries v).
Definition keys (v : value) : list string := map fst (entries v).

Definition of_option (o : option value) : value :=
  match o with Some v => v | None => VUndef end.

(** [v[k]] for a [v] that is neither null nor undefined. *)
Definition own_get (v : value) (k : string) : value :=
  match v with
  | VObj fs => of_option (assoc k fs)
  | VArr xs =>
      if (k =? "length")%string then VNum (Z.of_nat (List.length xs))
      else of_option (assoc k (indexed_from 0 xs))
  | VStr s =>
      if (k =? "length")%string then VNum (Z.of_nat (String.length s))
      else of_option (assoc k (indexed_from 0 (chars s)))
  | _ => VUndef
  end.

(** [v[k]]: reading a property of null or undefined throws. *)
Definition get (v : value) (k : string) : outcome value :=
  if nullish v then Throw TypeError else Ok (own_get v k).

(** [v?.[k]] *)
Definition get_opt (v : value) (k : string) : value :=
  if nullish v then VUndef else own_get v k.

(** The names of the members every object inherits from
    [Object.prototype]: what [o[k]] finds under such a name, when [o] has
    no own property [k], is a function ([__proto__]: the prototype
    itself), which is truthy and has none of the properties the source
    reads by name. *)
Definition OBJECT_PROTOTYPE : list string :=
  [ "constructor"; "__defineGetter__"; "__defineSetter__"; "hasOwnProperty";
    "__lookupGetter__"; "__lookupSetter__"; "isPrototypeOf";
    "propertyIsEnumerable"; "toString"; "valueOf"; "__proto__";
    "toLocaleString" ].

Definition inherited (k : string) : bool :=
  existsb (String.eqb k) OBJECT_PROTOTYPE.

Definition is_letter (c : ascii) : bool :=
  let n := nat_of_ascii c in
  ((65 <=? n) && (n <=? 90) || (97 <=? n) && (n <=? 122))%nat.

(** A key written like the name of a built-in member: letters, [_] and
    [$] only.  The members of the prototypes of arrays, texts, numbers and
    booleans all have such names. *)
Definition name_like (k : string) : bool :=
  forallb (fun c => (is_letter c || Ascii.eqb c "_" || Ascii.eqb c "$")%bool)
    (list_ascii_of_string k).

Fixpoint replace_field {A : Type} (k : string) (v : A) (fs : list (string * A))
  : list (string * A) :=
  match fs with
  | [] => []
  | (k', v') :: rest =>
      if (k' =? k)%string then (k', v) :: rest
      else (k', v') :: replace_field k v rest
  end.

Fixpoint insert_index {A : Type} (n : Z) (k : string) (v : A) (fs : list (string * A))
  : list (string * A) :=
  match fs with
  | [] => [(k, v)]
  | (k', v') :: rest =>
      match array_index k' with
      | Some m => if m <? n then (k', v') :: insert_index n k v rest
                  else (k, v) :: fs
      | None => (k, v) :: fs
      end
  end.

(** [o[k] = v] on the fields of an object: an existing field keeps its
    place; a new index key goes among the index keys, in ascending order,
    ahead of the other keys; any other new key goes last. *)
Definition set_field {A : Type} (k : string) (v : A) (fs : list (string * A))
  : list (string * A) :=
  match assoc k fs with
  | Some _ => replace_field k v fs
  | None =>
      match array_index k with
      | Some n => insert_index n k v fs
      | None => (fs ++ [(k, v)])%list
      end
  end.

(** An object literal: its fields in enumeration order. *)
Definition literal {A : Type} (fs : list (string * A)) : list (string * A) :=
  fold_left (fun acc kv => set_field (fst kv) (snd kv) acc) fs [].

(* ----------------------------------------------------------------- *)
(** *** Conversions and [+] *)

Fixpoint to_str (v : value) : string :=
  match v with
  | VUndef => "undefined"
  | VNull => "null"
  | VBool true => "true"
  | VBool false => "false"
  | VNum z => dec z
  | VNaN => "NaN"
  | VStr s => s
  | VArr xs =>
      (fix join (l : list value) : string :=
         match l with
         | [] => ""
         | x :: rest =>
             let piece := if nullish x then "" else to_str x in
             match rest with
             | [] => piece
             | _ :: _ => piece ++ "," ++ join rest
             end
         end) xs
  | VObj _ => "[object Object]"
  end.

(** The primitive an operand of [+] is converted to. *)
Definition to_primitive (v : value) : value :=
  match v with
  | VArr _ | VObj _ => VStr (to_str v)
  | _ => v
  end.

Definition is_str (v : value) : bool :=
  match v with VStr _ => true | _ => false end.

Definition to_number (v : value) : value :=
  match v with
  | VNull => VNum 0
  | VBool b => VNum (if b then 1 else 0)
  | VNum z => VNum z
  | _ => VNaN
  end.

(** [a + b] *)
Definition add (a b : value) : value :=
  let pa := to_primitive a in
  let pb := to_primitive b in
  if (is_str pa || is_str pb)%bool then VStr (to_str pa ++ to_str pb)
  else
    match to_number pa, to_number pb with
    | VNum x, VNum y => VNum (x + y)
    | _, _ => VNaN
    end.

(** [parseFloat(v)] *)
Definition parseFloat (v : value) : value :=
  match v with
  | VNum z => VNum z
  | VNaN => VNaN
  | _ => parse_int_prefix (to_str v)
  end.

(** The conversion of an object to a text, which [+], [parseFloat] and
    [String] make, is the one the object inherits, unless it has an own
    property named [toString]: what [JSON.parse] puts under that name is
    not a function, and the conversion then throws.  A value is
    convertible when no such object is met: the value itself, and the
    elements of an array, at any depth. *)
Fixpoint convertible (v : value) : bool :=
  match v with
  | VObj fs =>
      match assoc "toString" fs with
      | Some _ => false
      | None => true
      end
  | VArr xs => forallb convertible xs
  | _ => true
  end.

(** The values of a mapping can be summed: each of them is convertible. *)
Definition summable (v : value) : bool := forallb convertible (values v).

End JS.

Import JS.

(* ================================================================= *)
(** ** SECTION 1: COLUMN_SCHEMAS *)

Inductive pattern : Type :=
| PATTERN_A_SIMPLE_TOTALS
| PATTERN_B_SUMMARY_WITH_OBJECT_MAP
| PATTERN_C_SUMMARY_WITH_ARRAY
| PATTERN_D_NESTED_FISCAL_YEAR
| PATTERN_E_NESTED_ENTITY
| PATTERN_F_FLAT_PROFILE.

Inductive container : Type :=
| object_map
| array.

(** The schema properties the helpers read.  A property the source sets to
    [null], or leaves out, is [None]. *)
Record schema : Type := mkSchema {
  column : string;
  columnIndex : nat;
  headerName : string;
  dataSource : string;
  structurePattern : pattern;
  primaryValuePath : option string;
  timeSeriesPath : option string;
  categoriesPath : option string;
  categoryValueType : option container;
  requiredFields : list string;
  arrayItemKeyField : option string;
  arrayItemValueField : option string;
  itemValueField : option string
}.

Definition COLUMN_SCHEMAS : list (string * schema) :=
  [ ("obligations",
     mkSchema "D" 3 "Obligations" "FAS" PATTERN_A_SIMPLE_TOTALS
       (Some "total_obligated") (Some "fiscal_year_obligations") None None
       ["source_file"; "fiscal_year_obligations"; "total_obligated"; "processed_date"]
       None None None);
    ("smallBusiness",
     mkSchema "E" 4 "Small Business" "FAS" PATTERN_B_SUMMARY_WITH_OBJECT_MAP
       (Some "summary.total_all_obligations") None (Some "business_size_summaries")
       (Some object_map)
       ["source_file"; "summary"; "business_size_summaries"; "processed_date"]
       None None None);
    ("sumTier",
     mkSchema "F" 5 "SUM Tier " "FAS" PATTERN_B_SUMMARY_WITH_OBJECT_MAP
       (Some "summary.total_all_obligations") None (Some "tier_summaries")
       (Some object_map)
       ["source_file"; "summary"; "tier_summaries"; "processed_date"]
       None None None);
    ("sumType",
     mkSchema "G" 6 "Sum Type" "FAS" PATTERN_B_SUMMARY_WITH_OBJECT_MAP
       (Some "summary.total_all_obligations") None (Some "sum_type_summaries")
       (Some object_map)
       ["source_file"; "summary"; "sum_type_summaries"; "processed_date"]
       None None None);
    ("contractVehicle",
     mkSchema "H" 7 "Contract Vehicle" "FAS" PATTERN_B_SUMMARY_WITH_OBJECT_MAP
       (Some "summary.total_all_obligations") None (Some "top_contract_summaries")
       (Some object_map)
       ["source_file"; "summary"; "top_contract_summaries"; "processed_date"]
       None None None);
    ("fundingDepartment",
     mkSchema "I" 8 "Funding Department" "FAS" PATTERN_B_SUMMARY_WITH_OBJECT_MAP
       (Some "summary.total_all_departments") None (Some "top_10_department_summaries")
       (Some object_map)
       ["source_file"; "summary"; "top_10_department_summaries"; "processed_date"]
       None None None);
    ("oneGovDiscountedProducts",
     mkSchema "J" 9 "OneGov Discounted Products" "FAS" PATTERN_B_SUMMARY_WITH_OBJECT_MAP
       (Some "summary.total_obligations_with_discounts") None (Some "discount_categories")
       (Some object_map)
       ["source_file"; "discount_status"; "summary"; "discount_categories"; "processed_date"]
       None None None);
    ("topRefPiid",
     mkSchema "K" 10 "Top Ref_PIID" "FAS" PATTERN_C_SUMMARY_WITH_ARRAY
       (Some "total_obligations") (Some "yearly_totals") (Some "top_10_reference_piids")
       (Some array)
       ["source_file"; "total_obligations"; "unique_ref_piids"; "fiscal_years_covered";
        "yearly_totals"; "top_10_reference_piids"; "processed_date"]
       (Some "reference_piid") (Some "dollars_obligated") None);
    ("topPiid",
     mkSchema "L" 11 "Top PIID" "FAS" PATTERN_C_SUMMARY_WITH_ARRAY
       (Some "total_obligations") (Some "yearly_totals") (Some "top_10_piids")
       (Some array)
       ["source_file"; "total_obligations"; "unique_piids"; "fiscal_years_covered";
        "yearly_totals"; "top_10_piids"; "processed_date"]
       (Some "piid") (Some "dollars_obligated") None);
    ("activeContracts",
     mkSchema "M" 12 "Active Contracts" "FAS" PATTERN_D_NESTED_FISCAL_YEAR
       (Some "summary.total_obligations") None (Some "expiring_by_quarter")
       (Some object_map)
       ["source_file"; "summary"; "expiring_by_quarter"; "processed_date"]
       None None None);
    ("expiringDiscountedProducts",
     mkSchema "N" 13 "Expiring OneGov Discounted Products" "FAS" PATTERN_E_NESTED_ENTITY
       (Some "summary.grand_total_all_obligations") None
       (Some "discount_contracts_expiring_by_quarter")
       (Some object_map)
       ["source_file"; "sheet_type"; "grouped_by"; "discount_report_status"; "summary";
        "discount_contracts_expiring_by_quarter"; "processed_date"]
       None None None);
    ("aiProduct",
     mkSchema "O" 14 "AI Product" "FAS" PATTERN_D_NESTED_FISCAL_YEAR
       (Some "summary.grand_total_obligations") None (Some "fiscal_year_summaries")
       (Some object_map)
       ["source_file"; "ai_product_status"; "summary"; "fiscal_year_summaries";
        "processed_date"]
       None None None);
    ("aiCategory",
     mkSchema "P" 15 "AI Category" "FAS" PATTERN_D_NESTED_FISCAL_YEAR
       (Some "summary.grand_total_obligations") None (Some "fiscal_year_summaries")
       (Some object_map)
       ["source_file"; "ai_category_status"; "summary"; "fiscal_year_summaries";
        "processed_date"]
       None None None);
    ("topBicProducts",
     mkSchema "Q" 16 "Top BIC Products" "BIC" PATTERN_C_SUMMARY_WITH_ARRAY
       (Some "summary.total_all_products") (Some "yearly_totals") (Some "top_25_products")
       (Some array)
       ["source_file"; "summary"; "yearly_totals"; "top_25_products"; "processed_date"]
       (Some "product_name") (Some "total_price") None);
    ("reseller",
     mkSchema "R" 17 "Reseller " "FAS" PATTERN_B_SUMMARY_WITH_OBJECT_MAP
       (Some "summary.total_all_resellers") None (Some "top_15_reseller_summaries")
       (Some object_map)
       ["source_file"; "summary"; "top_15_reseller_summaries"; "processed_date"]
       None None None);
    ("bicReseller",
     mkSchema "S" 18 "BIC Reseller" "BIC" PATTERN_C_SUMMARY_WITH_ARRAY
       (Some "summary.total_all_resellers") (Some "yearly_totals") (Some "top_15_resellers")
       (Some array)
       ["source_file"; "summary"; "yearly_totals"; "top_15_resellers"; "processed_date"]
       (Some "vendor_name") (Some "total_sales") None);
    ("bicOem",
     mkSchema "T" 19 "BIC OEM" "BIC" PATTERN_C_SUMMARY_WITH_ARRAY
       (Some "summary.total_all_manufacturers") (Some "yearly_totals")
       (Some "top_15_manufacturers")
       (Some array)
       ["source_file"; "summary"; "yearly_totals"; "top_15_manufacturers"; "processed_date"]
       (Some "manufacturer_name") (Some "total_sales") None);
    ("fasOem",
     mkSchema "U" 20 "FAS OEM" "FAS" PATTERN_B_SUMMARY_WITH_OBJECT_MAP
       (Some "summary.total_all_oems") None (Some "top_10_oem_summaries")
       (Some object_map)
       ["source_file"; "summary"; "top_10_oem_summaries"; "processed_date"]
       None None (Some "total_obligations"));
    ("fundingAgency",
     mkSchema "V" 21 "Funding Agency" "FAS" PATTERN_B_SUMMARY_WITH_OBJECT_MAP
       (Some "summary.total_all_agencies") None (Some "top_10_agency_summaries")
       (Some object_map)
       ["source_file"; "summary"; "top_10_agency_summaries"; "processed_date"]
       None None None);
    ("bicTopProductsPerAgency",
     mkSchema "W" 22 "BIC Top Products per Agency" "BIC" PATTERN_E_NESTED_ENTITY
       (Some "summary.grand_total") (Some "yearly_totals") (Some "top_10_agencies")
       (Some object_map)
       ["source_file"; "summary"; "yearly_totals"; "top_10_agencies"; "processed_date"]
       None None None);
    ("oneGovTier",
     mkSchema "X" 23 "OneGov Tier" "CALCULATED" PATTERN_A_SIMPLE_TOTALS
       (Some "total_obligated") (Some "fiscal_year_tiers") None None
       ["mode_tier"; "overall_tier"; "total_obligated"; "formatted_total";
        "average_obligations_per_year"; "fiscal_year_tiers"; "tier_counts";
        "tier_summary"; "tier_definitions"; "processed_date"]
       None None None);
    ("usaiProfile",
     mkSchema "AC" 28 "USAi Profile" "USAI" PATTERN_F_FLAT_PROFILE
       None None None None
       ["oem_name"]
       None None None) ].

(** SECTION 1B: the object literal lists the letter keys first and the
    index keys after them; [literal] puts them in enumeration order. *)
Definition COLUMN_INDEX_MAP : list (string * string) :=
  Eval vm_compute in literal
  [ ("D", "obligations"); ("E", "smallBusiness"); ("F", "sumTier"); ("G", "sumType");
    ("H", "contractVehicle"); ("I", "fundingDepartment");
    ("J", "oneGovDiscountedProducts"); ("K", "topRefPiid"); ("L", "topPiid");
    ("M", "activeContracts"); ("N", "expiringDiscountedProducts"); ("O", "aiProduct");
    ("P", "aiCategory"); ("Q", "topBicProducts"); ("R", "reseller");
    ("S", "bicReseller"); ("T", "bicOem"); ("U", "fasOem"); ("V", "fundingAgency");
    ("W", "bicTopProductsPerAgency"); ("X", "oneGovTier"); ("AC", "usaiProfile");
    ("3", "obligations"); ("4", "smallBusiness"); ("5", "sumTier"); ("6", "sumType");
    ("7", "contractVehicle"); ("8", "fundingDepartment");
    ("9", "oneGovDiscountedProducts"); ("10", "topRefPiid"); ("11", "topPiid");
    ("12", "activeContracts"); ("13", "expiringDiscountedProducts"); ("14", "aiProduct");
    ("15", "aiCategory"); ("16", "topBicProducts"); ("17", "reseller");
    ("18", "bicReseller"); ("19", "bicOem"); ("20", "fasOem"); ("21", "fundingAgency");
    ("22", "bicTopProductsPerAgency"); ("23", "oneGovTier"); ("28", "usaiProfile") ].

(** A schema property used as a condition: null, undefined and the empty
    text are falsy. *)
Definition present (o : option string) : bool :=
  match o with
  | Some s => negb (s =? "")%string
  | None => false
  end.

(** A schema property used as a property name: [item[undefined]] reads the
    property called "undefined". *)
Definition field_name (o : option string) : string :=
  match o with
  | Some s => s
  | None => "undefined"
  end.

(* ================================================================= *)
(** ** SECTION 4: EXTRACTION_HELPERS *)

(** The callback of the [reduce] in [getNestedValue]:
    [current && current[key] !== undefined ? current[key] : undefined]. *)
Definition nested_step (current : value) (key : string) : outcome value :=
  if truthy current then
    x <- get current key ;;
    if negb (is_undef x) then get current key else Ok VUndef
  else Ok VUndef.

Definition getNestedValue (obj : value) (path : option string) : outcome value :=
  if (negb (present path) || negb (truthy obj))%bool then Ok VUndef
  else forEach nested_step (split "." (field_name path)) obj.

(** In the three extractors a schema key that names a member the registry
    inherits is answered like an unknown key: the member has no
    [primaryValuePath], [timeSeriesPath] or [categoriesPath]. *)
Definition getPrimaryValue (jsonData : value) (schemaKey : string) : outcome value :=
  match assoc schemaKey COLUMN_SCHEMAS with
  | None => Ok VUndef
  | Some schema =>
      if negb (present (primaryValuePath schema)) then Ok VUndef
      else getNestedValue jsonData (primaryValuePath schema)
  end.

(** [fyTotals[year] = (fyTotals[year] || 0) + value] *)
Definition add_year (fyTotals : list (string * value)) (year : string) (v : value)
  : list (string * value) :=
  set_field year (add (or_else (own_get (VObj fyTotals) year) (VNum 0)) v) fyTotals.

(** The callback over the entries of the [fiscal_years] of one category
    (Pattern B). *)
Definition year_body (fyTotals : list (string * value)) (entry : string * value)
  : outcome (list (string * value)) :=
  let (year, v) := entry in
  Ok (add_year fyTotals year v).

(** The callback of [Object.values(categories).forEach] (Pattern B). *)
Definition map_years_body (fyTotals : list (string * value)) (categoryData : value)
  : outcome (list (string * value)) :=
  fiscal_years <- get categoryData "fiscal_years" ;;
  if truthy fiscal_years then forEach year_body (entries fiscal_years) fyTotals
  else Ok fyTotals.

(** The callback over the entries of the [fiscal_year_breakdown] of one item
    (Pattern C). *)
Definition breakdown_body (fyTotals : list (string * value)) (entry : string * value)
  : outcome (list (string * value)) :=
  let (year, yearData) := entry in
  o <- get yearData "obligations" ;;
  v <- (if truthy o then Ok o else
        p <- get yearData "total_price" ;;
        if truthy p then Ok p else
        s <- get yearData "total_sales" ;;
        Ok (or_else s (VNum 0))) ;;
  Ok (add_year fyTotals year v).

(** The callback of [categories.forEach] (Pattern C). *)
Definition array_years_body (fyTotals : list (string * value)) (item : value)
  : outcome (list (string * value)) :=
  fyBreakdown <- get item "fiscal_year_breakdown" ;;
  if truthy fyBreakdown then forEach breakdown_body (entries fyBreakdown) fyTotals
  else Ok fyTotals.

Definition getFiscalYearData (jsonData : value) (schemaKey : string) : outcome value :=
  match assoc schemaKey COLUMN_SCHEMAS with
  | None => Ok VUndef
  | Some schema =>
      (* Pattern A: Direct fiscal_year_obligations *)
      if present (timeSeriesPath schema) then
        getNestedValue jsonData (timeSeriesPath schema)
      (* Pattern B/C: Need to aggregate from categories *)
      else if present (categoriesPath schema) then
        categories <- getNestedValue jsonData (categoriesPath schema) ;;
        if negb (truthy categories) then Ok VUndef
        else
          fyTotals <-
            match categories with
            | VArr items => forEach array_years_body items []
            | _ => forEach map_years_body (values categories) []
            end ;;
          Ok (if (0 <? List.length (keys (VObj fyTotals)))%nat then VObj fyTotals
              else VUndef)
      else Ok VUndef
  end.

(** The object literal [{ name, value, percentage, fiscalYears }]. *)
Definition category (name val percentage fiscalYears : value) : value :=
  VObj [ ("name", name); ("value", val); ("percentage", percentage);
         ("fiscalYears", fiscalYears) ].

(** The callback of [categories.forEach] over an array (Pattern C). *)
Definition array_body (s : schema) (result : list value) (item : value)
  : outcome (list value) :=
  n <- get item (field_name (arrayItemKeyField s)) ;;
  v <- get item (field_name (arrayItemValueField s)) ;;
  p <- get item "percentage_of_total" ;;
  fy <- get item "fiscal_year_breakdown" ;;
  Ok (result ++ [category n v p (or_else fy (VObj []))])%list.

(** The callback of [Object.entries(categories).forEach] (Pattern B). *)
Definition map_body (result : list value) (entry : string * value)
  : outcome (list value) :=
  let (name, data) := entry in
  (* Handle the Column U special case (total_obligations vs total) *)
  t <- get data "total_obligations" ;;
  v <- (if negb (is_undef t) then get data "total_obligations" else get data "total") ;;
  p <- get data "percentage_of_total" ;;
  fy <- get data "fiscal_years" ;;
  Ok (result ++ [category (VStr name) v p (or_else fy (VObj []))])%list.

Definition getCategories (jsonData : value) (schemaKey : string) : outcome value :=
  match assoc schemaKey COLUMN_SCHEMAS with
  | None => Ok (VArr [])
  | Some schema =>
      if negb (present (categoriesPath schema)) then Ok (VArr [])
      else
        categories <- getNestedValue jsonData (categoriesPath schema) ;;
        if negb (truthy categories) then Ok (VArr [])
        else
          result <-
            match categoryValueType schema with
            | Some array =>
                match categories with
                | VArr items => forEach (array_body schema) items []
                | _ => Throw TypeError  (* categories.forEach is not a function *)
                end
            | _ => forEach map_body (entries categories) []
            end ;;
          Ok (VArr result)
  end.

(** The text of a [structurePattern]. *)
Definition pattern_name (p : pattern) : string :=
  match p with
  | PATTERN_A_SIMPLE_TOTALS => "PATTERN_A_SIMPLE_TOTALS"
  | PATTERN_B_SUMMARY_WITH_OBJECT_MAP => "PATTERN_B_SUMMARY_WITH_OBJECT_MAP"
  | PATTERN_C_SUMMARY_WITH_ARRAY => "PATTERN_C_SUMMARY_WITH_ARRAY"
  | PATTERN_D_NESTED_FISCAL_YEAR => "PATTERN_D_NESTED_FISCAL_YEAR"
  | PATTERN_E_NESTED_ENTITY => "PATTERN_E_NESTED_ENTITY"
  | PATTERN_F_FLAT_PROFILE => "PATTERN_F_FLAT_PROFILE"
  end.

Definition extractNormalizedData (jsonData : value) (schemaKey : string)
  : outcome value :=
  match assoc schemaKey COLUMN_SCHEMAS with
  | None =>
      if inherited schemaKey then
        (* [schema] is a member the registry inherits: it is truthy, and
           its [column], [columnIndex], ... are undefined *)
        primaryValue <- getPrimaryValue jsonData schemaKey ;;
        fiscalYears <- getFiscalYearData jsonData schemaKey ;;
        categories <- getCategories jsonData schemaKey ;;
        processedDate <- get jsonData "processed_date" ;;
        sourceFile <- get jsonData "source_file" ;;
        Ok (VObj
              [ ("schema",
                 VObj [ ("column", VUndef);
                        ("columnIndex", VUndef);
                        ("headerName", VUndef);
                        ("structurePattern", VUndef);
                        ("dataSource", VUndef) ]);
                ("primaryValue", primaryValue);
                ("fiscalYears", fiscalYears);
                ("categories", categories);
                ("metadata",
                 VObj [ ("processedDate", processedDate);
                        ("sourceFile", sourceFile) ]) ])
      else Ok VNull
  | Some schema =>
      primaryValue <- getPrimaryValue jsonData schemaKey ;;
      fiscalYears <- getFiscalYearData jsonData schemaKey ;;
      categories <- getCategories jsonData schemaKey ;;
      processedDate <- get jsonData "processed_date" ;;
      sourceFile <- get jsonData "source_file" ;;
      Ok (VObj
            [ ("schema",
               VObj [ ("column", VStr (column schema));
                      ("columnIndex", VNum (Z.of_nat (columnIndex schema)));
                      ("headerName", VStr (headerName schema));
                      ("structurePattern", VStr (pattern_name (structurePattern schema)));
                      ("dataSource", VStr (dataSource schema)) ]);
              ("primaryValue", primaryValue);
              ("fiscalYears", fiscalYears);
              ("categories", categories);
              ("metadata",
               VObj [ ("processedDate", processedDate);
                      ("sourceFile", sourceFile) ]) ])
  end.

(* ================================================================= *)
(** ** SECTION 5: VALIDATION_FUNCTIONS *)

Record validation : Type := mkValidation {
  isValid : bool;
  errors : list string;
  warnings : list string
}.

Definition add_error (r : validation) (msg : string) : validation :=
  mkValidation false (errors r ++ [msg])%list (warnings r).

Definition add_warning (r : validation) (msg : string) : validation :=
  mkValidation (isValid r) (errors r) (warnings r ++ [msg])%list.

Definition validateJsonStructure (jsonData : value) (schemaKey : string)
  : outcome validation :=
  let result := mkValidation true [] [] in
  match assoc schemaKey COLUMN_SCHEMAS with
  | None =>
      if inherited schemaKey then
        (* [schema] is a member the registry inherits: it is truthy, and
           has no [requiredFields], [primaryValuePath] or [categoriesPath] *)
        if (negb (truthy jsonData) || negb (typeof jsonData =? "object")%string)%bool
        then Ok (add_error result "JSON data is null or not an object")
        else Ok result
      else Ok (add_error result ("Unknown schema key: " ++ schemaKey))
  | Some schema =>
      if (negb (truthy jsonData) || negb (typeof jsonData =? "object")%string)%bool
      then Ok (add_error result "JSON data is null or not an object")
      else
        (* Check required fields *)
        result <-
          forEach (fun r field =>
            v <- getNestedValue jsonData (Some field) ;;
            Ok (if is_undef v then add_error r ("Missing required field: " ++ field)
                else r))
            (requiredFields schema) result ;;
        (* Check primary value exists and is a number *)
        result <-
          (if present (primaryValuePath schema) then
             primaryValue <- getNestedValue jsonData (primaryValuePath schema) ;;
             Ok (if is_undef primaryValue then
                   add_warning result
                     ("Primary value path '" ++ field_name (primaryValuePath schema)
                      ++ "' not found")
                 else if negb (typeof primaryValue =? "number")%string then
                   add_warning result
                     ("Primary value is not a number: " ++ typeof primaryValue)
                 else result)
           else Ok result) ;;
        (* Check categories path exists *)
        if present (categoriesPath schema) then
          categories <- getNestedValue jsonData (categoriesPath schema) ;;
          let path := field_name (categoriesPath schema) in
          Ok (if is_undef categories then
                add_warning result ("Categories path '" ++ path ++ "' not found")
              else
                match categoryValueType schema with
                | Some array =>
                    if negb (isArray categories) then
                      add_error result
                        ("Expected array at '" ++ path ++ "', got " ++ typeof categories)
                    else result
                | Some object_map =>
                    if (isArray categories
                        || negb (typeof categories =? "object")%string)%bool then
                      add_error result
                        ("Expected object at '" ++ path ++ "', got "
                         ++ (if isArray categories then "array" else typeof categories))
                    else result
                | None => result
                end)
        else Ok result
  end.

(** What [JSON.parse] does with a text: a value, or a [SyntaxError] with its
    message. *)
Inductive decoded : Type :=
| Decoded (v : value)
| Malformed (message : string).

Record parsed : Type := mkParsed {
  parsed_isValid : bool;
  parsed_data : value;
  parsed_error : value
}.

(** [cellValue.trim()]: only a text has the method. *)
Definition call_trim (v : value) : outcome string :=
  match v with
  | VStr s => Ok (trim s)
  | _ => Throw TypeError
  end.

Section Decoder.

Variable JSON_parse : string -> decoded.

Definition parseAndValidateJson (jsonString : value) : outcome parsed :=
  if (negb (truthy jsonString) || negb (typeof jsonString =? "string")%string)%bool
  then Ok (mkParsed false VNull (VStr "Input is not a string"))
  else
    trimmed <- call_trim jsonString ;;
    if negb (startsWith trimmed "{") then
      Ok (mkParsed false VNull (VStr "String does not start with {"))
    else
      match JSON_parse trimmed with
      | Decoded data => Ok (mkParsed true data VNull)
      | Malformed message => Ok (mkParsed false VNull (VStr message))
      end.

Definition texts (l : list string) : value := VArr (map VStr l).

(** The body of the loop in [validateRowJsonColumns] for one entry of
    [COLUMN_INDEX_MAP]: what is stored at [results[key]]; [None] when the
    entry is skipped. *)
Definition column_report (rowData : list value) (key schemaKey : string)
  : outcome (option value) :=
  (* Skip numeric keys (they're duplicates of letter keys) *)
  if negb (isNaN_text key) then Ok None
  else
    match assoc schemaKey COLUMN_SCHEMAS with
    | None => Throw TypeError
    | Some schema =>
        let cellValue := nth (columnIndex schema) rowData VUndef in
        blank <- (if negb (truthy cellValue) then Ok true
                  else t <- call_trim cellValue ;; Ok (t =? "")%string) ;;
        if (blank : bool) then
          Ok (Some (VObj [("status", VStr "empty"); ("schemaKey", VStr schemaKey)]))
        else
          parseResult <- parseAndValidateJson cellValue ;;
          if negb (parsed_isValid parseResult) then
            Ok (Some (VObj [("status", VStr "parse_error");
                            ("error", parsed_error parseResult);
                            ("schemaKey", VStr schemaKey)]))
          else
            validationResult <-
              validateJsonStructure (parsed_data parseResult) schemaKey ;;
            Ok (Some (VObj [("status",
                             VStr (if isValid validationResult then "valid"
                                   else "invalid"));
                            ("errors", texts (errors validationResult));
                            ("warnings", texts (warnings validationResult));
                            ("schemaKey", VStr schemaKey)]))
    end.

Definition store_report (key : string) (report : option value)
  (results : list (string * value)) : list (string * value) :=
  match report with
  | Some r => set_field key r results
  | None => results
  end.

Definition validateRowJsonColumns (rowData : list value) : outcome value :=
  results <-
    forEach (fun results (entry : string * string) =>
      report <- column_report rowData (fst entry) (snd entry) ;;
      Ok (store_report (fst entry) report results))
      COLUMN_INDEX_MAP [] ;;
  Ok (VObj results).

End Decoder.

(* ================================================================= *)
(** ** The data manager: [OneGovDataManager] *)

(** An array of entities: the identity of the array object and its
    elements. *)
Record entity_list : Type := mkList {
  address : nat;
  items : list value
}.

(** [this.cache]; [None] is [null]. *)
Record cache_t : Type := mkCache {
  agencies : option entity_list;
  oems : option entity_list;
  vendors : option entity_list;
  lastUpdated : option Z;
  isLoading : bool
}.

(** Calls to the spreadsheet service. *)
Inductive io : Type :=
| OpenById
| GetSheetByName (sheetName : string)
| GetValues (sheetName : string).

(** The manager with the two things around it that its methods change: the
    address the next new array gets, and the service calls made so far. *)
Record manager : Type := mkManager {
  cache : cache_t;
  next_address : nat;
  io_log : list io
}.

(** What the spreadsheet service answers. *)
Inductive sheet_read : Type :=
| NoSuchSheet
| ReadFails
| Rows (rows : list (list value)).

Record source : Type := mkSource {
  opens : bool;
  sheet : string -> sheet_read
}.

(** Methods: a result or an exception, and the manager afterwards. *)
Definition M (A : Type) : Type := manager -> outcome A * manager.

Definition ret {A : Type} (a : A) : M A := fun m => (Ok a, m).

Definition throw {A : Type} (e : exn) : M A := fun m => (Throw e, m).

Definition bindM {A B : Type} (c : M A) (k : A -> M B) : M B :=
  fun m =>
    match c m with
    | (Ok a, m') => k a m'
    | (Throw e, m') => (Throw e, m')
    end.

Definition try_catch {A : Type} (c : M A) (handler : exn -> M A) : M A :=
  fun m =>
    match c m with
    | (Ok a, m') => (Ok a, m')
    | (Throw e, m') => handler e m'
    end.

Definition lift {A : Type} (c : outcome A) : M A := fun m => (c, m).

Definition read_cache : M cache_t := fun m => (Ok (cache m), m).

Definition update_cache (f : cache_t -> cache_t) : M unit :=
  fun m => (Ok tt, mkManager (f (cache m)) (next_address m) (io_log m)).

Definition call_service (e : io) : M unit :=
  fun m => (Ok tt, mkManager (cache m) (next_address m) (io_log m ++ [e])%list).

(** A new array object holding [xs]. *)
Definition new_array (xs : list value) : M entity_list :=
  fun m => (Ok (mkList (next_address m) xs),
            mkManager (cache m) (S (next_address m)) (io_log m)).

Notation "x <~ c ;; k" := (bindM c (fun x => k))
  (at level 61, c at next level, right associativity).
Notation "c ;;; k" := (bindM c (fun _ => k))
  (at level 61, right associativity).

Definition set_agencies (l : entity_list) (c : cache_t) : cache_t :=
  mkCache (Some l) (oems c) (vendors c) (lastUpdated c) (isLoading c).
Definition set_oems (l : entity_list) (c : cache_t) : cache_t :=
  mkCache (agencies c) (Some l) (vendors c) (lastUpdated c) (isLoading c).
Definition set_vendors (l : entity_list) (c : cache_t) : cache_t :=
  mkCache (agencies c) (oems c) (Some l) (lastUpdated c) (isLoading c).
Definition set_lastUpdated (t : Z) (c : cache_t) : cache_t :=
  mkCache (agencies c) (oems c) (vendors c) (Some t) (isLoading c).
Definition set_isLoading (b : bool) (c : cache_t) : cache_t :=
  mkCache (agencies c) (oems c) (vendors c) (lastUpdated c) b.

(** The constructor's [this.cache]. *)
Definition empty_cache : cache_t := mkCache None None None None false.

(** [this.TTL]: 2 minutes, in milliseconds. *)
Definition TTL : Z := 2 * 60 * 1000.

Record mapping : Type := mkMapping {
  sheetName : string;
  columns : list (string * nat)
}.

Definition shared_columns : list (string * nat) :=
  [ ("name", 2); ("parentCompany", 3); ("obligations", 4); ("smallBusiness", 5);
    ("sumTier", 6); ("sumType", 7); ("contractVehicle", 8); ("fundingDepartment", 9);
    ("discount", 10); ("topRefPiid", 11); ("topPiid", 12); ("activeContracts", 13);
    ("discountOfferings", 14); ("aiProduct", 15); ("aiCategory", 16);
    ("topBicProducts", 17); ("reseller", 18); ("bicReseller", 19); ("bicOem", 20);
    ("fasOem", 21); ("fundingAgency", 22); ("bicTopProductsPerAgency", 23);
    ("oneGovTier", 24); ("fasDataTable", 25); ("fasTimestamp", 26);
    ("bicDataTable", 27); ("bicTimestamp", 28) ]%nat.

(** [_initializeColumnMappings]: the three mappings differ in the name of
    their first column only. *)
Definition columnMappings : list (string * mapping) :=
  [ ("agency", mkMapping "Agency" (("agencyCode", 1%nat) :: shared_columns));
    ("oem", mkMapping "OEM" (("duns", 1%nat) :: shared_columns));
    ("vendor", mkMapping "Vendor" (("uei", 1%nat) :: shared_columns)) ].

Definition needsRefresh (now : Z) (c : cache_t) : bool :=
  match lastUpdated c with
  | None => true
  | Some t =>
      if t =? 0 then true
      else
        match agencies c, oems c, vendors c with
        | Some _, Some _, Some _ => now - t >? TTL
        | _, _, _ => true
        end
  end.

Definition isJsonColumn (columnName : string) : bool :=
  existsb (String.eqb columnName)
    [ "obligations"; "smallBusiness"; "sumTier"; "sumType";
      "contractVehicle"; "fundingDepartment"; "discount";
      "topRefPiid"; "topPiid"; "activeContracts"; "discountOfferings";
      "aiProduct"; "aiCategory"; "topBicProducts"; "reseller";
      "bicReseller"; "bicOem"; "fasOem"; "fundingAgency";
      "bicTopProductsPerAgency"; "oneGovTier" ].

Definition extractTotalObligations (obligationsJson : value) : outcome value :=
  if negb (truthy obligationsJson) then Ok (VNum 0)
  else
    (* Check various possible structures *)
    total_obligated <- get obligationsJson "total_obligated" ;;
    if truthy total_obligated then get obligationsJson "total_obligated"
    else
      summary <- get obligationsJson "summary" ;;
      if truthy (get_opt summary "total_obligations") then
        summary <- get obligationsJson "summary" ;;
        get summary "total_obligations"
      else
        fiscal_year_obligations <- get obligationsJson "fiscal_year_obligations" ;;
        if truthy fiscal_year_obligations then
          Ok (fold_left (fun sum val => add sum (or_else (parseFloat val) (VNum 0)))
                (values fiscal_year_obligations) (VNum 0))
        else Ok (VNum 0).

Definition extractTier (entity : value) : outcome value :=
  oneGovTier <- get entity "oneGovTier" ;;
  if truthy (get_opt oneGovTier "mode_tier") then get oneGovTier "mode_tier"
  else
    sumTier <- get entity "sumTier" ;;
    if truthy (get_opt sumTier "tier") then get sumTier "tier"
    else Ok VNull.

Definition checkAIProducts (entity : value) : outcome bool :=
  aiProduct <- get entity "aiProduct" ;;
  Ok (truthy aiProduct && (0 <? List.length (keys aiProduct))%nat)%bool.

Section DataManager.

Variable JSON_parse : string -> decoded.

Definition parseJSON (v : value) : value :=
  if negb (truthy v) then VNull
  else
    (* Already an object *)
    if (typeof v =? "object")%string then v
    else
      (* Empty or invalid *)
      let strValue := trim (to_str v) in
      if ((strValue =? "") || (strValue =? "{}") || (strValue =? "[]"))%string
      then VNull
      else
        match JSON_parse strValue with
        | Decoded data => data
        | Malformed _ => VNull
        end.

(** One turn of the loop over [Object.entries(config.columns)]. *)
Definition store_column (row : list value) (entity : list (string * value))
  (column : string * nat) : list (string * value) :=
  let (key, colIndex) := column in
  if (key =? "name")%string then entity (* Already processed *)
  else
    let v := nth (colIndex - 1) row VUndef in
    (* Handle JSON columns *)
    if isJsonColumn key then set_field key (parseJSON v) entity
    (* Handle regular columns *)
    else set_field key v entity.

(** One turn of the loop over the rows of a sheet; [None] is [continue]. *)
Definition load_row (entityType : string) (config : mapping) (i : nat)
  (row : list value) : outcome (option value) :=
  let name := match assoc "name" (columns config) with
              | Some colIndex => nth (colIndex - 1) row VUndef
              | None => VUndef
              end in
  skip <- (if negb (truthy name) then Ok true
           else t <- call_trim name ;; Ok (t =? "")%string) ;;
  if (skip : bool) then Ok None
  else
    trimmed <- call_trim name ;;
    let entity :=
      [ ("id", VStr (entityType ++ "_" ++ dec_nat i));
        ("name", VStr trimmed);
        ("type", VStr entityType);
        ("rowIndex", VNum (Z.of_nat i)) ] in
    (* Parse all columns *)
    let entity := fold_left (store_column row) (columns config) entity in
    (* Calculate derived fields *)
    obligations <- get (VObj entity) "obligations" ;;
    total <- extractTotalObligations obligations ;;
    let entity := set_field "totalObligations" total entity in
    tier <- extractTier (VObj entity) ;;
    let entity := set_field "tier" tier entity in
    ai <- checkAIProducts (VObj entity) ;;
    let entity := set_field "hasAIProducts" (VBool ai) entity in
    Ok (Some (VObj entity)).

(** The loop [for (let i = 1; i < values.length; i++)] from row [i] on. *)
Fixpoint load_rows (entityType : string) (config : mapping) (i : nat)
  (rows : list (list value)) (entities : list value) : outcome (list value) :=
  match rows with
  | [] => Ok entities
  | row :: rest =>
      r <- load_row entityType config i row ;;
      load_rows entityType config (S i) rest
        (match r with
         | Some entity => entities ++ [entity]
         | None => entities
         end)%list
  end.

Definition loadEntitySheet (spreadsheet : source) (entityType : string)
  : M entity_list :=
  match assoc entityType columnMappings with
  | None => throw TypeError
  | Some config =>
      call_service (GetSheetByName (sheetName config)) ;;;
      match sheet spreadsheet (sheetName config) with
      | NoSuchSheet => new_array []
      | ReadFails =>
          call_service (GetValues (sheetName config)) ;;; throw ServiceError
      | Rows values =>
          call_service (GetValues (sheetName config)) ;;;
          entities <~ new_array [] ;;
          (* Process rows (skip header) *)
          loaded <~ lift (load_rows entityType config 1 (tl values) []) ;;
          ret (mkList (address entities) loaded)
      end
  end.

(** [now] is the time [needsRefresh] reads, [later] the time read when the
    three sheets are loaded. *)
Definition loadAllData (spreadsheet : source) (now later : Z) (forceRefresh : bool)
  : M cache_t :=
  c <~ read_cache ;;
  (* Return cached data if still valid *)
  if (negb forceRefresh && negb (needsRefresh now c))%bool then read_cache
  (* Prevent multiple simultaneous loads *)
  else if isLoading c then read_cache
  else
    try_catch
      (update_cache (set_isLoading true) ;;;
       call_service OpenById ;;;
       (if opens spreadsheet then ret tt else throw ServiceError) ;;;
       (* Load all three entity types *)
       l <~ loadEntitySheet spreadsheet "agency" ;;
       update_cache (set_agencies l) ;;;
       l <~ loadEntitySheet spreadsheet "oem" ;;
       update_cache (set_oems l) ;;;
       l <~ loadEntitySheet spreadsheet "vendor" ;;
       update_cache (set_vendors l) ;;;
       update_cache (set_lastUpdated later) ;;;
       update_cache (set_isLoading false) ;;;
       read_cache)
      (fun error =>
         update_cache (set_isLoading false) ;;;
         throw error).

(** [[...a, ...b, ...c]]: spreading [null] throws. *)
Definition spread3 (a b c : option entity_list) : M entity_list :=
  match a, b, c with
  | Some a, Some b, Some c => new_array (items a ++ items b ++ items c)
  | _, _, _ => throw TypeError
  end.

(** [entityType?.toLowerCase()]; [None] is [undefined]. *)
Definition lowered (entityType : value) : outcome (option string) :=
  match entityType with
  | VUndef | VNull => Ok None
  | VStr s => Ok (Some (toLowerCase s))
  | _ => Throw TypeError
  end.

Definition getEntities (spreadsheet : source) (now later : Z)
  (entityType : value) (forceRefresh : bool) : M (option entity_list) :=
  data <~ loadAllData spreadsheet now later forceRefresh ;;
  t <~ lift (lowered entityType) ;;
  (* Return all if no type specified *)
  let all :=
    l <~ spread3 (agencies data) (oems data) (vendors data) ;;
    ret (Some l) in
  match t with
  | Some s =>
      if (s =? "agency")%string then ret (agencies data)
      else if (s =? "oem")%string then ret (oems data)
      else if (s =? "vendor")%string then ret (vendors data)
      else all
  | None => all
  end.

End DataManager.

(* ================================================================= *)
(** ** Notions the statements below use *)

(** A decoder given by a table of texts and the values they decode to; it
    rejects every other text.  The examples run with such a decoder, listing
    the texts they read. *)
Definition decode_table (table : list (string * value)) (text : string) : decoded :=
  match assoc text table with
  | Some v => Decoded v
  | None => Malformed "Unexpected token"
  end.

(** The value stored at a path: each step names an own property, which is
    a field of an object, an element or the length of an array, a
    character or the length of a text that is not empty. *)
Fixpoint stored_at (v : value) (path : list string) : option value :=
  match path with
  | [] => Some v
  | k :: rest =>
      match v with
      | VObj fs =>
          match assoc k fs with
          | Some x => stored_at x rest
          | None => None
          end
      | VArr xs =>
          if (k =? "length")%string then
            stored_at (VNum (Z.of_nat (List.length xs))) rest
          else
            match assoc k (indexed_from 0 xs) with
            | Some x => stored_at x rest
            | None => None
            end
      | VStr s =>
          if (s =? "")%string then None
          else if (k =? "length")%string then
            stored_at (VNum (Z.of_nat (String.length s))) rest
          else
            match assoc k (indexed_from 0 (chars s)) with
            | Some x => stored_at x rest
            | None => None
            end
      | _ => None
      end
  end.

(** A mapping: an object, or an array taken as a mapping from indices. *)
Definition is_mapping (v : value) : bool :=
  match v with
  | VObj _ | VArr _ => true
  | _ => false
  end.

(** The value reached is falsy, or has no property [k]. *)
Definition lacks (v : value) (k : string) : bool :=
  (negb (truthy v) || is_undef (own_get v k))%bool.

(** The value has no property [k], neither its own nor inherited: no own
    property of that name and, for an object, a name that is none of
    [OBJECT_PROTOTYPE]; for an array, a text, a number or a boolean, a key
    that is not written like a name (so an index, or a key with a digit, a
    blank or a hyphen). *)
Definition absent (v : value) (k : string) : bool :=
  (is_undef (own_get v k)
   && match v with
      | VObj _ => negb (inherited k)
      | _ => negb (name_like k)
      end)%bool.

(** An element of the shape [{ name, value, percentage, fiscalYears }]. *)
Definition is_category (v : value) : bool :=
  match v with
  | VObj [ (k1, _); (k2, _); (k3, _); (k4, _) ] =>
      ((k1 =? "name") && (k2 =? "value") && (k3 =? "percentage")
       && (k4 =? "fiscalYears"))%string
  | _ => false
  end.

(** What [getCategories] makes of one entry of an object map. *)
Definition map_category (entry : string * value) : value :=
  let (name, data) := entry in
  category (VStr name)
    (if is_undef (own_get data "total_obligations") then own_get data "total"
     else own_get data "total_obligations")
    (own_get data "percentage_of_total")
    (or_else (own_get data "fiscal_years") (VObj [])).

(** What [getCategories] makes of one item of an array. *)
Definition array_category (s : schema) (item : value) : value :=
  category (own_get item (field_name (arrayItemKeyField s)))
    (own_get item (field_name (arrayItemValueField s)))
    (own_get item "percentage_of_total")
    (or_else (own_get item "fiscal_year_breakdown") (VObj [])).

(** The field the schema names for the value of an entry, [total] when it
    names none. *)
Definition declared_value_field (s : schema) : string :=
  match itemValueField s with
  | Some f => f
  | None => "total"
  end.

(** The value the path resolver returns ([getNestedValue] never throws, see
    [getNestedValue_resolved]). *)
Definition resolved (obj : value) (path : option string) : value :=
  match getNestedValue obj path with
  | Ok v => v
  | Throw _ => VUndef
  end.

(** No entry of the list is null or undefined. *)
Definition all_defined (vs : list value) : bool :=
  forallb (fun v => negb (nullish v)) vs.



Definition sum (zs : list Z) : Z := fold_right Z.add 0 zs.

Fixpoint distinct (ks : list string) : bool :=
  match ks with
  | [] => true
  | k :: rest => (negb (existsb (String.eqb k) rest) && distinct rest)%bool
  end.




(** Some required field of the schema is missing from the value. *)
Definition missing_required (s : schema) (jsonData : value) : bool :=
  existsb (fun field => is_undef (resolved jsonData (Some field))) (requiredFields s).

Definition is_object_map (v : value) : bool :=
  match v with VObj _ => true | _ => false end.

(** The runtime shape of a container disagrees with the declared kind. *)
Definition shape_disagrees (kind : option container) (c : value) : bool :=
  match kind with
  | Some array => negb (isArray c)
  | Some object_map => negb (is_object_map c)
  | None => false
  end.

(** The container test [validateJsonStructure] makes. *)
Definition container_rejected (kind : option container) (c : value) : bool :=
  match kind with
  | Some array => negb (isArray c)
  | Some object_map => (isArray c || negb (typeof c =? "object")%string)%bool
  | None => false
  end.

(** A cell that holds a text, or nothing. *)
Definition text_or_empty (v : value) : bool :=
  (negb (truthy v) || is_str v)%bool.

(** The cells of a row that [validateRowJsonColumns] reads: those under
    the columns that the index map lists by their letter. *)
Definition report_cells (rowData : list value) : list value :=
  flat_map (fun entry : string * string =>
              if isNaN_text (fst entry) then
                match assoc (snd entry) COLUMN_SCHEMAS with
                | Some s => [nth (columnIndex s) rowData VUndef]
                | None => []
                end
              else []) COLUMN_INDEX_MAP.

(** What the loop of [validateRowJsonColumns] stores for an entry. *)
Definition report_of (JSON_parse : string -> decoded) (rowData : list value)
  (entry : string * string) : option value :=
  match column_report JSON_parse rowData (fst entry) (snd entry) with
  | Ok r => r
  | Throw _ => None
  end.

(** The sum [extractTotalObligations] makes of the fiscal-year values. *)
Definition summed_years (fiscal_year_obligations : value) : value :=
  fold_left (fun sum val => add sum (or_else (parseFloat val) (VNum 0)))
    (values fiscal_year_obligations) (VNum 0).

(** The value [extractTotalObligations] returns (it never throws, see
    [extractTotalObligations_value]). *)
Definition total_of (o : value) : value :=
  if negb (truthy o) then VNum 0
  else if truthy (own_get o "total_obligated") then own_get o "total_obligated"
  else if truthy (get_opt (own_get o "summary") "total_obligations")
       then own_get (own_get o "summary") "total_obligations"
  else if truthy (own_get o "fiscal_year_obligations")
       then summed_years (own_get o "fiscal_year_obligations")
  else VNum 0.

(** The entity fields of a row once its columns are stored, before the
    derived fields. *)
Definition stored_columns (JSON_parse : string -> decoded) (entityType : string)
  (config : mapping) (i : nat) (row : list value) (trimmed : string)
  : list (string * value) :=
  fold_left (store_column JSON_parse row) (columns config)
    [ ("id", VStr (entityType ++ "_" ++ dec_nat i));
      ("name", VStr trimmed);
      ("type", VStr entityType);
      ("rowIndex", VNum (Z.of_nat i)) ].

(** The cell of a row under a column number (numbers start at 1). *)
Definition cell (row : list value) (colIndex : nat) : value :=
  nth (colIndex - 1) row VUndef.

(** Storing under a key what an entry of a loop yields, if anything. *)
Definition store {A : Type} (key : string) (o : option A) (fs : list (string * A))
  : list (string * A) :=
  match o with
  | Some v => set_field key v fs
  | None => fs
  end.


(** The double quote, for the JSON texts of the examples. *)
Definition quote : string := String (ascii_of_nat 34) EmptyString.

(** The text [{"total_obligated": 500}]. *)
Definition total_text : string :=
  "{" ++ quote ++ "total_obligated" ++ quote ++ ": 500}".


(** A spreadsheet whose Agency sheet has one row, whose OEM sheet cannot be
    read, and whose Vendor sheet is empty. *)
Definition oem_unreadable : source :=
  mkSource true
    (fun name =>
       if (name =? "Agency")%string then
         Rows [ [VStr "Code"; VStr "Agency"]; [VStr "A-1"; VStr "Acme"] ]
       else if (name =? "OEM")%string then ReadFails
       else Rows []).

(** A manager whose cache was loaded at time 1000: three lists, at the
    addresses 0, 1 and 2. *)
Definition loaded_manager : manager :=
  mkManager
    (mkCache (Some (mkList 0 [VObj [("name", VStr "Old Agency")]]))
             (Some (mkList 1 [VObj [("name", VStr "Old OEM")]]))
             (Some (mkList 2 [VObj [("name", VStr "Old Vendor")]]))
             (Some 1000) false)
    3 [].

(** *** Examples and auxiliary notions *)

Definition tier_summaries_example : value :=
  VObj [ ("summary", VObj [("total_all_obligations", VNum 300)]);
         ("tier_summaries",
          VObj [ ("A", VObj [("total", VNum 200);
                             ("fiscal_years", VObj [("2024", VNum 200)])]);
                 ("B", VObj [("total", VNum 100);
                             ("fiscal_years", VObj [("2024", VNum 100)])]) ]) ].

Definition oem_summaries_example : value :=
  VObj [ ("top_10_oem_summaries",
          VObj [ ("CISCO", VObj [("total_obligations", VNum 70);
                                 ("percentage_of_total", VStr "70%")]) ]) ].

Definition null_container_example : value :=
  VObj [ ("source_file", VStr "fas.csv");
         ("summary", VObj [("total_all_obligations", VNum 10)]);
         ("business_size_summaries", VNull);
         ("processed_date", VStr "2025-11-01") ].

Definition null_array_example : value :=
  VObj [ ("source_file", VStr "fas.csv"); ("total_obligations", VNum 10);
         ("unique_piids", VNum 1); ("fiscal_years_covered", VNum 1);
         ("yearly_totals", VObj [("2024", VNum 10)]);
         ("top_10_piids", VNull);
         ("processed_date", VStr "2025-11-01") ].

Definition agency_mapping : mapping :=
  mkMapping "Agency" (("agencyCode", 1%nat) :: shared_columns).

Definition required_step (jsonData : value) (r : validation) (field : string)
  : validation :=
  if is_undef (resolved jsonData (Some field))
  then add_error r ("Missing required field: " ++ field) else r.



(** The amount a mapping with distinct years records for a year. *)
Definition amount_in (fy : list (string * value)) (year : string) : option Z :=
  match assoc year fy with
  | Some (VNum z) => Some z
  | _ => None
  end.



(* ================================================================= *)
(** ** Further helpers of SECTION 4 and of the data manager *)

(** [COLUMN_INDEX_MAP[columnRef]]: the reference, a letter or an index, is
    used as a property name. *)
Definition getPrimaryValueByColumn (jsonData columnRef : value) : outcome value :=
  match assoc (to_str columnRef) COLUMN_INDEX_MAP with
  | None => Ok VUndef
  | Some schemaKey =>
      if (schemaKey =? "")%string then Ok VUndef
      else getPrimaryValue jsonData schemaKey
  end.

(** [c.name === categoryName] for a [categoryName] that is a text. *)
Definition named (categoryName : string) (c : value) : outcome bool :=
  n <- get c "name" ;;
  Ok (match n with
      | VStr s => (s =? categoryName)%string
      | _ => false
      end).

(** [xs.find(p)] for a test that may throw. *)
Fixpoint find_first (p : value -> outcome bool) (xs : list value) : outcome value :=
  match xs with
  | [] => Ok VUndef
  | x :: rest =>
      b <- p x ;;
      if (b : bool) then Ok x else find_first p rest
  end.

(** [categoryName] is a text, as the function documents it. *)
Definition getCategoryByName (jsonData : value) (schemaKey categoryName : string)
  : outcome value :=
  categories <- getCategories jsonData schemaKey ;;
  match categories with
  | VArr cats => find_first (named categoryName) cats
  | _ => Throw TypeError
  end.

(** [year] is a text, as the function documents it. *)
Definition getValueForYear (jsonData : value) (schemaKey year : string)
  : outcome value :=
  fyData <- getFiscalYearData jsonData schemaKey ;;
  if truthy fyData then get fyData year else Ok VUndef.

(** [jsonData.a && jsonData.b] as a condition. *)
Definition both_truthy (jsonData : value) (a b : string) : outcome bool :=
  x <- get jsonData a ;;
  if truthy x then y <- get jsonData b ;; Ok (truthy y) else Ok false.

(** [jsonData.a] as a condition. *)
Definition field_truthy (jsonData : value) (a : string) : outcome bool :=
  x <- get jsonData a ;;
  Ok (truthy x).

Definition detectSchema (jsonData : value) : outcome value :=
  if (negb (truthy jsonData) || negb (typeof jsonData =? "object")%string)%bool
  then Ok VNull
  else
    (* Pattern F: Flat profile (Column AC) *)
    b <- both_truthy jsonData "oem_name" "headquarters" ;;
    if (b : bool) then Ok (VStr "usaiProfile") else
    (* Pattern A: Simple totals with direct fiscal_year_obligations *)
    b <- both_truthy jsonData "total_obligated" "fiscal_year_obligations" ;;
    if (b : bool) then Ok (VStr "obligations") else
    (* Pattern A: OneGov Tier *)
    b <- both_truthy jsonData "mode_tier" "tier_definitions" ;;
    if (b : bool) then Ok (VStr "oneGovTier") else
    (* Check for specific category paths *)
    b <- field_truthy jsonData "business_size_summaries" ;;
    if (b : bool) then Ok (VStr "smallBusiness") else
    b <- field_truthy jsonData "tier_summaries" ;;
    if (b : bool) then Ok (VStr "sumTier") else
    b <- field_truthy jsonData "sum_type_summaries" ;;
    if (b : bool) then Ok (VStr "sumType") else
    b <- field_truthy jsonData "top_contract_summaries" ;;
    if (b : bool) then Ok (VStr "contractVehicle") else
    b <- field_truthy jsonData "top_10_department_summaries" ;;
    if (b : bool) then Ok (VStr "fundingDepartment") else
    b <- field_truthy jsonData "discount_categories" ;;
    if (b : bool) then Ok (VStr "oneGovDiscountedProducts") else
    b <- field_truthy jsonData "top_10_reference_piids" ;;
    if (b : bool) then Ok (VStr "topRefPiid") else
    b <- field_truthy jsonData "top_10_piids" ;;
    if (b : bool) then Ok (VStr "topPiid") else
    b <- field_truthy jsonData "expiring_by_quarter" ;;
    if (b : bool) then Ok (VStr "activeContracts") else
    b <- field_truthy jsonData "discount_contracts_expiring_by_quarter" ;;
    if (b : bool) then Ok (VStr "expiringDiscountedProducts") else
    b <- field_truthy jsonData "ai_product_status" ;;
    if (b : bool) then Ok (VStr "aiProduct") else
    b <- field_truthy jsonData "ai_category_status" ;;
    if (b : bool) then Ok (VStr "aiCategory") else
    b <- field_truthy jsonData "top_25_products" ;;
    if (b : bool) then Ok (VStr "topBicProducts") else
    b <- field_truthy jsonData "top_15_reseller_summaries" ;;
    if (b : bool) then Ok (VStr "reseller") else
    b <- (x <- get jsonData "top_15_resellers" ;;
          if truthy x then y <- get jsonData "top_15_resellers" ;; Ok (isArray y)
          else Ok false) ;;
    if (b : bool) then Ok (VStr "bicReseller") else
    b <- field_truthy jsonData "top_15_manufacturers" ;;
    if (b : bool) then Ok (VStr "bicOem") else
    b <- field_truthy jsonData "top_10_oem_summaries" ;;
    if (b : bool) then Ok (VStr "fasOem") else
    b <- field_truthy jsonData "top_10_agency_summaries" ;;
    if (b : bool) then Ok (VStr "fundingAgency") else
    b <- (x <- get jsonData "top_10_agencies" ;;
          if truthy x then
            summary <- get jsonData "summary" ;;
            Ok (truthy (get_opt summary "grand_total"))
          else Ok false) ;;
    if (b : bool) then Ok (VStr "bicTopProductsPerAgency") else
    Ok VNull.

(** [if (jsonData.summary?.a) return jsonData.summary.a]; [None] when the
    condition fails. *)
Definition summary_field (jsonData : value) (a : string) : outcome (option value) :=
  summary <- get jsonData "summary" ;;
  if truthy (get_opt summary a) then
    summary <- get jsonData "summary" ;;
    v <- get summary a ;;
    Ok (Some v)
  else Ok None.

(** [if (jsonData.a) return jsonData.a]; [None] when the condition fails. *)
Definition own_field (jsonData : value) (a : string) : outcome (option value) :=
  x <- get jsonData a ;;
  if truthy x then v <- get jsonData a ;; Ok (Some v) else Ok None.

(** [if (jsonData.a) return Object.values(jsonData.a).reduce(...)]. *)
Definition summed_field (jsonData : value) (a : string) : outcome (option value) :=
  x <- get jsonData a ;;
  if truthy x then
    y <- get jsonData a ;;
    Ok (Some (fold_left (fun sum val => add sum (or_else (parseFloat val) (VNum 0)))
                (values y) (VNum 0)))
  else Ok None.

(** The first of some attempts that returns. *)
Fixpoint first_of (attempts : list (outcome (option value))) (otherwise : outcome value)
  : outcome value :=
  match attempts with
  | [] => otherwise
  | a :: rest =>
      r <- a ;;
      match r with
      | Some v => Ok v
      | None => first_of rest otherwise
      end
  end.

(** The two summary fields the [switch] of [extractNumericValue] tries for a
    column; none for the other columns. *)
Definition column_summary_fields (columnId : value) : list string :=
  match columnId with
  | VStr s =>
      if (s =? "reseller")%string then
        ["total_top_15_resellers"; "total_all_resellers"]
      else if (s =? "bicOem")%string then
        ["total_top_15_manufacturers"; "total_all_manufacturers"]
      else if (s =? "fasOem")%string then
        ["total_top_10_oems"; "total_all_oems"]
      else if (s =? "fundingAgency")%string then
        ["total_top_10_agencies"; "total_all_agencies"]
      else []
  | _ => []
  end.

Definition extractNumericValue (jsonData columnId : value) : outcome value :=
  if negb (truthy jsonData) then Ok (VNum 0)
  else if (typeof jsonData =? "number")%string then Ok jsonData
  else
    first_of
      ((* Column-specific extraction *)
       map (summary_field jsonData) (column_summary_fields columnId)
       (* Generic extraction for other columns *)
       ++ [ own_field jsonData "total_obligated";
            own_field jsonData "total_obligations";
            own_field jsonData "total";
            own_field jsonData "sum";
            (* Sum fiscal years if available *)
            summed_field jsonData "fiscal_year_obligations";
            (* Sum fiscal_years if available (alternate structure) *)
            summed_field jsonData "fiscal_years" ])%list
      (Ok (VNum 0)).

Definition clearCache : M unit := update_cache (fun _ => empty_cache).

(** [list?.length || 0] *)
Definition count (l : option entity_list) : Z :=
  match l with
  | Some l => Z.of_nat (List.length (items l))
  | None => 0
  end.

Definition is_some {A : Type} (o : option A) : bool :=
  match o with Some _ => true | None => false end.

Record cache_status : Type := mkStatus {
  hasData : bool;
  status_lastUpdated : option Z;
  isStale : bool;
  count_agencies : Z;
  count_oems : Z;
  count_vendors : Z
}.

(** [now] is the time [needsRefresh] reads. *)
Definition getCacheStatus (now : Z) : M cache_status :=
  c <~ read_cache ;;
  ret (mkStatus (is_some (agencies c) || is_some (oems c) || is_some (vendors c))
         (lastUpdated c)
         (needsRefresh now c)
         (count (agencies c)) (count (oems c)) (count (vendors c))).


(** *** The views

    [transformForDashboard] and [transformForTable], on the elements of the
    array they are given. *)

(** [s.toUpperCase()], for texts of one-byte characters whose capitals are
    one-byte characters too (the sharp s, the micro sign and the y with
    diaeresis are not). *)
Definition upper (c : ascii) : ascii :=
  let n := nat_of_ascii c in
  if ((97 <=? n) && (n <=? 122)
      || (224 <=? n) && (n <=? 254) && negb (n =? 247))%nat
  then ascii_of_nat (n - 32) else c.

Fixpoint toUpperCase (s : string) : string :=
  match s with
  | String c rest => String (upper c) (toUpperCase rest)
  | EmptyString => EmptyString
  end.

(** [v.toUpperCase()]: only a text has the method. *)
Definition call_toUpperCase (v : value) : outcome string :=
  match v with
  | VStr s => Ok (toUpperCase s)
  | _ => Throw TypeError
  end.

(** [xs.map(f)] for a callback that may throw. *)
Fixpoint map_each (f : value -> outcome value) (xs : list value) : outcome (list value) :=
  match xs with
  | [] => Ok []
  | x :: rest =>
      y <- f x ;;
      ys <- map_each f rest ;;
      Ok (y :: ys)
  end.

(** The callback of [entities.map] in [transformForDashboard]. *)
Definition dashboard_row (entity : value) : outcome value :=
  id <- get entity "id" ;;
  name <- get entity "name" ;;
  type <- get entity "type" ;;
  totalObligations <- get entity "totalObligations" ;;
  tier <- get entity "tier" ;;
  activeContracts <- get entity "activeContracts" ;;
  contractCount <-
    (if truthy activeContracts then
       activeContracts <- get entity "activeContracts" ;;
       Ok (VNum (Z.of_nat (List.length (keys activeContracts))))
     else Ok (VNum 0)) ;;
  hasAIProducts <- get entity "hasAIProducts" ;;
  parentCompany <- get entity "parentCompany" ;;
  Ok (VObj [ ("id", id); ("name", name); ("type", type);
             ("totalObligations", totalObligations); ("tier", tier);
             ("contractCount", contractCount); ("hasAIProducts", hasAIProducts);
             ("parentCompany", parentCompany) ]).

Definition transformForDashboard (entities : list value) : outcome (list value) :=
  map_each dashboard_row entities.

(** The callback of [entities.map] in [transformForTable]. *)
Definition table_row (entity : value) : outcome value :=
  id <- get entity "id" ;;
  name <- get entity "name" ;;
  type <- get entity "type" ;;
  type' <- get entity "type" ;;
  category <- call_toUpperCase type' ;;
  total <- get entity "totalObligations" ;;
  obligations <- get entity "obligations" ;;
  let fy24 := or_else (get_opt (get_opt obligations "fiscal_year_obligations") "2024")
                (VNum 0) in
  obligations <- get entity "obligations" ;;
  let fy25 := or_else (get_opt (get_opt obligations "fiscal_year_obligations") "2025")
                (VNum 0) in
  tier <- get entity "tier" ;;
  smallBusiness <- get entity "smallBusiness" ;;
  Ok (VObj [ ("id", id); ("name", name); ("type", type);
             ("category", VStr category); ("total", total);
             ("fy24", fy24); ("fy25", fy25);
             ("tier", or_else tier (VStr "N/A"));
             ("small_business",
              or_else (get_opt smallBusiness "is_small_business") (VStr "N/A")) ]).

Definition transformForTable (entities : list value) : outcome (list value) :=
  map_each table_row entities.

(** *** The reference tables

    [NON_JSON_COLUMNS] (index and name), the [columns] and [schemaKeys] of
    [STRUCTURE_PATTERNS], and the lookup tables of [QUICK_REFERENCE]; the
    descriptions and the example texts are left out. *)

Definition NON_JSON_COLUMNS : list (string * (nat * string)) :=
  [ ("A", (0, "DUNS")); ("B", (1, "Entity Name")); ("C", (2, "Parent/Department"));
    ("Y", (24, "FAS Data Table")); ("Z", (25, "FAS Table Update Timestamp"));
    ("AA", (26, "BIC Data Table")); ("AB", (27, "BIC Table Update Timestamp"));
    ("AD", (29, "Website")); ("AE", (30, "Company LinkedIn")) ]%nat.

Record pattern_definition : Type := mkPattern {
  pattern_columns : list string;
  schemaKeys : list string
}.

Definition STRUCTURE_PATTERNS : list (string * pattern_definition) :=
  [ ("PATTERN_A_SIMPLE_TOTALS",
     mkPattern ["D"; "X"] ["obligations"; "oneGovTier"]);
    ("PATTERN_B_SUMMARY_WITH_OBJECT_MAP",
     mkPattern ["E"; "F"; "G"; "H"; "I"; "J"; "R"; "U"; "V"]
       [ "smallBusiness"; "sumTier"; "sumType"; "contractVehicle"; "fundingDepartment";
         "oneGovDiscountedProducts"; "reseller"; "fasOem"; "fundingAgency" ]);
    ("PATTERN_C_SUMMARY_WITH_ARRAY",
     mkPattern ["K"; "L"; "Q"; "S"; "T"]
       ["topRefPiid"; "topPiid"; "topBicProducts"; "bicReseller"; "bicOem"]);
    ("PATTERN_D_NESTED_FISCAL_YEAR",
     mkPattern ["M"; "O"; "P"] ["activeContracts"; "aiProduct"; "aiCategory"]);
    ("PATTERN_E_NESTED_ENTITY",
     mkPattern ["N"; "W"] ["expiringDiscountedProducts"; "bicTopProductsPerAgency"]);
    ("PATTERN_F_FLAT_PROFILE", mkPattern ["AC"] ["usaiProfile"]) ].

Record quick_reference : Type := mkReference {
  columnToSchema : list (string * string);
  primaryValuePaths : list (string * option string);
  categoriesPaths : list (string * option string);
  dataSources : list (string * list string);
  patternsByColumn : list (string * list string)
}.

Definition QUICK_REFERENCE : quick_reference :=
  mkReference
    (* Column Letter to Schema Key Mapping *)
    [ ("D", "obligations"); ("E", "smallBusiness"); ("F", "sumTier"); ("G", "sumType");
      ("H", "contractVehicle"); ("I", "fundingDepartment");
      ("J", "oneGovDiscountedProducts"); ("K", "topRefPiid"); ("L", "topPiid");
      ("M", "activeContracts"); ("N", "expiringDiscountedProducts");
      ("O", "aiProduct"); ("P", "aiCategory"); ("Q", "topBicProducts");
      ("R", "reseller"); ("S", "bicReseller"); ("T", "bicOem"); ("U", "fasOem");
      ("V", "fundingAgency"); ("W", "bicTopProductsPerAgency"); ("X", "oneGovTier");
      ("AC", "usaiProfile") ]
    (* Primary Value Paths *)
    [ ("D", Some "total_obligated");
      ("E", Some "summary.total_all_obligations");
      ("F", Some "summary.total_all_obligations");
      ("G", Some "summary.total_all_obligations");
      ("H", Some "summary.total_all_obligations");
      ("I", Some "summary.total_all_departments");
      ("J", Some "summary.total_obligations_with_discounts");
      ("K", Some "total_obligations");
      ("L", Some "total_obligations");
      ("M", Some "summary.total_obligations");
      ("N", Some "summary.grand_total_all_obligations");
      ("O", Some "summary.grand_total_obligations");
      ("P", Some "summary.grand_total_obligations");
      ("Q", Some "summary.total_all_products");
      ("R", Some "summary.total_all_resellers");
      ("S", Some "summary.total_all_resellers");
      ("T", Some "summary.total_all_manufacturers");
      ("U", Some "summary.total_all_oems");
      ("V", Some "summary.total_all_agencies");
      ("W", Some "summary.grand_total");
      ("X", Some "total_obligated");
      ("AC", None) (* No primary value for profile *) ]
    (* Categories/Items Paths *)
    [ ("D", None);
      ("E", Some "business_size_summaries");
      ("F", Some "tier_summaries");
      ("G", Some "sum_type_summaries");
      ("H", Some "top_contract_summaries");
      ("I", Some "top_10_department_summaries");
      ("J", Some "discount_categories");
      ("K", Some "top_10_reference_piids");
      ("L", Some "top_10_piids");
      ("M", Some "expiring_by_quarter");
      ("N", Some "discount_contracts_expiring_by_quarter");
      ("O", Some "fiscal_year_summaries");
      ("P", Some "fiscal_year_summaries");
      ("Q", Some "top_25_products");
      ("R", Some "top_15_reseller_summaries");
      ("S", Some "top_15_resellers");
      ("T", Some "top_15_manufacturers");
      ("U", Some "top_10_oem_summaries");
      ("V", Some "top_10_agency_summaries");
      ("W", Some "top_10_agencies");
      ("X", Some "fiscal_year_tiers");
      ("AC", None) ]
    (* Data Sources by Column *)
    [ ("FAS", [ "D"; "E"; "F"; "G"; "H"; "I"; "J"; "K"; "L"; "M"; "N"; "O"; "P"; "R";
                "U"; "V" ]);
      ("BIC", ["Q"; "S"; "T"; "W"]);
      ("CALCULATED", ["X"]);
      ("USAI", ["AC"]) ]
    (* Patterns by Column *)
    [ ("PATTERN_A_SIMPLE_TOTALS", ["D"; "X"]);
      ("PATTERN_B_SUMMARY_WITH_OBJECT_MAP",
       ["E"; "F"; "G"; "H"; "I"; "J"; "R"; "U"; "V"]);
      ("PATTERN_C_SUMMARY_WITH_ARRAY", ["K"; "L"; "Q"; "S"; "T"]);
      ("PATTERN_D_NESTED_FISCAL_YEAR", ["M"; "O"; "P"]);
      ("PATTERN_E_NESTED_ENTITY", ["N"; "W"]);
      ("PATTERN_F_FLAT_PROFILE", ["AC"]) ].

(** *** [getFiscalYearTrends] *)

(** [selectedEntities.includes(e.name)], for a selection of texts. *)
Definition is_selected (selectedEntities : list string) (e : value) : outcome bool :=
  n <- get e "name" ;;
  Ok (match n with
      | VStr s => existsb (String.eqb s) selectedEntities
      | _ => false
      end).

(** [xs.filter(p)] for a test that may throw. *)
Fixpoint filter_each (p : value -> outcome bool) (xs : list value) : outcome (list value) :=
  match xs with
  | [] => Ok []
  | x :: rest =>
      b <- p x ;;
      ys <- filter_each p rest ;;
      Ok (if (b : bool) then x :: ys else ys)
  end.

(** The aggregation of the fiscal years of the summaries under a field;
    the callback of its loop is the one of Pattern B in
    [getFiscalYearData]. *)
Definition summed_summaries (jsonData : value) (field : string) : outcome value :=
  summaries <- get jsonData field ;;
  if truthy summaries then
    summaries <- get jsonData field ;;
    fyData <- forEach map_years_body (values summaries) [] ;;
    Ok (VObj fyData)
  else Ok VNull.

(** The [switch] on [columnId]: the fiscal years of one entity. *)
Definition entity_years (columnId : string) (jsonData : value) : outcome value :=
  if (columnId =? "reseller")%string then
    (* Aggregate from top_15_reseller_summaries *)
    summed_summaries jsonData "top_15_reseller_summaries"
  else if (columnId =? "bicOem")%string then
    (* Use yearly_totals from BIC OEM structure *)
    get jsonData "yearly_totals"
  else if (columnId =? "fasOem")%string then
    (* Aggregate from top_10_oem_summaries *)
    summed_summaries jsonData "top_10_oem_summaries"
  else if (columnId =? "fundingAgency")%string then
    (* Aggregate from top_10_agency_summaries *)
    summed_summaries jsonData "top_10_agency_summaries"
  else
    (* Generic fiscal year extraction *)
    a <- get jsonData "fiscal_year_obligations" ;;
    if truthy a then Ok a else
    b <- get jsonData "fiscal_years" ;;
    if truthy b then Ok b else
    c <- get jsonData "yearly_totals" ;;
    if truthy c then Ok c else
    get jsonData "fiscal_year_breakdown".

(** One turn of the loop over the entries of [fyData]. *)
Definition trend_step (fiscalYearData : list (string * value)) (entry : string * value)
  : list (string * value) :=
  let (year, v) := entry in
  let fiscalYearData :=
    if negb (truthy (own_get (VObj fiscalYearData) year))
    then set_field year (VNum 0) fiscalYearData
    else fiscalYearData in
  set_field year
    (add (own_get (VObj fiscalYearData) year) (or_else (parseFloat v) (VNum 0)))
    fiscalYearData.

(** [if (fyData && typeof fyData === 'object') { for ... }] *)
Definition accumulate (fiscalYearData : list (string * value)) (fyData : value)
  : list (string * value) :=
  if (truthy fyData && (typeof fyData =? "object")%string)%bool
  then fold_left trend_step (entries fyData) fiscalYearData
  else fiscalYearData.

(** The callback of [entities.forEach]. *)
Definition trend_body (columnId : string) (fiscalYearData : list (string * value))
  (entity : value) : outcome (list (string * value)) :=
  jsonData <- get entity columnId ;;
  if negb (truthy jsonData) then Ok fiscalYearData
  else
    fyData <- entity_years columnId jsonData ;;
    Ok (accumulate fiscalYearData fyData).

(** [columnId] is a text and [selectedEntities] a list of texts, as the
    function documents them. *)
Definition getFiscalYearTrends (JSON_parse : string -> decoded) (spreadsheet : source)
  (now later : Z) (entityType : value) (columnId : string)
  (selectedEntities : list string) : M value :=
  entities <~ getEntities JSON_parse spreadsheet now later entityType false ;;
  match entities with
  | None => throw TypeError
  | Some l =>
      (* Apply entity filter *)
      entities <~
        (if (0 <? List.length selectedEntities)%nat then
           kept <~ lift (filter_each (is_selected selectedEntities) (items l)) ;;
           new_array kept
         else ret l) ;;
      fiscalYearData <~ lift (forEach (trend_body columnId) (items entities) []) ;;
      ret (VObj fiscalYearData)
  end.

(** *** [getEntitiesForView] and [getAllEntities] *)

(** [a === b] on cell values and filters; an object is equal to itself
    only, and no cell is the object of a filter. *)
Definition strict_eq (a b : value) : bool :=
  match a, b with
  | VUndef, VUndef => true
  | VNull, VNull => true
  | VBool x, VBool y => Bool.eqb x y
  | VNum x, VNum y => (x =? y)%Z
  | VStr x, VStr y => (x =? y)%string
  | _, _ => false
  end.

(** The options of a view; an option that is not given is undefined
    ([None] for the selection). *)
Record view_options : Type := mkOptions {
  opt_entityType : value;
  opt_columnId : value;
  opt_topN : value;
  opt_selectedEntities : option (list string);
  opt_parentFilter : value
}.

(** [options = {}] *)
Definition no_options : view_options := mkOptions VUndef VUndef VUndef None VUndef.

(** [entities.filter(p)]: a new array; [entities] may be null. *)
Definition filter_entities (p : value -> outcome bool) (entities : option entity_list)
  : M (option entity_list) :=
  match entities with
  | None => throw TypeError
  | Some l =>
      kept <~ lift (filter_each p (items l)) ;;
      l' <~ new_array kept ;;
      ret (Some l')
  end.

(** [entities.map(f)]: a new array; [entities] may be null. *)
Definition map_entities (f : list value -> outcome (list value))
  (entities : option entity_list) : M (option entity_list) :=
  match entities with
  | None => throw TypeError
  | Some l =>
      rows <~ lift (f (items l)) ;;
      l' <~ new_array rows ;;
      ret (Some l')
  end.

Section ViewSelection.

Variable JSON_parse : string -> decoded.
Variable spreadsheet : source.

(** The transformation for the report builder, which sorts, is left
    open. *)
Variable transformForReportBuilder :
  option entity_list -> value -> value -> M (option entity_list).

Definition getEntitiesForView (now later : Z) (viewType : value)
  (options : view_options) : M (option entity_list) :=
  (* Get base entities *)
  entities <~ getEntities JSON_parse spreadsheet now later (opt_entityType options) false ;;
  (* Apply filters *)
  entities <~
    (match opt_selectedEntities options with
     | Some selectedEntities =>
         if (0 <? List.length selectedEntities)%nat
         then filter_entities (is_selected selectedEntities) entities
         else ret entities
     | None => ret entities
     end) ;;
  entities <~
    (if truthy (opt_parentFilter options) then
       filter_entities
         (fun e => p <- get e "parentCompany" ;;
                   Ok (strict_eq p (opt_parentFilter options)))
         entities
     else ret entities) ;;
  (* Transform based on view type *)
  match viewType with
  | VStr view =>
      if (view =? "dashboard")%string then map_entities transformForDashboard entities
      else if (view =? "reportBuilder")%string then
        transformForReportBuilder entities (opt_columnId options) (opt_topN options)
      else if (view =? "entityDetail")%string then ret entities
      else if (view =? "reportTable")%string then map_entities transformForTable entities
      else ret entities
  | _ => ret entities
  end.

(** [getAllEntities], on the manager [getDataManager] hands out. *)
Definition getAllEntities (now later : Z) : M entity_list :=
  try_catch
    (allEntities <~ getEntitiesForView now later (VStr "dashboard") no_options ;;
     match allEntities with
     | Some l => ret l
     | None => throw TypeError
     end)
    (fun error => new_array []).

End ViewSelection.

(** *** [parseJSONColumn]

    The parser of B01_main.js that [getOEMEntities] calls on its cells. *)

Definition parseJSONColumn (JSON_parse : string -> decoded) (v : value) : value :=
  if negb (truthy v) then VNull
  else
    (* Handle both string and object types *)
    if (typeof v =? "object")%string then v (* Already parsed *)
    else
      match v with
      | VStr s =>
          (* Clean up the JSON string - remove extra whitespace and newlines *)
          let cleanValue := trim s in
          if ((cleanValue =? "") || (cleanValue =? "{}") || (cleanValue =? "[]"))%string
          then VNull
          else
            match JSON_parse cleanValue with
            | Decoded data => data
            | Malformed _ => VNull
            end
      | _ => VNull
      end.

(** ** Notions the further statements use *)

Definition same_key (o : option string) (k : string) : bool :=
  match o with
  | Some k' => (k' =? k)%string
  | None => false
  end.

(** The structural checks of [detectSchema], in the order it makes them,
    each with the key it answers. *)
Definition fingerprints (jsonData : value) : list (bool * string) :=
  let has k := truthy (own_get jsonData k) in
  [ (has "oem_name" && has "headquarters", "usaiProfile");
    (has "total_obligated" && has "fiscal_year_obligations", "obligations");
    (has "mode_tier" && has "tier_definitions", "oneGovTier");
    (has "business_size_summaries", "smallBusiness");
    (has "tier_summaries", "sumTier");
    (has "sum_type_summaries", "sumType");
    (has "top_contract_summaries", "contractVehicle");
    (has "top_10_department_summaries", "fundingDepartment");
    (has "discount_categories", "oneGovDiscountedProducts");
    (has "top_10_reference_piids", "topRefPiid");
    (has "top_10_piids", "topPiid");
    (has "expiring_by_quarter", "activeContracts");
    (has "discount_contracts_expiring_by_quarter", "expiringDiscountedProducts");
    (has "ai_product_status", "aiProduct");
    (has "ai_category_status", "aiCategory");
    (has "top_25_products", "topBicProducts");
    (has "top_15_reseller_summaries", "reseller");
    (has "top_15_resellers" && isArray (own_get jsonData "top_15_resellers"),
     "bicReseller");
    (has "top_15_manufacturers", "bicOem");
    (has "top_10_oem_summaries", "fasOem");
    (has "top_10_agency_summaries", "fundingAgency");
    (has "top_10_agencies"
     && truthy (get_opt (own_get jsonData "summary") "grand_total"),
     "bicTopProductsPerAgency") ]%bool.

Fixpoint first_match (rules : list (bool * string)) : value :=
  match rules with
  | [] => VNull
  | (b, k) :: rest => if b then VStr k else first_match rest
  end.

(** The messages for the required fields that are missing, in the order
    the schema lists the fields. *)
Definition missing_messages (s : schema) (jsonData : value) : list string :=
  map (fun field => "Missing required field: " ++ field)
    (filter (fun field => is_undef (resolved jsonData (Some field)))
       (requiredFields s)).

(** The keys of some fields, with nothing stored under them. *)
Definition forget {A : Type} (fs : list (string * A)) : list (string * unit) :=
  map (fun e => (fst e, tt)) fs.

(** The rows of a sheet that give an entity: those whose name cell holds a
    text that is not blank, each with its index and its trimmed name;
    [i] is the index of the first row. *)
Fixpoint named_rows (i : nat) (rows : list (list value)) : list (nat * string) :=
  match rows with
  | [] => []
  | row :: rest =>
      match cell row 2 with
      | VStr t =>
          if (trim t =? "")%string then named_rows (S i) rest
          else (i, trim t) :: named_rows (S i) rest
      | _ => named_rows (S i) rest
      end
  end.

(** What identifies an entity: its id, name, type and row index. *)
Definition identity (entity : value) : value * value * value * value :=
  (own_get entity "id", own_get entity "name", own_get entity "type",
   own_get entity "rowIndex").

(** The identity [loadEntitySheet] gives the entity of a row. *)
Definition identity_of (entityType : string) (r : nat * string)
  : value * value * value * value :=
  (VStr (entityType ++ "_" ++ dec_nat (fst r)), VStr (snd r), VStr entityType,
   VNum (Z.of_nat (fst r))).

(** The entity [loadEntitySheet] makes of a named row of a sheet whose
    rows start at the index [first]: it has the identity of the row, and
    holds in each JSON column what [parseJSON] makes of the cell of the
    row, which is null when the cell does not parse. *)
Definition loaded_from (JSON_parse : string -> decoded) (entityType : string)
  (rows : list (list value)) (first : nat) (entity : value) (r : nat * string) : Prop :=
  identity entity = identity_of entityType r
  /\ exists row,
       nth_error rows (fst r - first) = Some row
       /\ forall key colIndex,
            In (key, colIndex) shared_columns ->
            isJsonColumn key = true ->
            own_get entity key = parseJSON JSON_parse (cell row colIndex).

(** Truthy, or a number: not undefined, null, false or an empty text. *)
Definition truthy_or_number (v : value) : Prop :=
  truthy v = true \/ typeof v = "number".

(** A sheet that loads without an error: it is missing, or it can be read
    and the name cell of each row after the header holds a text, or
    nothing. *)
Definition readable (spreadsheet : source) (name : string) : bool :=
  match sheet spreadsheet name with
  | NoSuchSheet => true
  | ReadFails => false
  | Rows values => forallb (fun row => text_or_empty (cell row 2)) (tl values)
  end.

(** The error that loading a sheet raises, if any: a [ServiceError] when
    the sheet cannot be read, a [TypeError] when the name cell of a row
    after the header holds something truthy that is not a text. *)
Definition sheet_failure (spreadsheet : source) (name : string) : option exn :=
  match sheet spreadsheet name with
  | NoSuchSheet => None
  | ReadFails => Some ServiceError
  | Rows values =>
      if forallb (fun row => text_or_empty (cell row 2)) (tl values) then None
      else Some TypeError
  end.

(** The obligations of a row can be totalled: the fiscal-year values of
    its parsed obligations cell can be summed. *)
Definition tame (JSON_parse : string -> decoded) (row : list value) : bool :=
  summable (own_get (parseJSON JSON_parse (cell row 4)) "fiscal_year_obligations").

Definition tame_sheet (JSON_parse : string -> decoded) (spreadsheet : source)
  (name : string) : bool :=
  match sheet spreadsheet name with
  | Rows values => forallb (tame JSON_parse) (tl values)
  | _ => true
  end.

(** The calls to the service that loading a sheet makes. *)
Definition sheet_calls (spreadsheet : source) (name : string) : list io :=
  match sheet spreadsheet name with
  | NoSuchSheet => [GetSheetByName name]
  | _ => [GetSheetByName name; GetValues name]
  end.

(** The entities of a sheet: none when it is missing, and otherwise those
    of its named rows. *)
Definition entities_of (spreadsheet : source) (entityType name : string)
  (loaded : list value) : Prop :=
  match sheet spreadsheet name with
  | NoSuchSheet => loaded = []
  | ReadFails => False
  | Rows values =>
      map identity loaded = map (identity_of entityType) (named_rows 1 (tl values))
  end.

(** The name the data manager gives the column of a schema: the key of the
    schema, but for two columns. *)
Definition manager_name (schemaKey : string) : string :=
  if (schemaKey =? "oneGovDiscountedProducts")%string then "discount"
  else if (schemaKey =? "expiringDiscountedProducts")%string then "discountOfferings"
  else schemaKey.

(** The tier [extractTier] answers, by the two columns it reads. *)
Definition tier_of (oneGovTier sumTier : value) : value :=
  if truthy (get_opt oneGovTier "mode_tier") then own_get oneGovTier "mode_tier"
  else if truthy (get_opt sumTier "tier") then own_get sumTier "tier"
  else VNull.

(** What the dashboard row of an entity holds. *)
Definition dashboard_of_entity (entity d : value) : Prop :=
  keys d = [ "id"; "name"; "type"; "totalObligations"; "tier"; "contractCount";
             "hasAIProducts"; "parentCompany" ]
  /\ (forall k,
        In k [ "id"; "name"; "type"; "totalObligations"; "tier"; "hasAIProducts";
               "parentCompany" ] ->
        own_get d k = own_get entity k)
  /\ own_get d "contractCount"
     = VNum (Z.of_nat (if truthy (own_get entity "activeContracts")
                       then List.length (keys (own_get entity "activeContracts"))
                       else 0%nat)).

(** What the table row of an entity of some type holds. *)
Definition table_of_entity (entityType : string) (entity t : value) : Prop :=
  keys t = [ "id"; "name"; "type"; "category"; "total"; "fy24"; "fy25"; "tier";
             "small_business" ]
  /\ (forall k, In k ["id"; "name"; "type"] -> own_get t k = own_get entity k)
  /\ own_get t "total" = own_get entity "totalObligations"
  /\ own_get t "category" = VStr (toUpperCase entityType)
  /\ own_get t "tier"
     = (if truthy (own_get entity "tier") then own_get entity "tier" else VStr "N/A")
  /\ truthy (own_get t "tier") = true
  /\ (truthy (own_get t "fy24") = true \/ own_get t "fy24" = VNum 0).

Definition mem (x : string) (l : list string) : bool := existsb (String.eqb x) l.

Definition same_path (a b : option string) : bool :=
  match a, b with
  | Some x, Some y => (x =? y)%string
  | None, None => true
  | _, _ => false
  end.

(** The letters a table lists under a name. *)
Definition listed (table : list (string * list string)) (name : string) : list string :=
  match assoc name table with
  | Some l => l
  | None => []
  end.

(** The entry of a schema in the reference tables is the schema's own. *)
Definition referenced (e : string * schema) : bool :=
  let (key, s) := e in
  (same_key (assoc (column s) (columnToSchema QUICK_REFERENCE)) key
   && match assoc (column s) (primaryValuePaths QUICK_REFERENCE) with
      | Some p => same_path p (primaryValuePath s)
      | None => false
      end
   && match assoc (column s) (categoriesPaths QUICK_REFERENCE) with
      | Some p =>
          if (key =? "oneGovTier")%string
          then same_path p (timeSeriesPath s) && negb (present (categoriesPath s))
          else same_path p (categoriesPath s)
      | None => false
      end
   && forallb (fun source : string * list string =>
                 Bool.eqb (mem (column s) (snd source))
                   (fst source =? dataSource s)%string)
        (dataSources QUICK_REFERENCE)
   && forallb (fun p : string * list string =>
                 Bool.eqb (mem (column s) (snd p))
                   (fst p =? pattern_name (structurePattern s))%string)
        (patternsByColumn QUICK_REFERENCE)
   && forallb (fun p : string * pattern_definition =>
                 Bool.eqb (mem (column s) (pattern_columns (snd p)))
                   (fst p =? pattern_name (structurePattern s))%string
                 && Bool.eqb (mem key (schemaKeys (snd p)))
                      (fst p =? pattern_name (structurePattern s))%string)
        STRUCTURE_PATTERNS)%bool.

(** One turn of the loop of [getFiscalYearTrends], with the fiscal years
    of the entity taken from [getFiscalYearData] under the same key. *)
Definition registry_body (columnId : string) (fiscalYearData : list (string * value))
  (entity : value) : outcome (list (string * value)) :=
  jsonData <- get entity columnId ;;
  fyData <- getFiscalYearData jsonData columnId ;;
  Ok (accumulate fiscalYearData fyData).

(** The entities a view keeps: those the selection names, when a selection
    of some names is given, and whose parent company is the filter, when a
    filter is given. *)
Definition chosen (options : view_options) (entity : value) : bool :=
  (match opt_selectedEntities options with
   | Some (name :: names) =>
       match own_get entity "name" with
       | VStr s => existsb (String.eqb s) (name :: names)
       | _ => false
       end
   | _ => true
   end
   && (if truthy (opt_parentFilter options)
       then strict_eq (own_get entity "parentCompany") (opt_parentFilter options)
       else true))%bool.

(** No filter is given. *)
Definition unfiltered (options : view_options) : bool :=
  (match opt_selectedEntities options with
   | Some (_ :: _) => false
   | _ => true
   end
   && negb (truthy (opt_parentFilter options)))%bool.

(* ================================================================= *)
(** * Properties *)

(** ** Loops *)

Lemma forEach_app {A S : Type} (body : S -> A -> outcome S) (xs ys : list A) (s : S) :
  forEach body (xs ++ ys)%list s = (s' <- forEach body xs s ;; forEach body ys s').
Proof.
  revert s. induction xs as [|x xs IH]; intros s; simpl.
  - reflexivity.
  - destruct (body s x) as [s'|e]; simpl; [apply IH | reflexivity].
Qed.

(** A loop whose body never throws is a fold. *)
Lemma forEach_pure {A S : Type} (body : S -> A -> outcome S) (f : S -> A -> S)
  (xs : list A) :
  (forall s x, In x xs -> body s x = Ok (f s x)) ->
  forall s, forEach body xs s = Ok (fold_left f xs s).
Proof.
  induction xs as [|x xs IH]; intros Hbody s; simpl.
  - reflexivity.
  - rewrite Hbody by (left; reflexivity). simpl.
    apply IH. intros s' y Hy. apply Hbody. right; exact Hy.
Qed.

(** A property the body preserves holds when the loop returns. *)
Lemma forEach_invariant {A S : Type} (body : S -> A -> outcome S) (P : S -> Prop)
  (xs : list A) :
  (forall s x s', P s -> body s x = Ok s' -> P s') ->
  forall s s', P s -> forEach body xs s = Ok s' -> P s'.
Proof.
  intros Hbody. induction xs as [|x xs IH]; intros s s' Hs Hrun; simpl in Hrun.
  - injection Hrun as <-. exact Hs.
  - destruct (body s x) as [s1|e] eqn:Hstep; simpl in Hrun; [|discriminate].
    eapply IH; [|exact Hrun]. eapply Hbody; eassumption.
Qed.

(** ** Property reads *)

Lemma truthy_not_nullish (v : value) : truthy v = true -> nullish v = false.
Proof. destruct v; simpl; intros H; try reflexivity; discriminate. Qed.

Lemma get_ok (v : value) (k : string) : nullish v = false -> get v k = Ok (own_get v k).
Proof. unfold get. intros ->. reflexivity. Qed.

Lemma get_truthy (v : value) (k : string) : truthy v = true -> get v k = Ok (own_get v k).
Proof. intros H. apply get_ok, truthy_not_nullish, H. Qed.

(** A decimal text reads back as the number it was written from. *)
Lemma dec_reads_back (z : Z) : NilZero.int_of_string (dec z) = Some (Z.to_int z).
Proof.
  unfold dec. apply NilZero.isi; destruct z; simpl; intros H;
    try discriminate; injection H as H;
    eapply DecimalPos.Unsigned.to_uint_nonnil; exact H.
Qed.

Lemma indexed_no_length {A : Type} (xs : list A) (n : nat) :
  assoc "length" (indexed_from n xs) = None.
Proof.
  revert n. induction xs as [|x xs IH]; intros n; simpl; [reflexivity|].
  destruct (dec_nat n =? "length")%string eqn:E; [|apply IH].
  apply String.eqb_eq in E. unfold dec_nat in E.
  pose proof (dec_reads_back (Z.of_nat n)) as H. rewrite E in H. discriminate.
Qed.

(** ** The path resolver *)

Lemma forEach_cons {A S : Type} (body : S -> A -> outcome S) (x : A) (xs : list A)
  (s : S) :
  forEach body (x :: xs) s = (s' <- body s x ;; forEach body xs s').
Proof. reflexivity. Qed.

Lemma nested_step_value (current : value) (key : string) :
  nested_step current key =
  Ok (if lacks current key then VUndef else own_get current key).
Proof.
  unfold nested_step, lacks.
  destruct (truthy current) eqn:Ht; simpl; [|reflexivity].
  rewrite (get_truthy _ _ Ht). simpl.
  destruct (is_undef (own_get current key)); reflexivity.
Qed.

Lemma nested_steps_total (ks : list string) (v : value) :
  exists x, forEach nested_step ks v = Ok x.
Proof.
  revert v. induction ks as [|k ks IH]; intros v.
  - eexists; reflexivity.
  - rewrite forEach_cons, nested_step_value. apply IH.
Qed.

Lemma nested_steps_undef (ks : list string) : forEach nested_step ks VUndef = Ok VUndef.
Proof.
  induction ks as [|k ks IH]; [reflexivity|].
  rewrite forEach_cons, nested_step_value. exact IH.
Qed.

Lemma stored_step (v x : value) (k : string) (rest : list string) :
  stored_at v (k :: rest) = Some x ->
  exists y, truthy v = true /\ own_get v k = y /\ stored_at y rest = Some x.
Proof.
  destruct v as [| | | | |s|xs|fields]; cbn [stored_at]; intros H; try discriminate.
  - destruct (s =? "")%string eqn:Es; [discriminate|].
    cbn [truthy own_get]. rewrite Es.
    destruct (k =? "length")%string.
    + eexists. split; [reflexivity|]. split; [reflexivity | exact H].
    + destruct (assoc k (indexed_from 0 (chars s))) as [y|]; [|discriminate].
      exists y. split; [reflexivity|]. split; [reflexivity | exact H].
  - cbn [truthy own_get]. destruct (k =? "length")%string.
    + eexists. split; [reflexivity|]. split; [reflexivity | exact H].
    + destruct (assoc k (indexed_from 0 xs)) as [y|]; [|discriminate].
      exists y. split; [reflexivity|]. split; [reflexivity | exact H].
  - destruct (assoc k fields) as [y|] eqn:Hk; [|discriminate].
    exists y. split; [reflexivity|]. split; [cbn [own_get]; rewrite Hk; reflexivity | exact H].
Qed.

(** Walking a stored path reaches the stored value. *)
Lemma nested_steps_stored (ks : list string) :
  forall v x, stored_at v ks = Some x -> forEach nested_step ks v = Ok x.
Proof.
  induction ks as [|k ks IH]; intros v x Hst.
  - simpl in Hst. injection Hst as <-. reflexivity.
  - destruct (stored_step _ _ _ _ Hst) as (y & Ht & Hy & Hrest).
    rewrite forEach_cons, nested_step_value. unfold lacks. rewrite Ht, Hy. simpl.
    destruct (is_undef y) eqn:Hu; [|apply IH; exact Hrest].
    destruct y; try discriminate. apply IH. exact Hrest.
Qed.

Lemma split_acc_nonempty (sep : ascii) (s piece : string) : split_acc sep s piece <> [].
Proof.
  revert piece. induction s as [|c s IH]; intros piece; simpl; [discriminate|].
  destruct (Ascii.eqb c sep); [discriminate | apply IH].
Qed.

Lemma present_some (p : string) : p <> "" -> present (Some p) = true.
Proof.
  intros H. simpl. destruct (p =? "")%string eqn:E; [|reflexivity].
  apply String.eqb_eq in E. contradiction.
Qed.

(** The resolver never throws. *)
Lemma getNestedValue_total (obj : value) (path : option string) :
  exists v, getNestedValue obj path = Ok v.
Proof.
  unfold getNestedValue.
  destruct (negb (present path) || negb (truthy obj))%bool.
  - eexists; reflexivity.
  - apply nested_steps_total.
Qed.

Lemma getNestedValue_resolved (obj : value) (path : option string) :
  getNestedValue obj path = Ok (resolved obj path).
Proof.
  unfold resolved. destruct (getNestedValue_total obj path) as (v & ->). reflexivity.
Qed.

Lemma absent_lacks (v : value) (k : string) :
  truthy v = false \/ absent v k = true -> lacks v k = true.
Proof.
  unfold lacks, absent. intros [-> | H]; [reflexivity|].
  apply andb_true_iff in H. destruct H as [-> _]. apply orb_true_r.
Qed.

(** C6, as the code has it.  [getNestedValue] returns undefined for a null
    or empty path, and whenever the value reached along the path is falsy
    or has no property for the next key, neither its own nor inherited.
    It returns exactly the stored value whenever the path is not empty and
    every step of it names an own property: a field of an object, an
    element or the length of an array, a character or the length of a
    text that is not empty.  On all these paths it returns, it does not
    raise. *)
Theorem getNestedValue_resolves (obj : value) (p : string) :
  getNestedValue obj None = Ok VUndef
  /\ getNestedValue obj (Some "") = Ok VUndef
  /\ (forall pre k post v,
        split "." p = (pre ++ k :: post)%list ->
        stored_at obj pre = Some v ->
        truthy v = false \/ absent v k = true ->
        getNestedValue obj (Some p) = Ok VUndef)
  /\ (forall x,
        p <> "" ->
        stored_at obj (split "." p) = Some x ->
        getNestedValue obj (Some p) = Ok x).
Proof.
  split; [|split; [|split]].
  - reflexivity.
  - reflexivity.
  - intros pre k post v Hsplit Hpre Habsent. unfold getNestedValue.
    destruct (negb (present (Some p)) || negb (truthy obj))%bool; [reflexivity|].
    simpl field_name. rewrite Hsplit, forEach_app.
    rewrite (nested_steps_stored _ _ _ Hpre). cbn [bind].
    rewrite forEach_cons, nested_step_value, (absent_lacks _ _ Habsent). cbn [bind].
    apply nested_steps_undef.
  - intros x Hp Hst. unfold getNestedValue.
    rewrite (present_some _ Hp). simpl field_name.
    assert (Ht : truthy obj = true).
    { unfold split in *. destruct (split_acc "." p "") as [|k ks] eqn:E.
      - exfalso. eapply split_acc_nonempty; exact E.
      - destruct (stored_step _ _ _ _ Hst) as (y & Ht & _). exact Ht. }
    rewrite Ht. simpl. apply nested_steps_stored. exact Hst.
Qed.

Lemma getNestedValue_resolves_witness :
  let obj := VObj [("summary", VObj [("total_all_obligations", VNum 300)]);
                   ("source_file", VStr "fas.csv");
                   ("top_10_piids", VArr [VObj [("piid", VStr "P-1")]])] in
  getNestedValue obj (Some "summary.total_all_obligations") = Ok (VNum 300)
  /\ getNestedValue obj (Some "summary.total.amount") = Ok VUndef
  /\ getNestedValue obj (Some "source_file.length") = Ok (VNum 7)
  /\ getNestedValue obj (Some "source_file.3") = Ok (VStr ".")
  /\ getNestedValue obj (Some "source_file.7.x") = Ok VUndef
  /\ getNestedValue obj (Some "top_10_piids.0.piid") = Ok (VStr "P-1")
  /\ getNestedValue obj (Some "top_10_piids.1.piid") = Ok VUndef.
Proof.
  intros obj.
  assert (Hstored : forall p x, p <> "" -> stored_at obj (split "." p) = Some x ->
                                getNestedValue obj (Some p) = Ok x).
  { intros p. apply (getNestedValue_resolves obj p). }
  assert (Habsent : forall p pre k post v,
            split "." p = (pre ++ k :: post)%list -> stored_at obj pre = Some v ->
            truthy v = false \/ absent v k = true ->
            getNestedValue obj (Some p) = Ok VUndef).
  { intros p. apply (getNestedValue_resolves obj p). }
  split; [apply Hstored; [discriminate | reflexivity]|].
  split; [apply (Habsent _ ["summary"] "total" ["amount"]
                   (VObj [("total_all_obligations", VNum 300)]));
          [reflexivity | reflexivity | right; reflexivity]|].
  split; [apply Hstored; [discriminate | reflexivity]|].
  split; [apply Hstored; [discriminate | reflexivity]|].
  split; [apply (Habsent _ ["source_file"] "7" ["x"] (VStr "fas.csv"));
          [reflexivity | reflexivity | right; reflexivity]|].
  split; [apply Hstored; [discriminate | reflexivity]|].
  apply (Habsent _ ["top_10_piids"] "1" ["piid"] (VArr [VObj [("piid", VStr "P-1")]]));
    [reflexivity | reflexivity | right; reflexivity].
Defined.

(** C6 as stated fails: a text is not a mapping, yet the path goes through
    it to its length. *)
Lemma getNestedValue_through_text :
  let obj := VObj [("a", VStr "xyz")] in
  stored_at obj ["a"] = Some (VStr "xyz")
  /\ is_mapping (VStr "xyz") = false
  /\ getNestedValue obj (Some "a.length") = Ok (VNum 3).
Proof. repeat split. Qed.

(** ** Categories *)

(** A loop that pushes one element per item is a [map]. *)
Lemma forEach_push {A B : Type} (body : list B -> A -> outcome (list B)) (f : A -> B)
  (xs : list A) :
  (forall acc x, In x xs -> body acc x = Ok (acc ++ [f x])%list) ->
  forall acc, forEach body xs acc = Ok (acc ++ map f xs)%list.
Proof.
  induction xs as [|x xs IH]; intros Hbody acc.
  - simpl. rewrite app_nil_r. reflexivity.
  - rewrite forEach_cons, Hbody by (left; reflexivity). cbn [bind].
    rewrite IH by (intros acc' y Hy; apply Hbody; right; exact Hy).
    simpl. rewrite <- app_assoc. reflexivity.
Qed.

(** A loop whose body throws [e] at some item, and throws nothing else,
    throws [e]. *)
Lemma forEach_throws {A S : Type} (body : S -> A -> outcome S) (e : exn)
  (xs : list A) (bad : A -> bool) :
  (forall s x, bad x = true -> body s x = Throw e) ->
  (forall s x e', body s x = Throw e' -> e' = e) ->
  existsb bad xs = true ->
  forall s, forEach body xs s = Throw e.
Proof.
  intros Hbad Honly. induction xs as [|x xs IH]; intros Hex s; [discriminate|].
  rewrite forEach_cons. simpl in Hex.
  destruct (body s x) as [s'|e'] eqn:Hstep; cbn [bind].
  - destruct (bad x) eqn:Hx.
    + rewrite (Hbad s x Hx) in Hstep. discriminate.
    + apply IH. exact Hex.
  - f_equal. eapply Honly; exact Hstep.
Qed.

Lemma map_body_defined (result : list value) (entry : string * value) :
  nullish (snd entry) = false ->
  map_body result entry = Ok (result ++ [map_category entry])%list.
Proof.
  destruct entry as [name data]. cbn [snd]. intros Hd. unfold map_body, map_category.
  rewrite !(get_ok _ _ Hd). cbn [bind].
  destruct (is_undef (own_get data "total_obligations")); reflexivity.
Qed.

Lemma map_body_nullish (result : list value) (entry : string * value) :
  nullish (snd entry) = true -> map_body result entry = Throw TypeError.
Proof.
  destruct entry as [name data]. cbn [snd]. intros Hd. unfold map_body, get.
  rewrite Hd. reflexivity.
Qed.

Lemma array_body_defined (s : schema) (result : list value) (item : value) :
  nullish item = false ->
  array_body s result item = Ok (result ++ [array_category s item])%list.
Proof. intros Hd. unfold array_body. rewrite !(get_ok _ _ Hd). reflexivity. Qed.

Lemma array_body_nullish (s : schema) (result : list value) (item : value) :
  nullish item = true -> array_body s result item = Throw TypeError.
Proof. intros Hd. unfold array_body, get. rewrite Hd. reflexivity. Qed.

Lemma all_defined_spec (vs : list value) :
  all_defined vs = true <-> forall v, In v vs -> nullish v = false.
Proof.
  unfold all_defined. rewrite forallb_forall. split; intros H v Hv.
  - apply negb_true_iff, H, Hv.
  - apply negb_true_iff, H, Hv.
Qed.

Lemma not_all_defined (vs : list value) :
  all_defined vs = false -> existsb nullish vs = true.
Proof.
  unfold all_defined. induction vs as [|v vs IH]; simpl; [discriminate|].
  destruct (nullish v); simpl; [reflexivity | exact IH].
Qed.

(** [getCategories] unfolded for a registered schema with a categories
    path. *)
Lemma getCategories_unfold (jsonData : value) (schemaKey : string) (s : schema) :
  assoc schemaKey COLUMN_SCHEMAS = Some s ->
  present (categoriesPath s) = true ->
  let categories := resolved jsonData (categoriesPath s) in
  getCategories jsonData schemaKey =
  if negb (truthy categories) then Ok (VArr [])
  else
    result <-
      match categoryValueType s with
      | Some array =>
          match categories with
          | VArr items => forEach (array_body s) items []
          | _ => Throw TypeError
          end
      | _ => forEach map_body (entries categories) []
      end ;;
    Ok (VArr result).
Proof.
  intros Hs Hp categories. unfold getCategories. rewrite Hs, Hp. cbn [negb].
  rewrite getNestedValue_resolved. cbn [bind]. fold categories.
  destruct (truthy categories); cbn [negb]; [|reflexivity].
  destruct (categoryValueType s) as [[|]|]; reflexivity.
Qed.

(** Over an object map whose entries are all defined, [getCategories] maps
    [map_category] over the entries. *)
Lemma getCategories_object_map (jsonData : value) (schemaKey : string) (s : schema) :
  assoc schemaKey COLUMN_SCHEMAS = Some s ->
  present (categoriesPath s) = true ->
  categoryValueType s <> Some array ->
  let categories := resolved jsonData (categoriesPath s) in
  truthy categories = true ->
  all_defined (values categories) = true ->
  getCategories jsonData schemaKey = Ok (VArr (map map_category (entries categories))).
Proof.
  intros Hs Hp Hkind categories Ht Hall.
  rewrite (getCategories_unfold _ _ _ Hs Hp). fold categories. rewrite Ht. cbn [negb].
  assert (Hloop : forEach map_body (entries categories) [] =
                  Ok ([] ++ map map_category (entries categories))%list).
  { apply forEach_push. intros acc x Hx. apply map_body_defined.
    apply (proj1 (all_defined_spec _) Hall). apply in_map. exact Hx. }
  destruct (categoryValueType s) as [[|]|]; try (rewrite Hloop; reflexivity).
  contradiction Hkind. reflexivity.
Qed.

(** Over an array whose items are all defined, under a schema that declares
    an array, [getCategories] maps [array_category] over the items. *)
Lemma getCategories_array (jsonData : value) (schemaKey : string) (s : schema)
  (xs : list value) :
  assoc schemaKey COLUMN_SCHEMAS = Some s ->
  present (categoriesPath s) = true ->
  categoryValueType s = Some array ->
  resolved jsonData (categoriesPath s) = VArr xs ->
  all_defined xs = true ->
  getCategories jsonData schemaKey = Ok (VArr (map (array_category s) xs)).
Proof.
  intros Hs Hp Hkind Hc Hall.
  rewrite (getCategories_unfold _ _ _ Hs Hp), Hc, Hkind. cbn [truthy negb].
  rewrite (forEach_push (array_body s) (array_category s)).
  - reflexivity.
  - intros acc x Hx. apply array_body_defined.
    apply (proj1 (all_defined_spec _) Hall). exact Hx.
Qed.

Lemma is_category_category (n v p fy : value) : is_category (category n v p fy) = true.
Proof. reflexivity. Qed.

Lemma forallb_snoc {A : Type} (f : A -> bool) (xs : list A) (x : A) :
  forallb f (xs ++ [x]) = (forallb f xs && f x)%bool.
Proof. rewrite forallb_app. simpl. rewrite andb_true_r. reflexivity. Qed.

(** Whatever [getCategories] returns is an array of category records. *)
Lemma getCategories_shape (jsonData : value) (schemaKey : string) (r : value) :
  getCategories jsonData schemaKey = Ok r ->
  exists cats, r = VArr cats /\ forallb is_category cats = true.
Proof.
  unfold getCategories.
  destruct (assoc schemaKey COLUMN_SCHEMAS) as [s|];
    [|intros H; injection H as <-; exists []; split; reflexivity].
  destruct (negb (present (categoriesPath s)));
    [intros H; injection H as <-; exists []; split; reflexivity|].
  rewrite getNestedValue_resolved. cbn [bind].
  destruct (negb (truthy (resolved jsonData (categoriesPath s))));
    [intros H; injection H as <-; exists []; split; reflexivity|].
  set (P := fun cats : list value => forallb is_category cats = true).
  assert (Hmap : forall l res, forEach map_body l [] = Ok res -> P res).
  { intros l res. apply forEach_invariant; [|reflexivity].
    intros acc entry acc' Hacc. destruct (nullish (snd entry)) eqn:Hn.
    - rewrite (map_body_nullish _ _ Hn). discriminate.
    - rewrite (map_body_defined _ _ Hn). intros H; injection H as <-.
      unfold P. rewrite forallb_snoc, Hacc. destruct entry; reflexivity. }
  assert (Harr : forall l res, forEach (array_body s) l [] = Ok res -> P res).
  { intros l res. apply forEach_invariant; [|reflexivity].
    intros acc item acc' Hacc. destruct (nullish item) eqn:Hn.
    - rewrite (array_body_nullish _ _ _ Hn). discriminate.
    - rewrite (array_body_defined _ _ _ Hn). intros H; injection H as <-.
      unfold P. rewrite forallb_snoc, Hacc. reflexivity. }
  destruct (categoryValueType s) as [[|]|].
  - destruct (forEach map_body _ []) as [res|] eqn:E; cbn [bind]; [|discriminate].
    intros H; injection H as <-. exists res. split; [reflexivity | eapply Hmap; exact E].
  - destruct (resolved jsonData (categoriesPath s)) as [| | | | | |xs|fs];
      cbn [bind]; try discriminate.
    destruct (forEach (array_body s) xs []) as [res|] eqn:E; cbn [bind]; [|discriminate].
    intros H; injection H as <-. exists res. split; [reflexivity | eapply Harr; exact E].
  - destruct (forEach map_body _ []) as [res|] eqn:E; cbn [bind]; [|discriminate].
    intros H; injection H as <-. exists res. split; [reflexivity | eapply Hmap; exact E].
Qed.

(** A null or undefined entry makes the loop over an object map throw. *)
Lemma getCategories_object_map_throws (jsonData : value) (schemaKey : string)
  (s : schema) :
  assoc schemaKey COLUMN_SCHEMAS = Some s ->
  present (categoriesPath s) = true ->
  categoryValueType s <> Some array ->
  let categories := resolved jsonData (categoriesPath s) in
  truthy categories = true ->
  all_defined (values categories) = false ->
  getCategories jsonData schemaKey = Throw TypeError.
Proof.
  intros Hs Hp Hkind categories Ht Hall.
  rewrite (getCategories_unfold _ _ _ Hs Hp). fold categories. rewrite Ht. cbn [negb].
  assert (Hloop : forEach map_body (entries categories) [] = Throw TypeError).
  { apply forEach_throws with (bad := fun e => nullish (snd e)).
    - intros acc x Hx. apply map_body_nullish, Hx.
    - intros acc x e' He. destruct (nullish (snd x)) eqn:Hn.
      + rewrite (map_body_nullish _ _ Hn) in He. injection He as <-. reflexivity.
      + rewrite (map_body_defined _ _ Hn) in He. discriminate.
    - apply not_all_defined in Hall. unfold values in Hall.
      rewrite existsb_exists in *. destruct Hall as (v & Hv & Hn).
      apply in_map_iff in Hv. destruct Hv as (e & <- & He). exists e. split; assumption. }
  destruct (categoryValueType s) as [[|]|]; try (rewrite Hloop; reflexivity).
  contradiction Hkind. reflexivity.
Qed.

(** A loop that throws did so in its body. *)
Lemma forEach_throw_inv {A S : Type} (body : S -> A -> outcome S) (xs : list A)
  (e : exn) :
  forall s, forEach body xs s = Throw e -> exists s' x, body s' x = Throw e.
Proof.
  induction xs as [|x xs IH]; intros s Hrun; [discriminate Hrun|].
  rewrite forEach_cons in Hrun.
  destruct (body s x) as [s1|e1] eqn:Hstep; cbn [bind] in Hrun.
  - apply (IH s1 Hrun).
  - injection Hrun as <-. exists s, x. exact Hstep.
Qed.

(** What [getCategories] throws is a [TypeError]. *)
Lemma getCategories_throws_TypeError (jsonData : value) (schemaKey : string) (e : exn) :
  getCategories jsonData schemaKey = Throw e -> e = TypeError.
Proof.
  unfold getCategories.
  destruct (assoc schemaKey COLUMN_SCHEMAS) as [s|]; [|discriminate].
  destruct (negb (present (categoriesPath s))); [discriminate|].
  rewrite getNestedValue_resolved. cbn [bind].
  destruct (negb (truthy (resolved jsonData (categoriesPath s)))); [discriminate|].
  assert (Hmap : forall l, forEach map_body l [] = Throw e -> e = TypeError).
  { intros l Hrun. destruct (forEach_throw_inv _ _ _ _ Hrun) as (acc & x & Hx).
    destruct (nullish (snd x)) eqn:Hn.
    - rewrite (map_body_nullish _ _ Hn) in Hx. injection Hx as <-. reflexivity.
    - rewrite (map_body_defined _ _ Hn) in Hx. discriminate Hx. }
  assert (Harr : forall l, forEach (array_body s) l [] = Throw e -> e = TypeError).
  { intros l Hrun. destruct (forEach_throw_inv _ _ _ _ Hrun) as (acc & x & Hx).
    destruct (nullish x) eqn:Hn.
    - rewrite (array_body_nullish _ _ _ Hn) in Hx. injection Hx as <-. reflexivity.
    - rewrite (array_body_defined _ _ _ Hn) in Hx. discriminate Hx. }
  destruct (categoryValueType s) as [[|]|].
  - destruct (forEach map_body _ []) as [res|e'] eqn:E; cbn [bind]; [discriminate|].
    intros H; injection H as <-. eapply Hmap; exact E.
  - destruct (resolved jsonData (categoriesPath s)) as [| | | | | |xs|fs]; cbn [bind];
      try (intros H; injection H as <-; reflexivity).
    destruct (forEach (array_body s) xs []) as [res|e'] eqn:E; cbn [bind];
      [discriminate|].
    intros H; injection H as <-. eapply Harr; exact E.
  - destruct (forEach map_body _ []) as [res|e'] eqn:E; cbn [bind]; [discriminate|].
    intros H; injection H as <-. eapply Hmap; exact E.
Qed.

(** C1, as the code has it.  Whatever [getCategories] returns is a flat list
    of records of the shape [{ name, value, percentage, fiscalYears }]; it
    returns the empty list for an unknown key, for a schema without a
    categories path and when the container is absent or falsy; and it
    returns one record per entry when no entry of the container is null or
    undefined and, under a schema that declares an array, the container is
    an array; when it raises instead, what it raises is a [TypeError].
    [fiscalYears] is the empty mapping when the entry has no truthy one. *)
Theorem getCategories_flat (jsonData : value) (schemaKey : string) :
  (forall r, getCategories jsonData schemaKey = Ok r ->
     exists cats, r = VArr cats /\ forallb is_category cats = true)
  /\ (forall e, getCategories jsonData schemaKey = Throw e -> e = TypeError)
  /\ (assoc schemaKey COLUMN_SCHEMAS = None ->
      getCategories jsonData schemaKey = Ok (VArr []))
  /\ (forall s, assoc schemaKey COLUMN_SCHEMAS = Some s ->
      let categories := resolved jsonData (categoriesPath s) in
      (present (categoriesPath s) = false \/ truthy categories = false ->
       getCategories jsonData schemaKey = Ok (VArr []))
      /\ (present (categoriesPath s) = true ->
          categoryValueType s <> Some array ->
          truthy categories = true ->
          all_defined (values categories) = true ->
          getCategories jsonData schemaKey =
          Ok (VArr (map map_category (entries categories))))
      /\ (present (categoriesPath s) = true ->
          categoryValueType s = Some array ->
          forall xs, categories = VArr xs ->
          all_defined xs = true ->
          getCategories jsonData schemaKey = Ok (VArr (map (array_category s) xs))))
  /\ (forall name data,
        truthy (own_get data "fiscal_years") = false ->
        own_get (map_category (name, data)) "fiscalYears" = VObj [])
  /\ (forall s item,
        truthy (own_get item "fiscal_year_breakdown") = false ->
        own_get (array_category s item) "fiscalYears" = VObj []).
Proof.
  split; [|split; [|split; [|split; [|split]]]].
  - apply getCategories_shape.
  - apply getCategories_throws_TypeError.
  - intros Hs. unfold getCategories. rewrite Hs. reflexivity.
  - intros s Hs categories. split; [|split].
    + intros [Hp|Hc].
      * unfold getCategories. rewrite Hs, Hp. reflexivity.
      * unfold getCategories. rewrite Hs.
        destruct (negb (present (categoriesPath s))); [reflexivity|].
        rewrite getNestedValue_resolved. cbn [bind]. fold categories. rewrite Hc.
        reflexivity.
    + intros Hp Hkind Ht Hall. apply getCategories_object_map; assumption.
    + intros Hp Hkind xs Hc Hall. apply getCategories_array; assumption.
  - intros name data Hfy. unfold map_category, category, or_else. simpl.
    rewrite Hfy. reflexivity.
  - intros s item Hfy. unfold array_category, category, or_else. simpl.
    rewrite Hfy. reflexivity.
Qed.

Lemma getCategories_flat_witness :
  getCategories tier_summaries_example "sumTier" =
  Ok (VArr [ category (VStr "A") (VNum 200) VUndef (VObj [("2024", VNum 200)]);
             category (VStr "B") (VNum 100) VUndef (VObj [("2024", VNum 100)]) ]).
Proof.
  refine (proj1 (proj2 (proj1 (proj2 (proj2 (proj2
            (getCategories_flat tier_summaries_example "sumTier")))) _ eq_refl))
          _ _ _ _).
  - reflexivity.
  - discriminate.
  - reflexivity.
  - reflexivity.
Defined.

(** C1 as stated fails: an entry that is null makes [getCategories] throw,
    and so does an object map where the schema declares an array. *)
Lemma getCategories_can_throw :
  getCategories
    (VObj [("business_size_summaries", VObj [("SMALL BUSINESS", VNull)])])
    "smallBusiness" = Throw TypeError
  /\ getCategories
       (VObj [("top_10_piids", VObj [("W91QUZ", VObj [("dollars_obligated", VNum 5)])])])
       "topPiid" = Throw TypeError.
Proof. split; reflexivity. Qed.

(** C5, as the code has it.  Under a schema that declares an object map,
    the value extracted for an entry is the entry's [total_obligations]
    when that is defined and its [total] otherwise; the schema's
    [itemValueField] plays no part. *)
Theorem getCategories_value_field (jsonData : value) (schemaKey : string) (s : schema) :
  assoc schemaKey COLUMN_SCHEMAS = Some s ->
  categoryValueType s = Some object_map ->
  present (categoriesPath s) = true ->
  let categories := resolved jsonData (categoriesPath s) in
  truthy categories = true ->
  all_defined (values categories) = true ->
  exists cats,
    getCategories jsonData schemaKey = Ok (VArr cats)
    /\ List.length cats = List.length (entries categories)
    /\ forall i name data,
         nth_error (entries categories) i = Some (name, data) ->
         exists c,
           nth_error cats i = Some c
           /\ own_get c "name" = VStr name
           /\ own_get c "value" =
              if is_undef (own_get data "total_obligations") then own_get data "total"
              else own_get data "total_obligations".
Proof.
  intros Hs Hkind Hp categories Ht Hall.
  exists (map map_category (entries categories)). split; [|split].
  - apply getCategories_object_map; try assumption. rewrite Hkind. discriminate.
  - apply length_map.
  - intros i name data Hi. exists (map_category (name, data)). split; [|split].
    + apply map_nth_error. exact Hi.
    + reflexivity.
    + reflexivity.
Qed.

Lemma getCategories_value_field_witness :
  exists cats,
    getCategories oem_summaries_example "fasOem" = Ok (VArr cats)
    /\ List.length cats = 1%nat
    /\ forall i name data,
         nth_error (entries (own_get oem_summaries_example "top_10_oem_summaries")) i
         = Some (name, data) ->
         exists c,
           nth_error cats i = Some c
           /\ own_get c "name" = VStr name
           /\ own_get c "value" =
              if is_undef (own_get data "total_obligations") then own_get data "total"
              else own_get data "total_obligations".
Proof.
  refine (getCategories_value_field oem_summaries_example "fasOem" _
            eq_refl eq_refl eq_refl eq_refl eq_refl).
Defined.

(** C5 as stated fails: the schema of column E names no [itemValueField],
    so the claim has the entry's [total] extracted; the code extracts its
    [total_obligations]. *)
Lemma getCategories_ignores_itemValueField :
  let entry := VObj [("total_obligations", VNum 7); ("total", VNum 9)] in
  let json := VObj [("business_size_summaries", VObj [("SMALL BUSINESS", entry)])] in
  exists s,
    assoc "smallBusiness" COLUMN_SCHEMAS = Some s
    /\ structurePattern s = PATTERN_B_SUMMARY_WITH_OBJECT_MAP
    /\ categoryValueType s = Some object_map
    /\ own_get entry (declared_value_field s) = VNum 9
    /\ getCategories json "smallBusiness" =
       Ok (VArr [category (VStr "SMALL BUSINESS") (VNum 7) VUndef (VObj [])]).
Proof. intros entry json. eexists. repeat split. Qed.

(** ** Assignments to fields *)

Lemma assoc_replace_field {A : Type} (k k' : string) (v : A) (fs : list (string * A)) :
  assoc k fs <> None ->
  assoc k' (replace_field k v fs) = if (k =? k')%string then Some v else assoc k' fs.
Proof.
  induction fs as [|[k0 v0] fs IH]; simpl; intros Hk; [contradiction|].
  destruct (k0 =? k)%string eqn:E0; simpl.
  - apply String.eqb_eq in E0. subst k0.
    destruct (k =? k')%string; reflexivity.
  - destruct (k0 =? k')%string eqn:E1.
    + apply String.eqb_eq in E1. subst k0.
      rewrite String.eqb_sym in E0. rewrite E0. reflexivity.
    + apply IH. exact Hk.
Qed.

Lemma assoc_insert_index {A : Type} (n : Z) (k k' : string) (v : A)
  (fs : list (string * A)) :
  assoc k fs = None ->
  assoc k' (insert_index n k v fs) = if (k =? k')%string then Some v else assoc k' fs.
Proof.
  induction fs as [|[k0 v0] fs IH]; simpl; intros Hk.
  - reflexivity.
  - destruct (k0 =? k)%string eqn:E0; [discriminate|].
    destruct (array_index k0) as [m|]; [destruct (m <? n)|]; simpl;
      try reflexivity.
    destruct (k0 =? k')%string eqn:E1.
    + apply String.eqb_eq in E1. subst k0.
      rewrite String.eqb_sym in E0. rewrite E0. reflexivity.
    + apply IH. exact Hk.
Qed.

Lemma assoc_app_last {A : Type} (k k' : string) (v : A) (fs : list (string * A)) :
  assoc k fs = None ->
  assoc k' (fs ++ [(k, v)]) = if (k =? k')%string then Some v else assoc k' fs.
Proof.
  induction fs as [|[k0 v0] fs IH]; simpl; intros Hk.
  - reflexivity.
  - destruct (k0 =? k)%string eqn:E0; [discriminate|].
    destruct (k0 =? k')%string eqn:E1.
    + apply String.eqb_eq in E1. subst k0.
      rewrite String.eqb_sym in E0. rewrite E0. reflexivity.
    + apply IH. exact Hk.
Qed.

(** Reading a field after an assignment. *)
Lemma assoc_set_field {A : Type} (k k' : string) (v : A) (fs : list (string * A)) :
  assoc k' (set_field k v fs) = if (k =? k')%string then Some v else assoc k' fs.
Proof.
  unfold set_field. destruct (assoc k fs) as [x|] eqn:Hk.
  - apply assoc_replace_field. rewrite Hk. discriminate.
  - destruct (array_index k) as [n|].
    + apply assoc_insert_index, Hk.
    + apply assoc_app_last, Hk.
Qed.

Lemma set_field_not_nil {A : Type} (k : string) (v : A) (fs : list (string * A)) :
  set_field k v fs <> [].
Proof.
  intros H. pose proof (assoc_set_field k k v fs) as Hk.
  rewrite H, String.eqb_refl in Hk. discriminate.
Qed.

(** ** Fiscal years *)




Lemma amount_in_nil (year : string) : amount_in [] year = None.
Proof. reflexivity. Qed.








Lemma get_throws (v : value) (k : string) (e : exn) : get v k = Throw e -> e = TypeError.
Proof.
  unfold get. destruct (nullish v); [|discriminate].
  intros H; injection H as <-. reflexivity.
Qed.

Lemma breakdown_body_throws (fyTotals : list (string * value)) (entry : string * value)
  (e : exn) :
  breakdown_body fyTotals entry = Throw e -> e = TypeError.
Proof.
  destruct entry as [year yearData]. unfold breakdown_body, get.
  destruct (nullish yearData); cbn [bind];
    [intros H; injection H as <-; reflexivity|].
  destruct (truthy (own_get yearData "obligations")); cbn [bind]; [discriminate|].
  destruct (truthy (own_get yearData "total_price")); cbn [bind]; discriminate.
Qed.

(** What [getFiscalYearData] throws is a [TypeError]. *)
Lemma getFiscalYearData_throws_TypeError (jsonData : value) (schemaKey : string)
  (e : exn) :
  getFiscalYearData jsonData schemaKey = Throw e -> e = TypeError.
Proof.
  unfold getFiscalYearData.
  destruct (assoc schemaKey COLUMN_SCHEMAS) as [s|]; [|discriminate].
  destruct (present (timeSeriesPath s)).
  { rewrite getNestedValue_resolved. discriminate. }
  destruct (present (categoriesPath s)); [|discriminate].
  rewrite getNestedValue_resolved. cbn [bind].
  destruct (negb (truthy (resolved jsonData (categoriesPath s)))); [discriminate|].
  assert (Hmap : forall l acc, forEach map_years_body l acc = Throw e -> e = TypeError).
  { intros l acc Hrun. destruct (forEach_throw_inv _ _ _ _ Hrun) as (acc' & x & Hx).
    unfold map_years_body in Hx.
    destruct (get x "fiscal_years") as [fy|e'] eqn:Hg; cbn [bind] in Hx;
      [|injection Hx as <-; eapply get_throws; exact Hg].
    destruct (truthy fy); [|discriminate Hx].
    destruct (forEach_throw_inv _ _ _ _ Hx) as (acc'' & [year v] & Hy).
    discriminate Hy. }
  assert (Harr : forall l acc, forEach array_years_body l acc = Throw e -> e = TypeError).
  { intros l acc Hrun. destruct (forEach_throw_inv _ _ _ _ Hrun) as (acc' & x & Hx).
    unfold array_years_body in Hx.
    destruct (get x "fiscal_year_breakdown") as [fy|e'] eqn:Hg; cbn [bind] in Hx;
      [|injection Hx as <-; eapply get_throws; exact Hg].
    destruct (truthy fy); [|discriminate Hx].
    destruct (forEach_throw_inv _ _ _ _ Hx) as (acc'' & entry & Hy).
    eapply breakdown_body_throws; exact Hy. }
  destruct (resolved jsonData (categoriesPath s)) as [| | | | | |xs|fs];
    match goal with
    | |- bind (bind ?c _) _ = _ -> _ =>
        destruct c as [res|e'] eqn:E; cbn [bind]; [discriminate|];
        intros H; injection H as <-;
        first [eapply Hmap; exact E | eapply Harr; exact E]
    | |- bind ?c _ = _ -> _ =>
        destruct c as [res|e'] eqn:E; cbn [bind]; [discriminate|];
        intros H; injection H as <-;
        first [eapply Hmap; exact E | eapply Harr; exact E]
    end.
Qed.




Example getFiscalYearData_tiers :
  getFiscalYearData tier_summaries_example "sumTier" = Ok (VObj [("2024", VNum 300)]).
Proof. reflexivity. Qed.

(** ** The structural validator *)

Lemma required_fold (jsonData : value) (fields : list string) (r : validation) :
  isValid (fold_left (required_step jsonData) fields r) =
  (isValid r
   && negb (existsb (fun f => is_undef (resolved jsonData (Some f))) fields))%bool
  /\ warnings (fold_left (required_step jsonData) fields r) = warnings r.
Proof.
  revert r. induction fields as [|f fields IH]; intros r; simpl.
  - rewrite andb_true_r. split; reflexivity.
  - destruct (IH (required_step jsonData r f)) as [Hv Hw]. rewrite Hv, Hw.
    unfold required_step. destruct (is_undef (resolved jsonData (Some f))); simpl.
    + rewrite andb_false_r. split; reflexivity.
    + split; reflexivity.
Qed.

Lemma container_rejected_shape (kind : option container) (c : value) :
  c <> VNull ->
  is_undef c = false ->
  container_rejected kind c = shape_disagrees kind c.
Proof.
  intros Hnull Hu. destruct kind as [[|]|]; [|reflexivity..].
  destruct c; try reflexivity; try discriminate. contradiction.
Qed.

(** When the validator calls a value of object type invalid. *)
Lemma validateJsonStructure_isValid (jsonData : value) (schemaKey : string) (s : schema) :
  assoc schemaKey COLUMN_SCHEMAS = Some s ->
  truthy jsonData = true ->
  typeof jsonData = "object" ->
  exists r,
    validateJsonStructure jsonData schemaKey = Ok r
    /\ isValid r =
       negb (missing_required s jsonData
             || (present (categoriesPath s)
                 && negb (is_undef (resolved jsonData (categoriesPath s)))
                 && container_rejected (categoryValueType s)
                      (resolved jsonData (categoriesPath s))))%bool
    /\ (present (primaryValuePath s) = true ->
        is_undef (resolved jsonData (primaryValuePath s)) = true
        \/ typeof (resolved jsonData (primaryValuePath s)) <> "number" ->
        warnings r <> [])
    /\ (present (categoriesPath s) = true ->
        is_undef (resolved jsonData (categoriesPath s)) = true ->
        warnings r <> []).
Proof.
  intros Hs Ht Hty. unfold validateJsonStructure. rewrite Hs, Ht, Hty. cbn [negb orb].
  rewrite String.eqb_refl. cbn [negb].
  rewrite (forEach_pure _ (required_step jsonData)).
  2:{ intros r f _. rewrite getNestedValue_resolved. reflexivity. }
  cbn [bind].
  destruct (required_fold jsonData (requiredFields s) (mkValidation true [] []))
    as [Hv0 Hw0].
  set (r0 := fold_left (required_step jsonData) (requiredFields s)
               (mkValidation true [] [])) in *.
  cbn [isValid warnings andb] in Hv0, Hw0. fold (missing_required s jsonData) in Hv0.
  (* the primary value adds warnings only *)
  set (p := resolved jsonData (primaryValuePath s)).
  set (r1 := if present (primaryValuePath s) then
               if is_undef p then
                 add_warning r0 ("Primary value path '"
                                 ++ field_name (primaryValuePath s) ++ "' not found")
               else if negb (typeof p =? "number")%string then
                 add_warning r0 ("Primary value is not a number: " ++ typeof p)
               else r0
             else r0).
  assert (Hstep1 :
    (if present (primaryValuePath s) then
       primaryValue <- getNestedValue jsonData (primaryValuePath s) ;;
       Ok (if is_undef primaryValue then
             add_warning r0 ("Primary value path '"
                             ++ field_name (primaryValuePath s) ++ "' not found")
           else if negb (typeof primaryValue =? "number")%string then
             add_warning r0 ("Primary value is not a number: " ++ typeof primaryValue)
           else r0)
     else Ok r0) = Ok r1).
  { unfold r1. destruct (present (primaryValuePath s)); [|reflexivity].
    rewrite getNestedValue_resolved. reflexivity. }
  rewrite Hstep1. cbn [bind].
  assert (Hv1 : isValid r1 = isValid r0).
  { unfold r1. destruct (present (primaryValuePath s)); [|reflexivity].
    destruct (is_undef p); [reflexivity|].
    destruct (negb (typeof p =? "number")%string); reflexivity. }
  assert (Hw1 : present (primaryValuePath s) = true ->
                is_undef p = true \/ typeof p <> "number" -> warnings r1 <> []).
  { intros Hp Hbad. unfold r1. rewrite Hp.
    destruct (is_undef p) eqn:Hu.
    - simpl. intros H. apply app_eq_nil in H. destruct H; discriminate.
    - destruct Hbad as [Hbad|Hbad]; [discriminate|].
      destruct (typeof p =? "number")%string eqn:E.
      + apply String.eqb_eq in E. contradiction.
      + simpl. intros H. apply app_eq_nil in H. destruct H; discriminate. }
  assert (Hkeep : forall msg, warnings r1 <> [] -> warnings (add_error r1 msg) <> []).
  { intros msg H. exact H. }
  set (c := resolved jsonData (categoriesPath s)).
  destruct (present (categoriesPath s)) eqn:Hcp.
  - rewrite getNestedValue_resolved. fold c. cbn [bind andb].
    eexists. split; [reflexivity|].
    destruct (is_undef c) eqn:Hu.
    + cbn [negb andb]. rewrite orb_false_r. split; [|split].
      * simpl. rewrite Hv1, Hv0. reflexivity.
      * intros Hp Hbad. simpl. intros H. apply app_eq_nil in H.
        destruct H; discriminate.
      * intros _ _. simpl. intros H. apply app_eq_nil in H. destruct H; discriminate.
    + cbn [negb andb]. split; [|split].
      * unfold container_rejected.
        destruct (categoryValueType s) as [[|]|].
        -- destruct (isArray c || negb (typeof c =? "object")%string)%bool; simpl.
           ++ rewrite orb_true_r. reflexivity.
           ++ rewrite orb_false_r, Hv1, Hv0. reflexivity.
        -- destruct (negb (isArray c)); simpl.
           ++ rewrite orb_true_r. reflexivity.
           ++ rewrite orb_false_r, Hv1, Hv0. reflexivity.
        -- rewrite orb_false_r, Hv1, Hv0. reflexivity.
      * intros Hp Hbad. specialize (Hw1 Hp Hbad).
        destruct (categoryValueType s) as [[|]|].
        -- destruct (isArray c || negb (typeof c =? "object")%string)%bool;
             [apply Hkeep|]; exact Hw1.
        -- destruct (negb (isArray c)); [apply Hkeep|]; exact Hw1.
        -- exact Hw1.
      * intros _ H. discriminate.
  - eexists. split; [reflexivity|]. cbn [andb]. rewrite orb_false_r.
    split; [|split].
    + rewrite Hv1, Hv0. reflexivity.
    + exact Hw1.
    + intros H. discriminate.
Qed.

(** Away from a null container, the validator calls a value invalid
    exactly when a required field is missing or the container's shape
    disagrees with the declared kind. *)
Lemma validateJsonStructure_errors (jsonData : value) (schemaKey : string) (s : schema) :
  assoc schemaKey COLUMN_SCHEMAS = Some s ->
  truthy jsonData = true ->
  typeof jsonData = "object" ->
  resolved jsonData (categoriesPath s) <> VNull ->
  exists r,
    validateJsonStructure jsonData schemaKey = Ok r
    /\ (isValid r = false <->
        missing_required s jsonData = true
        \/ (present (categoriesPath s) = true
            /\ is_undef (resolved jsonData (categoriesPath s)) = false
            /\ shape_disagrees (categoryValueType s)
                 (resolved jsonData (categoriesPath s)) = true)).
Proof.
  intros Hs Ht Hty Hnull.
  destruct (validateJsonStructure_isValid _ _ _ Hs Ht Hty) as (r & Hr & Hv & _).
  exists r. split; [exact Hr|]. rewrite Hv, negb_false_iff, orb_true_iff.
  rewrite !andb_true_iff, negb_true_iff.
  split; intros [H|H]; try (left; exact H); right.
  - destruct H as [[Hp Hu] Hc]. rewrite container_rejected_shape in Hc by assumption.
    repeat split; assumption.
  - destruct H as (Hp & Hu & Hc). rewrite container_rejected_shape by assumption.
    repeat split; assumption.
Qed.

(** C2, where the code departs from it.  A container that is null is not
    an object map, so its shape disagrees with the declared kind, and no
    required field is missing; yet the validator answers valid, without an
    error or a warning.  Under a schema that declares an array the same
    null container is an error. *)
Theorem validateJsonStructure_null_container :
  (exists s,
     assoc "smallBusiness" COLUMN_SCHEMAS = Some s
     /\ missing_required s null_container_example = false
     /\ shape_disagrees (categoryValueType s)
          (resolved null_container_example (categoriesPath s)) = true
     /\ validateJsonStructure null_container_example "smallBusiness" =
        Ok (mkValidation true [] []))
  /\ validateJsonStructure null_array_example "topPiid" =
     Ok (mkValidation false ["Expected array at 'top_10_piids', got object"] []).
Proof. split; [eexists; repeat split | reflexivity]. Qed.

Lemma validateJsonStructure_total (jsonData : value) (schemaKey : string) :
  exists r, validateJsonStructure jsonData schemaKey = Ok r.
Proof.
  unfold validateJsonStructure.
  destruct (assoc schemaKey COLUMN_SCHEMAS) as [s|];
    [|destruct (inherited schemaKey);
      [destruct (negb (truthy jsonData) || negb (typeof jsonData =? "object")%string)%bool|];
      eexists; reflexivity].
  destruct (negb (truthy jsonData) || negb (typeof jsonData =? "object")%string)%bool;
    [eexists; reflexivity|].
  rewrite (forEach_pure _ (required_step jsonData)).
  2:{ intros r f _. rewrite getNestedValue_resolved. reflexivity. }
  cbn [bind].
  destruct (present (primaryValuePath s)).
  - rewrite getNestedValue_resolved. cbn [bind].
    destruct (present (categoriesPath s)).
    + rewrite getNestedValue_resolved. cbn [bind]. eexists; reflexivity.
    + eexists; reflexivity.
  - cbn [bind]. destruct (present (categoriesPath s)).
    + rewrite getNestedValue_resolved. cbn [bind]. eexists; reflexivity.
    + eexists; reflexivity.
Qed.

(** ** Parsing a cell for validation *)

Lemma parseAndValidateJson_total (JSON_parse : string -> decoded) (v : value) :
  exists r, parseAndValidateJson JSON_parse v = Ok r.
Proof.
  unfold parseAndValidateJson.
  destruct (negb (truthy v) || negb (typeof v =? "string")%string)%bool eqn:E;
    [eexists; reflexivity|].
  destruct v as [| | | | |t| |]; try (simpl in E; rewrite ?orb_true_r in E; discriminate).
  cbn [call_trim bind].
  destruct (negb (startsWith (trim t) "{")); [eexists; reflexivity|].
  destruct (JSON_parse (trim t)); eexists; reflexivity.
Qed.

Lemma parseAndValidateJson_no_brace (JSON_parse : string -> decoded) (s : string) :
  startsWith (trim s) "{" = false ->
  parseAndValidateJson JSON_parse (VStr s) =
  Ok (mkParsed false VNull
        (VStr (if (s =? "")%string then "Input is not a string"
               else "String does not start with {"))).
Proof.
  intros Hb. unfold parseAndValidateJson. cbn [truthy typeof].
  rewrite String.eqb_refl. cbn [negb]. rewrite orb_false_r.
  destruct (s =? "")%string; cbn [negb]; [reflexivity|].
  cbn [call_trim bind]. rewrite Hb. reflexivity.
Qed.

(** ** Stores by key *)

Section Stores.

Context {A B : Type}.
Variable step : list (string * A) -> string * B -> list (string * A).
Variable f : string * B -> option A.
Hypothesis step_stores : forall acc e, step acc e = store (fst e) (f e) acc.

Lemma fold_store_other (l : list (string * B)) (key : string) :
  existsb (String.eqb key) (map fst l) = false ->
  forall acc, assoc key (fold_left step l acc) = assoc key acc.
Proof.
  induction l as [|e l IH]; intros Hfresh acc; [reflexivity|].
  simpl in Hfresh. apply orb_false_iff in Hfresh. destruct Hfresh as [He Hl].
  simpl. rewrite (IH Hl), step_stores. unfold store.
  destruct (f e); [|reflexivity].
  rewrite assoc_set_field, String.eqb_sym, He. reflexivity.
Qed.

(** With distinct keys, the field of a key holds what its entry stored. *)
Lemma fold_store (l : list (string * B)) :
  distinct (map fst l) = true ->
  forall acc e v,
    In e l -> f e = Some v ->
    assoc (fst e) (fold_left step l acc) = Some v.
Proof.
  induction l as [|e0 l IH]; intros Hd acc e v Hin Hf; [contradiction|].
  simpl in Hd. apply andb_true_iff in Hd. destruct Hd as [Hfresh Hd].
  apply negb_true_iff in Hfresh. simpl.
  destruct Hin as [<-|Hin].
  - rewrite (fold_store_other _ _ Hfresh), step_stores, Hf. simpl.
    rewrite assoc_set_field, String.eqb_refl. reflexivity.
  - apply IH; assumption.
Qed.

End Stores.

(** ** Validation of a row *)

Lemma registered_columns :
  forallb (fun e : string * string =>
             match assoc (snd e) COLUMN_SCHEMAS with
             | Some _ => true
             | None => false
             end) COLUMN_INDEX_MAP = true.
Proof. reflexivity. Qed.

Lemma nth_text_or_empty (rowData : list value) (i : nat) :
  forallb text_or_empty rowData = true ->
  text_or_empty (nth i rowData VUndef) = true.
Proof.
  intros H. destruct (nth_in_or_default i rowData VUndef) as [Hin | ->]; [|reflexivity].
  exact (proj1 (forallb_forall _ _) H _ Hin).
Qed.

(** Over a row of texts and empty cells the loop body never throws. *)
Lemma column_report_total (JSON_parse : string -> decoded) (rowData : list value)
  (key schemaKey : string) :
  forallb text_or_empty rowData = true ->
  In (key, schemaKey) COLUMN_INDEX_MAP ->
  exists r, column_report JSON_parse rowData key schemaKey = Ok r.
Proof.
  intros Hrow Hin. unfold column_report.
  destruct (negb (isNaN_text key)); [eexists; reflexivity|].
  pose proof (proj1 (forallb_forall _ _) registered_columns _ Hin) as Hreg.
  cbn [snd] in Hreg.
  destruct (assoc schemaKey COLUMN_SCHEMAS) as [s|]; [|discriminate].
  pose proof (nth_text_or_empty rowData (columnIndex s) Hrow) as Hcell.
  set (cell := nth (columnIndex s) rowData VUndef) in *.
  unfold text_or_empty in Hcell.
  destruct (truthy cell) eqn:Ht; cbn [negb orb] in Hcell |- *.
  - destruct cell as [| | | | |t| |]; try discriminate. cbn [call_trim bind].
    destruct (trim t =? "")%string; [eexists; reflexivity|].
    destruct (parseAndValidateJson_total JSON_parse (VStr t)) as (r & ->).
    cbn [bind]. destruct (negb (parsed_isValid r)); [eexists; reflexivity|].
    destruct (validateJsonStructure_total (parsed_data r) schemaKey) as (r' & ->).
    eexists; reflexivity.
  - eexists; reflexivity.
Qed.

Lemma validateRowJsonColumns_fold (JSON_parse : string -> decoded)
  (rowData : list value) :
  forallb text_or_empty rowData = true ->
  validateRowJsonColumns JSON_parse rowData =
  Ok (VObj (fold_left
              (fun results entry =>
                 store_report (fst entry) (report_of JSON_parse rowData entry) results)
              COLUMN_INDEX_MAP [])).
Proof.
  intros Hrow. unfold validateRowJsonColumns.
  rewrite (forEach_pure _
             (fun results entry =>
                store_report (fst entry) (report_of JSON_parse rowData entry) results)).
  - reflexivity.
  - intros results [key schemaKey] Hin. unfold report_of. cbn [fst snd].
    destruct (column_report_total JSON_parse rowData key schemaKey Hrow Hin)
      as (r & ->).
    reflexivity.
Qed.

(** ** Derived fields *)

Lemma extractTotalObligations_value (o : value) :
  extractTotalObligations o = Ok (total_of o).
Proof.
  unfold extractTotalObligations, total_of.
  destruct (truthy o) eqn:Ht; cbn [negb]; [|reflexivity].
  rewrite !(get_truthy _ _ Ht). cbn [bind].
  destruct (truthy (own_get o "total_obligated")); [reflexivity|].
  destruct (truthy (get_opt (own_get o "summary") "total_obligations")) eqn:Hs.
  - unfold get. unfold get_opt in Hs.
    destruct (nullish (own_get o "summary")); [discriminate | reflexivity].
  - destruct (truthy (own_get o "fiscal_year_obligations")); reflexivity.
Qed.

Lemma extractTier_total (fs : list (string * value)) :
  exists tier, extractTier (VObj fs) = Ok tier.
Proof.
  unfold extractTier. rewrite !get_ok by reflexivity. cbn [bind].
  destruct (truthy (get_opt (own_get (VObj fs) "oneGovTier") "mode_tier")) eqn:H1.
  - unfold get. unfold get_opt in H1.
    destruct (nullish (own_get (VObj fs) "oneGovTier")); [discriminate|].
    eexists; reflexivity.
  - destruct (truthy (get_opt (own_get (VObj fs) "sumTier") "tier")) eqn:H2.
    + unfold get. unfold get_opt in H2.
      destruct (nullish (own_get (VObj fs) "sumTier")); [discriminate|].
      eexists; reflexivity.
    + eexists; reflexivity.
Qed.

Lemma checkAIProducts_total (fs : list (string * value)) :
  exists ai, checkAIProducts (VObj fs) = Ok ai.
Proof. unfold checkAIProducts. rewrite get_ok by reflexivity. eexists; reflexivity. Qed.


Lemma summed_is_number (vs : list value) (a : Z) :
  exists z,
    fold_left (fun sum val => add sum (or_else (parseFloat val) (VNum 0))) vs (VNum a)
    = VNum z.
Proof.
  revert a. induction vs as [|v vs IH]; intros a; cbn [fold_left].
  - exists a. reflexivity.
  - assert (Hterm : exists z, or_else (parseFloat v) (VNum 0) = VNum z).
    { assert (Hp : (exists z, parseFloat v = VNum z) \/ parseFloat v = VNaN).
      { unfold parseFloat, parse_int_prefix.
        destruct v; try (right; reflexivity); try (left; eexists; reflexivity);
          match goal with
          | |- context [trim_start ?s] =>
              destruct (trim_start s) as [|c rest]; [right; reflexivity|]
          end;
          destruct c as [[] [] [] [] [] [] [] []]; cbn [starts_with_digit];
          try match goal with
              | |- context [starts_with_digit ?r] => destruct (starts_with_digit r)
              end;
          try match goal with
              | |- context [is_digit ?c] => destruct (is_digit c)
              end;
          first [left; eexists; reflexivity | right; reflexivity]. }
      destruct Hp as [(z & ->)| ->]; [|exists 0%Z; reflexivity].
      unfold or_else. cbn [truthy]. destruct (negb (z =? 0)%Z); eexists; reflexivity. }
    destruct Hterm as (z & ->). change (add (VNum a) (VNum z)) with (VNum (a + z)).
    apply IH.
Qed.

(** ** Loading a row *)

Section Rows.

Variable JSON_parse : string -> decoded.

Lemma store_column_stores (row : list value) (acc : list (string * value))
  (column : string * nat) :
  store_column JSON_parse row acc column =
  store (fst column)
    (if (fst column =? "name")%string then None
     else Some (if isJsonColumn (fst column)
                then parseJSON JSON_parse (cell row (snd column))
                else cell row (snd column)))
    acc.
Proof.
  destruct column as [key colIndex]. unfold store_column, cell. cbn [fst snd].
  destruct (key =? "name")%string; [reflexivity|].
  destruct (isJsonColumn key); reflexivity.
Qed.

(** With distinct column names, each column but the name holds its cell,
    parsed when it is a JSON column. *)
Lemma stored_columns_field (entityType : string) (config : mapping) (i : nat)
  (row : list value) (trimmed key : string) (colIndex : nat) :
  distinct (map fst (columns config)) = true ->
  In (key, colIndex) (columns config) ->
  key <> "name" ->
  assoc key (stored_columns JSON_parse entityType config i row trimmed) =
  Some (if isJsonColumn key then parseJSON JSON_parse (cell row colIndex)
        else cell row colIndex).
Proof.
  intros Hd Hin Hkey. unfold stored_columns.
  apply (fold_store (store_column JSON_parse row) _ (store_column_stores row))
    with (e := (key, colIndex)); try assumption.
  cbn [fst snd]. destruct (key =? "name")%string eqn:E; [|reflexivity].
  apply String.eqb_eq in E. contradiction.
Qed.

(** What [load_row] answers, by the cell under the name column. *)
Lemma load_row_cases (entityType : string) (config : mapping) (i : nat)
  (row : list value) (n : nat) :
  assoc "name" (columns config) = Some n ->
  match cell row n with
  | VStr t =>
      if (trim t =? "")%string || (t =? "")%string then
        load_row JSON_parse entityType config i row = Ok None
      else
        let cols := stored_columns JSON_parse entityType config i row (trim t) in
        exists tier ai,
          load_row JSON_parse entityType config i row =
          Ok (Some (VObj (set_field "hasAIProducts" (VBool ai)
                            (set_field "tier" tier
                               (set_field "totalObligations"
                                  (total_of (own_get (VObj cols) "obligations"))
                                  cols)))))
  | other =>
      if truthy other then
        load_row JSON_parse entityType config i row = Throw TypeError
      else load_row JSON_parse entityType config i row = Ok None
  end.
Proof.
  intros Hn. unfold load_row, cell. rewrite Hn.
  destruct (nth (n - 1) row VUndef) as [| |b|z| |t|xs|fs] eqn:Hcell;
    try reflexivity.
  - destruct b; reflexivity.
  - cbn [truthy]. destruct (z =? 0); reflexivity.
  - cbn [truthy]. destruct (t =? "")%string eqn:Et; cbn [negb bind].
    + rewrite orb_true_r. reflexivity.
    + cbn [call_trim bind]. rewrite orb_false_r.
      destruct (trim t =? "")%string; [reflexivity|].
      fold (stored_columns JSON_parse entityType config i row (trim t)).
      set (cols := stored_columns JSON_parse entityType config i row (trim t)).
      rewrite get_ok by reflexivity. cbn [bind].
      rewrite extractTotalObligations_value. cbn [bind].
      destruct (extractTier_total
                  (set_field "totalObligations"
                     (total_of (own_get (VObj cols) "obligations")) cols))
        as (tier & ->).
      cbn [bind].
      destruct (checkAIProducts_total
                  (set_field "tier" tier
                     (set_field "totalObligations"
                        (total_of (own_get (VObj cols) "obligations")) cols)))
        as (ai & ->).
      exists tier, ai. reflexivity.
Qed.

Lemma mapping_facts (entityType : string) (config : mapping) :
  In (entityType, config) columnMappings ->
  assoc "name" (columns config) = Some 2%nat
  /\ distinct (map fst (columns config)) = true
  /\ In ("obligations", 4%nat) (columns config)
  /\ incl shared_columns (columns config).
Proof.
  intros [H|[H|[H|[]]]]; injection H as <- <-; cbn [columns];
    (split; [reflexivity|]; split; [reflexivity|]; split;
     [right; right; right; left; reflexivity | apply incl_tl, incl_refl]).
Qed.

(** A row whose name cell holds a text, or nothing, never makes
    [load_row] throw. *)
Lemma load_row_total (entityType : string) (config : mapping) (i : nat)
  (row : list value) :
  In (entityType, config) columnMappings ->
  text_or_empty (cell row 2) = true ->
  exists r, load_row JSON_parse entityType config i row = Ok r.
Proof.
  intros Hin Hname. destruct (mapping_facts _ _ Hin) as (Hn & _).
  pose proof (load_row_cases entityType config i row 2 Hn) as Hc.
  unfold text_or_empty in Hname.
  destruct (cell row 2) as [| |b|z| |t|xs|fs]; try discriminate Hname;
    try (eexists; exact Hc).
  - destruct b; [discriminate Hname | eexists; exact Hc].
  - cbn [truthy] in *. destruct (negb (z =? 0)); [discriminate Hname | eexists; exact Hc].
  - destruct ((trim t =? "")%string || (t =? "")%string)%bool; [eexists; exact Hc|].
    destruct Hc as (tier & ai & Hc). eexists; exact Hc.
Qed.

(** Nor does the loop over such rows. *)
Lemma load_rows_total (entityType : string) (config : mapping) (rows : list (list value)) :
  In (entityType, config) columnMappings ->
  forallb (fun row => text_or_empty (cell row 2)) rows = true ->
  forall i entities,
    exists loaded, load_rows JSON_parse entityType config i rows entities = Ok loaded.
Proof.
  intros Hin. induction rows as [|row rows IH]; intros Hrows i entities.
  - eexists; reflexivity.
  - simpl in Hrows. apply andb_true_iff in Hrows. destruct Hrows as [Hrow Hrows].
    destruct (load_row_total entityType config i row Hin Hrow) as (r & Hr).
    cbn [load_rows]. rewrite Hr. cbn [bind]. apply IH. exact Hrows.
Qed.

(** The fields of a loaded entity. *)
Lemma load_row_fields (entityType : string) (config : mapping) (i : nat)
  (row : list value) (entity : value) :
  In (entityType, config) columnMappings ->
  load_row JSON_parse entityType config i row = Ok (Some entity) ->
  own_get entity "totalObligations" =
    total_of (parseJSON JSON_parse (cell row 4))
  /\ forall key colIndex,
       In (key, colIndex) shared_columns ->
       isJsonColumn key = true ->
       own_get entity key = parseJSON JSON_parse (cell row colIndex).
Proof.
  intros Hin Hload. destruct (mapping_facts _ _ Hin) as (Hn & Hd & Hobl & Hincl).
  pose proof (load_row_cases entityType config i row 2 Hn) as Hc.
  destruct (cell row 2) as [| |b|z| |t|xs|fs];
    try (rewrite Hc in Hload; discriminate Hload).
  - destruct b; rewrite Hc in Hload; discriminate Hload.
  - cbn [truthy] in Hc. destruct (negb (z =? 0)); rewrite Hc in Hload;
      discriminate Hload.
  - destruct ((trim t =? "")%string || (t =? "")%string)%bool;
      [rewrite Hc in Hload; discriminate Hload|].
    destruct Hc as (tier & ai & Hc). rewrite Hc in Hload.
    injection Hload as <-.
    set (cols := stored_columns JSON_parse entityType config i row (trim t)).
    assert (Hcol : forall key colIndex,
               In (key, colIndex) (columns config) -> isJsonColumn key = true ->
               assoc key cols = Some (parseJSON JSON_parse (cell row colIndex))).
    { intros key colIndex Hk Hj. unfold cols.
      rewrite (stored_columns_field entityType config i row (trim t) key colIndex Hd Hk).
      - rewrite Hj. reflexivity.
      - intros ->. discriminate Hj. }
    split.
    + cbn [own_get]. rewrite !assoc_set_field. cbn.
      rewrite (Hcol "obligations" 4%nat Hobl eq_refl). reflexivity.
    + intros key colIndex Hk Hj. cbn [own_get]. rewrite !assoc_set_field.
      destruct ("hasAIProducts" =? key)%string eqn:E1;
        [apply String.eqb_eq in E1; subst key; discriminate Hj|].
      destruct ("tier" =? key)%string eqn:E2;
        [apply String.eqb_eq in E2; subst key; discriminate Hj|].
      destruct ("totalObligations" =? key)%string eqn:E3;
        [apply String.eqb_eq in E3; subst key; discriminate Hj|].
      rewrite (Hcol key colIndex (Hincl _ Hk) Hj). reflexivity.
Qed.

End Rows.

(** ** Parsing a cell *)

Lemma getNestedValue_null (path : option string) : getNestedValue VNull path = Ok VUndef.
Proof. unfold getNestedValue. cbn [truthy negb]. rewrite orb_true_r. reflexivity. Qed.

Lemma extraction_of_null (schemaKey : string) :
  getPrimaryValue VNull schemaKey = Ok VUndef
  /\ getFiscalYearData VNull schemaKey = Ok VUndef
  /\ getCategories VNull schemaKey = Ok (VArr []).
Proof.
  unfold getPrimaryValue, getFiscalYearData, getCategories.
  destruct (assoc schemaKey COLUMN_SCHEMAS) as [s|]; [|repeat split].
  rewrite !getNestedValue_null. cbn [bind truthy negb].
  destruct (present (primaryValuePath s)), (present (timeSeriesPath s)),
    (present (categoriesPath s)); repeat split.
Qed.

(** [extractNormalizedData] also reads the metadata fields of its argument:
    for a registered schema it throws on null, where the three extractors
    above return nothing. *)
Lemma extractNormalizedData_null (schemaKey : string) (s : schema) :
  assoc schemaKey COLUMN_SCHEMAS = Some s ->
  extractNormalizedData VNull schemaKey = Throw TypeError.
Proof.
  intros Hs. unfold extractNormalizedData. rewrite Hs.
  destruct (extraction_of_null schemaKey) as (-> & -> & ->). reflexivity.
Qed.

Example extractNormalizedData_totals :
  extractNormalizedData
    (VObj [ ("total_obligated", VNum 1000);
            ("fiscal_year_obligations", VObj [("2022", VNum 400); ("2023", VNum 600)]) ])
    "obligations"
  = Ok (VObj
          [ ("schema",
             VObj [ ("column", VStr "D"); ("columnIndex", VNum 3);
                    ("headerName", VStr "Obligations");
                    ("structurePattern", VStr "PATTERN_A_SIMPLE_TOTALS");
                    ("dataSource", VStr "FAS") ]);
            ("primaryValue", VNum 1000);
            ("fiscalYears", VObj [("2022", VNum 400); ("2023", VNum 600)]);
            ("categories", VArr []);
            ("metadata",
             VObj [("processedDate", VUndef); ("sourceFile", VUndef)]) ]).
Proof. vm_compute. reflexivity. Qed.

Example load_row_malformed_cell :
  exists entity,
    load_row (decode_table []) "agency" agency_mapping 1
      [VStr "A-1"; VStr "Acme"; VStr ""; VStr "{not json"] = Ok (Some entity)
    /\ own_get entity "name" = VStr "Acme"
    /\ own_get entity "obligations" = VNull
    /\ own_get entity "totalObligations" = VNum 0.
Proof. eexists. split; [vm_compute; reflexivity | vm_compute; repeat split]. Qed.

(** ** Total obligations *)




(** ** The cache *)

Section Cache.

Variable JSON_parse : string -> decoded.
Variable spreadsheet : source.

(** Loading a sheet leaves the cache alone; the list it returns is a new
    array. *)
Lemma loadEntitySheet_frame (entityType : string) (m m' : manager)
  (r : outcome entity_list) :
  loadEntitySheet JSON_parse spreadsheet entityType m = (r, m') ->
  cache m' = cache m
  /\ (forall l, r = Ok l ->
        address l = next_address m /\ next_address m' = S (next_address m)).
Proof.
  unfold loadEntitySheet.
  destruct (assoc entityType columnMappings) as [config|].
  - unfold bindM, call_service, new_array, lift, ret, throw. cbn.
    destruct (sheet spreadsheet (sheetName config)) as [| |rows]; cbn.
    + intros H; injection H as <- <-. split; [reflexivity|].
      intros l Hl; injection Hl as <-. split; reflexivity.
    + intros H; injection H as <- <-. split; [reflexivity|].
      intros l Hl; discriminate Hl.
    + destruct (load_rows JSON_parse entityType config 1 (tl rows) []) as [loaded|e];
        cbn; intros H; injection H as <- <-; (split; [reflexivity|]);
        intros l Hl; [injection Hl as <-; split; reflexivity | discriminate Hl].
  - unfold throw. intros H; injection H as <- <-. split; [reflexivity|].
    intros l Hl; discriminate Hl.
Qed.

End Cache.

(** C3 as stated fails: the OEM sheet cannot be read, and the cache comes
    out of the attempt with a new agency list beside the old OEM and vendor
    lists and the old timestamp. *)
Lemma loadAllData_leaves_partial_cache :
  exists m' fresh,
    loadAllData (decode_table []) oem_unreadable 5000 5001 true loaded_manager =
    (Throw ServiceError, m')
    /\ agencies (cache m') = Some fresh
    /\ address fresh = 3%nat
    /\ own_get (nth 0 (items fresh) VUndef) "name" = VStr "Acme"
    /\ agencies (cache m') <> agencies (cache loaded_manager)
    /\ oems (cache m') = oems (cache loaded_manager)
    /\ vendors (cache m') = vendors (cache loaded_manager)
    /\ lastUpdated (cache m') = Some 1000.
Proof.
  eexists. eexists. split; [vm_compute; reflexivity|].
  vm_compute. repeat split. discriminate.
Qed.

(** When the cache is stale. *)
Lemma needsRefresh_stale (now : Z) (c : cache_t) :
  lastUpdated c <> Some 0 ->
  (needsRefresh now c = true <->
   lastUpdated c = None
   \/ agencies c = None \/ oems c = None \/ vendors c = None
   \/ exists t, lastUpdated c = Some t /\ now - t > TTL).
Proof.
  intros Hnz. unfold needsRefresh.
  destruct (lastUpdated c) as [t|]; [|split; [left; reflexivity | reflexivity]].
  destruct (t =? 0) eqn:Et; [apply Z.eqb_eq in Et; subst t; contradiction|].
  destruct (agencies c), (oems c), (vendors c);
    try (split; [intros _; tauto | reflexivity]).
  rewrite Z.gtb_gt. split.
  - intros H. do 4 right. exists t. split; [reflexivity | exact H].
  - intros [H|[H|[H|[H|(t' & Ht & H)]]]]; try discriminate H.
    injection Ht as <-. exact H.
Qed.

(** C9, as the code has it.  The cache is stale exactly when the timestamp
    is unset, a list is missing, or its age exceeds the TTL of two minutes.
    While it is not stale, [getEntities] without forced refresh leaves the
    manager as it is and makes no call to the spreadsheet; for the types
    agency, oem and vendor it returns the cached list itself, and for any
    other type, or none, a new array holding the entities of the three
    lists. *)
Theorem getEntities_cached (JSON_parse : string -> decoded) (spreadsheet : source) :
  TTL = 120000
  /\ (forall now c,
        lastUpdated c <> Some 0 ->
        (needsRefresh now c = true <->
         lastUpdated c = None
         \/ agencies c = None \/ oems c = None \/ vendors c = None
         \/ exists t, lastUpdated c = Some t /\ now - t > TTL))
  /\ (forall now later m a o v t entityType,
        agencies (cache m) = Some a ->
        oems (cache m) = Some o ->
        vendors (cache m) = Some v ->
        lastUpdated (cache m) = Some t ->
        t <> 0 ->
        now - t <= TTL ->
        loadAllData JSON_parse spreadsheet now later false m = (Ok (cache m), m)
        /\ (lowered entityType = Ok (Some "agency") ->
            getEntities JSON_parse spreadsheet now later entityType false m
            = (Ok (Some a), m))
        /\ (lowered entityType = Ok (Some "oem") ->
            getEntities JSON_parse spreadsheet now later entityType false m
            = (Ok (Some o), m))
        /\ (lowered entityType = Ok (Some "vendor") ->
            getEntities JSON_parse spreadsheet now later entityType false m
            = (Ok (Some v), m))
        /\ (forall k,
              lowered entityType = Ok k ->
              k <> Some "agency" -> k <> Some "oem" -> k <> Some "vendor" ->
              getEntities JSON_parse spreadsheet now later entityType false m
              = (Ok (Some (mkList (next_address m) (items a ++ items o ++ items v))),
                 mkManager (cache m) (S (next_address m)) (io_log m)))).
Proof.
  split; [reflexivity|]. split; [apply needsRefresh_stale|].
  intros now later m a o v t entityType Ha Ho Hv Ht Hnz Hage.
  assert (Hfresh : needsRefresh now (cache m) = false).
  { unfold needsRefresh. rewrite Ht, Ha, Ho, Hv.
    destruct (t =? 0) eqn:Et; [apply Z.eqb_eq in Et; contradiction|].
    rewrite Z.gtb_ltb. apply Z.ltb_ge. lia. }
  assert (Hload : loadAllData JSON_parse spreadsheet now later false m
                  = (Ok (cache m), m)).
  { unfold loadAllData, bindM, read_cache. rewrite Hfresh. reflexivity. }
  split; [exact Hload|].
  unfold getEntities, bindM. rewrite Hload. unfold lift.
  split; [|split; [|split]].
  - intros ->. unfold ret. rewrite Ha. reflexivity.
  - intros ->. unfold ret. rewrite Ho. reflexivity.
  - intros ->. unfold ret. rewrite Hv. reflexivity.
  - intros k -> Hk1 Hk2 Hk3.
    assert (Hall : forall m0,
              spread3 (agencies (cache m)) (oems (cache m)) (vendors (cache m)) m0
              = (Ok (mkList (next_address m0) (items a ++ items o ++ items v)),
                 mkManager (cache m0) (S (next_address m0)) (io_log m0))).
    { intros m0. rewrite Ha, Ho, Hv. reflexivity. }
    destruct k as [s|]; [|unfold bindM; rewrite Hall; reflexivity].
    assert (Hne : forall s', Some s <> Some s' -> (s =? s')%string = false).
    { intros s' H. apply String.eqb_neq. intros ->. apply H. reflexivity. }
    rewrite (Hne _ Hk1), (Hne _ Hk2), (Hne _ Hk3).
    unfold bindM. rewrite Hall. reflexivity.
Qed.

Lemma getEntities_cached_witness :
  getEntities (decode_table []) oem_unreadable 2000 2001 (VStr "Agency") false
    loaded_manager
  = (Ok (agencies (cache loaded_manager)), loaded_manager)
  /\ (needsRefresh 2000 (cache loaded_manager) = true <->
      lastUpdated (cache loaded_manager) = None
      \/ agencies (cache loaded_manager) = None
      \/ oems (cache loaded_manager) = None
      \/ vendors (cache loaded_manager) = None
      \/ exists t, lastUpdated (cache loaded_manager) = Some t /\ 2000 - t > TTL).
Proof.
  pose proof (getEntities_cached (decode_table []) oem_unreadable) as (_ & Hstale & Hhit).
  split.
  - refine (proj1 (proj2 (Hhit 2000 2001 loaded_manager _ _ _ 1000 (VStr "Agency")
                            eq_refl eq_refl eq_refl eq_refl _ _)) eq_refl).
    + discriminate.
    + vm_compute. discriminate.
  - apply Hstale. discriminate.
Defined.

(** C9 as stated fails: within the TTL, a call that names no type returns
    an array that is none of the cached ones, and the next such call
    returns yet another. *)
Lemma getEntities_all_is_new_array :
  exists l1 m1 l2 m2,
    needsRefresh 2000 (cache loaded_manager) = false
    /\ getEntities (decode_table []) oem_unreadable 2000 2001 VUndef false
         loaded_manager = (Ok (Some l1), m1)
    /\ getEntities (decode_table []) oem_unreadable 2002 2003 VUndef false m1
       = (Ok (Some l2), m2)
    /\ address l1 = 3%nat
    /\ address l2 = 4%nat
    /\ Some l1 <> agencies (cache loaded_manager)
    /\ Some l1 <> oems (cache loaded_manager)
    /\ Some l1 <> vendors (cache loaded_manager)
    /\ cache m2 = cache loaded_manager
    /\ io_log m2 = [].
Proof.
  do 4 eexists. split; [reflexivity|].
  split; [vm_compute; reflexivity|]. split; [vm_compute; reflexivity|].
  vm_compute. repeat split; discriminate.
Qed.

(** The first call on an empty cache loads the three sheets and stamps the
    cache. *)
Example loadAllData_from_empty :
  let spreadsheet :=
    mkSource true (fun _ => Rows [ [VStr "Code"; VStr "Name"]; [VStr "X-1"; VStr " Acme "] ]) in
  exists c m',
    loadAllData (decode_table []) spreadsheet 5000 5001 false
      (mkManager empty_cache 0 []) = (Ok c, m')
    /\ cache m' = c
    /\ option_map address (agencies c) = Some 0%nat
    /\ option_map address (oems c) = Some 1%nat
    /\ option_map address (vendors c) = Some 2%nat
    /\ lastUpdated c = Some 5001
    /\ isLoading c = false
    /\ io_log m' = [ OpenById;
                     GetSheetByName "Agency"; GetValues "Agency";
                     GetSheetByName "OEM"; GetValues "OEM";
                     GetSheetByName "Vendor"; GetValues "Vendor" ].
Proof.
  intros spreadsheet. do 2 eexists. split; [vm_compute; reflexivity|].
  vm_compute. repeat split.
Qed.

(* ================================================================= *)
(** * Further properties *)

(** ** The column index map and the registry *)

Lemma same_key_spec (o : option string) (k : string) :
  same_key o k = true -> o = Some k.
Proof.
  destruct o as [k'|]; simpl; [|discriminate].
  intros H. apply String.eqb_eq in H. subst k'. reflexivity.
Qed.

(** Each schema is found in the map under its letter and under its index. *)
Lemma registry_indexed :
  forallb (fun e : string * schema =>
             same_key (assoc (column (snd e)) COLUMN_INDEX_MAP) (fst e)
             && same_key (assoc (dec_nat (columnIndex (snd e))) COLUMN_INDEX_MAP) (fst e)
             && negb (fst e =? "")%string)%bool
    COLUMN_SCHEMAS = true.
Proof. vm_compute. reflexivity. Qed.

Lemma assoc_In {A : Type} (k : string) (fs : list (string * A)) (v : A) :
  assoc k fs = Some v -> In (k, v) fs.
Proof.
  induction fs as [|[k0 v0] fs IH]; simpl; [discriminate|].
  destruct (k0 =? k)%string eqn:E.
  - intros H; injection H as <-. apply String.eqb_eq in E. subst k0. left; reflexivity.
  - intros H. right. apply IH, H.
Qed.

(** The primary value by column letter and by column index is the primary
    value by schema key; a reference the map does not hold gives
    undefined. *)
Theorem getPrimaryValueByColumn_agrees (jsonData : value) (schemaKey : string)
  (s : schema) :
  assoc schemaKey COLUMN_SCHEMAS = Some s ->
  getPrimaryValueByColumn jsonData (VStr (column s)) = getPrimaryValue jsonData schemaKey
  /\ getPrimaryValueByColumn jsonData (VNum (Z.of_nat (columnIndex s)))
     = getPrimaryValue jsonData schemaKey
  /\ (forall columnRef,
        assoc (to_str columnRef) COLUMN_INDEX_MAP = None ->
        getPrimaryValueByColumn jsonData columnRef = Ok VUndef).
Proof.
  intros Hs.
  pose proof (proj1 (forallb_forall _ _) registry_indexed _ (assoc_In _ _ _ Hs)) as H.
  cbn [fst snd] in H. apply andb_true_iff in H. destruct H as [H Hne].
  apply andb_true_iff in H. destruct H as [Hletter Hindex].
  apply same_key_spec in Hletter, Hindex. apply negb_true_iff in Hne.
  unfold getPrimaryValueByColumn. cbn [to_str]. fold (dec_nat (columnIndex s)).
  rewrite Hletter, Hindex, Hne. repeat split.
  intros columnRef ->. reflexivity.
Qed.

Lemma getPrimaryValueByColumn_agrees_witness :
  let json := VObj [("summary", VObj [("total_all_obligations", VNum 300)])] in
  getPrimaryValueByColumn json (VStr "E") = getPrimaryValue json "smallBusiness"
  /\ getPrimaryValueByColumn json (VNum 4) = getPrimaryValue json "smallBusiness"
  /\ getPrimaryValueByColumn json (VStr "ZZ") = Ok VUndef.
Proof.
  intros json.
  destruct (getPrimaryValueByColumn_agrees json "smallBusiness" _ eq_refl)
    as (Hletter & Hindex & Hnone).
  split; [exact Hletter|]. split; [exact Hindex|]. apply Hnone. reflexivity.
Defined.

(** ** The schema detector *)

Lemma both_truthy_value (jsonData : value) (a b : string) :
  truthy jsonData = true ->
  both_truthy jsonData a b
  = Ok (truthy (own_get jsonData a) && truthy (own_get jsonData b))%bool.
Proof.
  intros Ht. unfold both_truthy. rewrite !(get_truthy _ _ Ht). cbn [bind].
  destruct (truthy (own_get jsonData a)); reflexivity.
Qed.

Lemma field_truthy_value (jsonData : value) (a : string) :
  truthy jsonData = true ->
  field_truthy jsonData a = Ok (truthy (own_get jsonData a)).
Proof. intros Ht. unfold field_truthy. rewrite (get_truthy _ _ Ht). reflexivity. Qed.

(** On an object, the detector answers the key of the first check that
    holds, and null when none does. *)
Lemma detectSchema_first_match (jsonData : value) :
  truthy jsonData = true ->
  typeof jsonData = "object" ->
  detectSchema jsonData = Ok (first_match (fingerprints jsonData)).
Proof.
  intros Ht Hty. unfold detectSchema. rewrite Ht, Hty, String.eqb_refl.
  cbn [negb orb].
  rewrite !(both_truthy_value _ _ _ Ht), !(field_truthy_value _ _ Ht).
  rewrite !(get_truthy _ _ Ht). unfold fingerprints. cbv beta zeta.
  repeat (cbn [bind first_match andb];
          match goal with
          | |- (if (?a && _)%bool then _ else _) = _ => destruct a
          | |- (if ?c then _ else _) = _ => destruct c
          | |- bind (if ?c then _ else _) _ = _ => destruct c
          | |- _ => reflexivity
          end).
Qed.

Lemma first_match_In (rules : list (bool * string)) (k : string) :
  first_match rules = VStr k -> In (true, k) rules.
Proof.
  induction rules as [|[b k0] rules IH]; simpl; [discriminate|].
  destruct b.
  - intros H; injection H as <-. left; reflexivity.
  - intros H. right. apply IH, H.
Qed.

Lemma first_match_null (rules : list (bool * string)) :
  first_match rules = VNull -> forall b k, In (b, k) rules -> b = false.
Proof.
  induction rules as [|[b0 k0] rules IH]; simpl; intros H b k Hin; [contradiction|].
  destruct b0; [discriminate H|].
  destruct Hin as [Hin|Hin]; [injection Hin as <- _; reflexivity|].
  eapply IH; eassumption.
Qed.

(** A path of one step resolves to the field of that name. *)
Lemma resolved_one (jsonData : value) (p : string) :
  truthy jsonData = true ->
  split "." p = [p] ->
  p <> "" ->
  resolved jsonData (Some p) = own_get jsonData p.
Proof.
  intros Ht Hsplit Hp. unfold resolved, getNestedValue.
  rewrite (present_some _ Hp), Ht. cbn [negb orb field_name]. rewrite Hsplit.
  rewrite forEach_cons, nested_step_value. cbn [bind forEach].
  unfold lacks. rewrite Ht. cbn [negb orb].
  destruct (own_get jsonData p); reflexivity.
Qed.

(** [detectSchema] never raises and answers null for whatever is not an
    object.  A key it answers is a registered one; unless it is one of the
    two AI keys, the categories container of its schema is there in the
    value, and for [bicReseller] it is an array.  And an object is left
    undetected only when none of the fields the detector looks for is
    truthy in it. *)
Theorem detectSchema_sound (jsonData : value) :
  (exists r, detectSchema jsonData = Ok r)
  /\ (truthy jsonData = false \/ typeof jsonData <> "object" ->
      detectSchema jsonData = Ok VNull)
  /\ (forall k,
        detectSchema jsonData = Ok (VStr k) ->
        exists s,
          assoc k COLUMN_SCHEMAS = Some s
          /\ (present (categoriesPath s) = true ->
              k <> "aiProduct" -> k <> "aiCategory" ->
              truthy (resolved jsonData (categoriesPath s)) = true)
          /\ (k = "bicReseller" ->
              isArray (resolved jsonData (categoriesPath s)) = true))
  /\ (truthy jsonData = true ->
      typeof jsonData = "object" ->
      detectSchema jsonData = Ok VNull ->
      forall field,
        In field [ "business_size_summaries"; "tier_summaries"; "sum_type_summaries";
                   "top_contract_summaries"; "top_10_department_summaries";
                   "discount_categories"; "top_10_reference_piids"; "top_10_piids";
                   "expiring_by_quarter"; "discount_contracts_expiring_by_quarter";
                   "ai_product_status"; "ai_category_status"; "top_25_products";
                   "top_15_reseller_summaries"; "top_15_manufacturers";
                   "top_10_oem_summaries"; "top_10_agency_summaries" ] ->
        truthy (own_get jsonData field) = false).
Proof.
  assert (Hguard : truthy jsonData = false \/ typeof jsonData <> "object" ->
                   detectSchema jsonData = Ok VNull).
  { intros H. unfold detectSchema.
    destruct (truthy jsonData); cbn [negb orb]; [|reflexivity].
    destruct H as [H|H]; [discriminate H|].
    destruct (typeof jsonData =? "object")%string eqn:E; [|reflexivity].
    apply String.eqb_eq in E. contradiction. }
  assert (Hcases : (truthy jsonData = true /\ typeof jsonData = "object")
                   \/ (truthy jsonData = false \/ typeof jsonData <> "object")).
  { destruct (truthy jsonData); [|right; left; reflexivity].
    destruct (string_dec (typeof jsonData) "object") as [E|E].
    - left. split; [reflexivity | exact E].
    - right; right; exact E. }
  split; [|split; [exact Hguard|split]].
  - destruct Hcases as [[Ht Hty]|H].
    + rewrite (detectSchema_first_match _ Ht Hty). eexists; reflexivity.
    + rewrite (Hguard H). eexists; reflexivity.
  - intros k Hk. destruct Hcases as [[Ht Hty]|H];
      [|rewrite (Hguard H) in Hk; discriminate Hk].
    rewrite (detectSchema_first_match _ Ht Hty) in Hk.
    assert (Hin : In (true, k) (fingerprints jsonData))
      by (apply first_match_In; congruence).
    unfold fingerprints in Hin. cbv beta zeta in Hin. cbn [In] in Hin.
    repeat (destruct Hin as [Hin|Hin];
            [injection Hin as Hc <-;
             eexists; split; [vm_compute; reflexivity|];
             cbn [categoriesPath present field_name];
             split;
             [ intros Hp Hn1 Hn2;
               try discriminate Hp;
               try (contradiction Hn1; reflexivity);
               try (contradiction Hn2; reflexivity);
               try (apply andb_true_iff in Hc; destruct Hc as [Hc _]);
               rewrite resolved_one by (assumption || reflexivity || discriminate);
               exact Hc
             | intros Hname; try discriminate Hname;
               apply andb_true_iff in Hc; destruct Hc as [_ Hc];
               rewrite resolved_one by (assumption || reflexivity || discriminate);
               exact Hc ]
            |]).
    contradiction.
  - intros Ht Hty Hnull field Hin.
    rewrite (detectSchema_first_match _ Ht Hty) in Hnull.
    assert (Hall : forall b k, In (b, k) (fingerprints jsonData) -> b = false)
      by (apply first_match_null; congruence).
    unfold fingerprints in Hall. cbv beta zeta in Hall. cbn [In] in Hin.
    repeat (destruct Hin as [<-|Hin];
            [eapply (Hall _ _); cbn [In];
             repeat first [left; reflexivity | right]|]).
    contradiction.
Qed.

Lemma detectSchema_sound_witness :
  detectSchema (VStr "text") = Ok VNull
  /\ exists s,
       assoc "sumTier" COLUMN_SCHEMAS = Some s
       /\ truthy (resolved tier_summaries_example (categoriesPath s)) = true.
Proof.
  destruct (detectSchema_sound (VStr "text")) as (_ & Hnull & _).
  destruct (detectSchema_sound tier_summaries_example) as (_ & _ & Hkey & _).
  split; [apply Hnull; right; discriminate|].
  destruct (Hkey "sumTier") as (s & Hs & Hcat & _); [vm_compute; reflexivity|].
  exists s. split; [exact Hs|].
  vm_compute in Hs. injection Hs as <-.
  apply Hcat; [reflexivity | discriminate | discriminate].
Defined.

(** ** Looking a category up by its name *)

Lemma is_category_name (c : value) :
  is_category c = true -> get c "name" = Ok (own_get c "name").
Proof. destruct c; simpl; intros H; try discriminate H; reflexivity. Qed.

Lemma named_value (categoryName : string) (c : value) :
  is_category c = true ->
  named categoryName c
  = Ok (match own_get c "name" with
        | VStr s => (s =? categoryName)%string
        | _ => false
        end).
Proof. intros H. unfold named. rewrite (is_category_name _ H). reflexivity. Qed.

Lemma find_first_named (categoryName : string) (cats : list value) :
  forallb is_category cats = true ->
  exists r,
    find_first (named categoryName) cats = Ok r
    /\ ((r = VUndef /\ forall c, In c cats -> own_get c "name" <> VStr categoryName)
        \/ (exists before later,
              cats = (before ++ r :: later)%list
              /\ own_get r "name" = VStr categoryName
              /\ forall c, In c before -> own_get c "name" <> VStr categoryName)).
Proof.
  induction cats as [|c cats IH]; intros Hall.
  - exists VUndef. split; [reflexivity|]. left. split; [reflexivity|]. intros c [].
  - simpl in Hall. apply andb_true_iff in Hall. destruct Hall as [Hc Hall].
    cbn [find_first]. rewrite (named_value _ _ Hc). cbn [bind].
    destruct (IH Hall) as (r & Hr & Hcases).
    assert (Hskip : own_get c "name" <> VStr categoryName ->
                    exists r0,
                      find_first (named categoryName) cats = Ok r0
                      /\ ((r0 = VUndef
                           /\ forall c0, In c0 (c :: cats) ->
                                         own_get c0 "name" <> VStr categoryName)
                          \/ (exists before later,
                                (c :: cats) = (before ++ r0 :: later)%list
                                /\ own_get r0 "name" = VStr categoryName
                                /\ forall c0, In c0 before ->
                                              own_get c0 "name" <> VStr categoryName))).
    { intros Hne. exists r. split; [exact Hr|].
      destruct Hcases as [[-> Hnone]|(before & later & -> & Hname & Hbefore)].
      - left. split; [reflexivity|]. intros c0 [<-|Hin]; [exact Hne | apply Hnone, Hin].
      - right. exists (c :: before), later. split; [reflexivity|]. split; [exact Hname|].
        intros c0 [<-|Hin]; [exact Hne | apply Hbefore, Hin]. }
    destruct (own_get c "name") as [| | | | |s| |] eqn:En;
      try (apply Hskip; discriminate).
    destruct (s =? categoryName)%string eqn:E.
    + apply String.eqb_eq in E. subst s. exists c. split; [reflexivity|].
      right. exists [], cats. split; [reflexivity|]. split; [exact En|]. intros c0 [].
    + apply Hskip. intros H. injection H as ->. rewrite String.eqb_refl in E.
      discriminate E.
Qed.

(** [getCategoryByName] raises what [getCategories] raises and nothing
    else.  Over the list [getCategories] returns it answers the first
    category of that name, and undefined exactly when the list has none. *)
Theorem getCategoryByName_first (jsonData : value) (schemaKey categoryName : string) :
  (forall e, getCategories jsonData schemaKey = Throw e ->
             getCategoryByName jsonData schemaKey categoryName = Throw e)
  /\ (forall listed, getCategories jsonData schemaKey = Ok listed ->
        exists cats r,
          listed = VArr cats
          /\ getCategoryByName jsonData schemaKey categoryName = Ok r
          /\ ((r = VUndef
               /\ forall c, In c cats -> own_get c "name" <> VStr categoryName)
              \/ (exists before later,
                    cats = (before ++ r :: later)%list
                    /\ is_category r = true
                    /\ own_get r "name" = VStr categoryName
                    /\ forall c, In c before -> own_get c "name" <> VStr categoryName))).
Proof.
  split.
  - intros e He. unfold getCategoryByName. rewrite He. reflexivity.
  - intros listed Hl. destruct (getCategories_shape _ _ _ Hl) as (cats & -> & Hall).
    destruct (find_first_named categoryName cats Hall) as (r & Hr & Hcases).
    exists cats, r. split; [reflexivity|].
    split; [unfold getCategoryByName; rewrite Hl; exact Hr|].
    destruct Hcases as [Hnone|(before & later & Hcats & Hname & Hbefore)];
      [left; exact Hnone|].
    right. exists before, later. split; [exact Hcats|]. split; [|split; assumption].
    apply (proj1 (forallb_forall _ _) Hall). rewrite Hcats. apply in_elt.
Qed.

Lemma getCategoryByName_first_witness :
  exists cats r,
    getCategories tier_summaries_example "sumTier" = Ok (VArr cats)
    /\ getCategoryByName tier_summaries_example "sumTier" "B" = Ok r
    /\ own_get r "value" = VNum 100.
Proof.
  assert (Hl : exists cats, getCategories tier_summaries_example "sumTier" = Ok (VArr cats))
    by (eexists; vm_compute; reflexivity).
  destruct Hl as (cats0 & Hl).
  destruct (getCategoryByName_first tier_summaries_example "sumTier" "B") as (_ & Hfound).
  destruct (Hfound _ Hl) as (cats & r & Hcats & Hr & _).
  exists cats, r. rewrite Hl. split; [f_equal; exact Hcats|].
  split; [exact Hr|].
  assert (Hrun : getCategoryByName tier_summaries_example "sumTier" "B"
                 = Ok (map_category
                         ("B", VObj [("total", VNum 100);
                                     ("fiscal_years", VObj [("2024", VNum 100)])])))
    by (vm_compute; reflexivity).
  rewrite Hrun in Hr. injection Hr as <-. reflexivity.
Defined.

Lemma find_first_map_category (categoryName : string) (es : list (string * value)) :
  find_first (named categoryName) (map map_category es)
  = Ok (match assoc categoryName es with
        | Some data => map_category (categoryName, data)
        | None => VUndef
        end).
Proof.
  induction es as [|[k data] es IH]; [reflexivity|].
  cbn [map find_first]. rewrite named_value by reflexivity.
  cbn [map_category category own_get assoc String.eqb Ascii.eqb Bool.eqb of_option bind].
  destruct (k =? categoryName)%string eqn:E.
  - apply String.eqb_eq in E. subst k. reflexivity.
  - exact IH.
Qed.

(** Under a schema that declares an object map, when no entry of the
    container is null or undefined, looking a category up by name is
    looking the container up by key: the answer is the category made of
    the entry of that key, and undefined when the container has no such
    key. *)
Theorem getCategoryByName_by_key (jsonData : value) (schemaKey categoryName : string)
  (s : schema) :
  assoc schemaKey COLUMN_SCHEMAS = Some s ->
  present (categoriesPath s) = true ->
  categoryValueType s <> Some array ->
  let categories := resolved jsonData (categoriesPath s) in
  truthy categories = true ->
  all_defined (values categories) = true ->
  getCategoryByName jsonData schemaKey categoryName
  = Ok (match assoc categoryName (entries categories) with
        | Some data => map_category (categoryName, data)
        | None => VUndef
        end).
Proof.
  intros Hs Hp Hkind categories Ht Hall. unfold getCategoryByName.
  rewrite (getCategories_object_map _ _ _ Hs Hp Hkind Ht Hall). cbn [bind].
  apply find_first_map_category.
Qed.

Lemma getCategoryByName_by_key_witness :
  getCategoryByName oem_summaries_example "fasOem" "CISCO"
  = Ok (category (VStr "CISCO") (VNum 70) (VStr "70%") (VObj []))
  /\ getCategoryByName oem_summaries_example "fasOem" "IBM" = Ok VUndef.
Proof.
  split.
  - rewrite (getCategoryByName_by_key oem_summaries_example "fasOem" "CISCO" _ eq_refl);
      [reflexivity | reflexivity | discriminate | reflexivity | reflexivity].
  - rewrite (getCategoryByName_by_key oem_summaries_example "fasOem" "IBM" _ eq_refl);
      [reflexivity | reflexivity | discriminate | reflexivity | reflexivity].
Defined.

(** ** The value of one fiscal year *)

Lemma split_acc_app (sep : ascii) (a b piece : string) :
  split_acc sep (a ++ String sep b) piece
  = (split_acc sep a piece ++ split_acc sep b EmptyString)%list.
Proof.
  revert piece. induction a as [|c a IH]; intros piece; cbn [String.append split_acc].
  - rewrite Ascii.eqb_refl. reflexivity.
  - destruct (Ascii.eqb c sep); [cbn [app]; f_equal; apply IH | apply IH].
Qed.

Lemma append_not_empty (a b : string) : a <> "" -> (a ++ b)%string <> "".
Proof. destruct a; [intros H; contradiction H; reflexivity | discriminate]. Qed.

(** Under a schema that has a time series, the value of a year is what the
    path resolver finds at the path of the series extended by the year
    (a year that holds no dot, so that it is one step of a path); no
    input makes the lookup raise. *)
Theorem getValueForYear_path (jsonData : value) (schemaKey year series : string)
  (s : schema) :
  assoc schemaKey COLUMN_SCHEMAS = Some s ->
  timeSeriesPath s = Some series ->
  series <> "" ->
  split "." year = [year] ->
  getValueForYear jsonData schemaKey year
  = getNestedValue jsonData (Some (series ++ "." ++ year))
  /\ exists v, getValueForYear jsonData schemaKey year = Ok v.
Proof.
  intros Hs Hseries Hne Hyear.
  assert (Heq : getValueForYear jsonData schemaKey year
                = getNestedValue jsonData (Some (series ++ "." ++ year))).
  { unfold getValueForYear, getFiscalYearData. rewrite Hs, Hseries.
    rewrite (present_some _ Hne). unfold getNestedValue.
    rewrite (present_some _ Hne), (present_some _ (append_not_empty _ ("." ++ year) Hne)).
    cbn [negb orb field_name].
    destruct (truthy jsonData); cbn [negb]; [|reflexivity].
    unfold split. change ("." ++ year)%string with (String "." year).
    rewrite split_acc_app. fold (split "." series). fold (split "." year).
    rewrite Hyear, forEach_app.
    destruct (nested_steps_total (split "." series) jsonData) as (v & ->).
    cbn [bind]. rewrite forEach_cons, nested_step_value. cbn [bind forEach].
    unfold lacks. destruct (truthy v) eqn:Hv; cbn [negb orb]; [|reflexivity].
    rewrite (get_truthy _ _ Hv).
    destruct (own_get v year); reflexivity. }
  split; [exact Heq|]. rewrite Heq. apply getNestedValue_total.
Qed.

Lemma getValueForYear_path_witness :
  let json := VObj [("fiscal_year_obligations",
                     VObj [("2023", VNum 40); ("2024", VNum 60)])] in
  getValueForYear json "obligations" "2024" = Ok (VNum 60).
Proof.
  intros json.
  destruct (getValueForYear_path json "obligations" "2024" "fiscal_year_obligations" _
              eq_refl eq_refl) as (Hpath & _);
    [discriminate | reflexivity |].
  rewrite Hpath. vm_compute. reflexivity.
Defined.

(** ** The report of the validator *)

Lemma required_fold_errors (jsonData : value) (fields : list string) (r : validation) :
  errors (fold_left (required_step jsonData) fields r)
  = (errors r
     ++ map (fun field => ("Missing required field: " ++ field)%string)
          (filter (fun field => is_undef (resolved jsonData (Some field))) fields))%list.
Proof.
  revert r. induction fields as [|f fields IH]; intros r; cbn [fold_left filter map].
  - rewrite app_nil_r. reflexivity.
  - rewrite IH. unfold required_step.
    destruct (is_undef (resolved jsonData (Some f))); cbn [errors add_error map].
    + rewrite <- app_assoc. reflexivity.
    + reflexivity.
Qed.

Lemma filter_nil_existsb {A : Type} (P : A -> bool) (l : list A) :
  filter P l = [] <-> existsb P l = false.
Proof.
  induction l as [|x l IH]; simpl; [split; reflexivity|].
  destruct (P x); simpl; [split; discriminate | exact IH].
Qed.

Lemma snoc_not_nil {A : Type} (l : list A) (x : A) : (l ++ [x])%list <> [].
Proof. intros H. apply app_eq_nil in H. destruct H as [_ H]. discriminate H. Qed.

Lemma inherited_unregistered (schemaKey : string) :
  inherited schemaKey = true -> assoc schemaKey COLUMN_SCHEMAS = None.
Proof.
  unfold inherited. intros H. apply existsb_exists in H.
  destruct H as (k & Hin & Hk). apply String.eqb_eq in Hk. subst k.
  revert Hin. unfold OBJECT_PROTOTYPE. cbn [In].
  intros H. repeat (destruct H as [<-|H]; [reflexivity|]). contradiction.
Qed.

(** The report for an object under a registered key. *)
Lemma validateJsonStructure_registered (jsonData : value) (schemaKey : string)
  (s : schema) :
  assoc schemaKey COLUMN_SCHEMAS = Some s ->
  exists r,
    validateJsonStructure jsonData schemaKey = Ok r
    /\ (isValid r = true <-> errors r = [])
    /\ (List.length (warnings r) <= 2)%nat
    /\ (truthy jsonData = false \/ typeof jsonData <> "object" ->
        r = mkValidation false ["JSON data is null or not an object"] [])
    /\ (truthy jsonData = true ->
        typeof jsonData = "object" ->
        exists shape,
          errors r = (missing_messages s jsonData ++ shape)%list
          /\ (List.length shape <= 1)%nat
          /\ (shape = [] <->
              (present (categoriesPath s)
               && negb (is_undef (resolved jsonData (categoriesPath s)))
               && container_rejected (categoryValueType s)
                    (resolved jsonData (categoriesPath s)))%bool = false)).
Proof.
  intros Hs. unfold validateJsonStructure. rewrite Hs.
  destruct (negb (truthy jsonData) || negb (typeof jsonData =? "object")%string)%bool
    eqn:Hguard.
  { eexists. split; [reflexivity|]. cbn [isValid errors warnings add_error app].
    split; [split; discriminate|]. split; [simpl; lia|].
    split; [intros _; reflexivity|]. intros Ht Hty.
    rewrite Ht, Hty, String.eqb_refl in Hguard. discriminate Hguard. }
  apply orb_false_iff in Hguard. destruct Hguard as [Ht Hty].
  apply negb_false_iff in Ht, Hty. apply String.eqb_eq in Hty.
  rewrite (forEach_pure _ (required_step jsonData)).
  2:{ intros r f _. rewrite getNestedValue_resolved. reflexivity. }
  cbn [bind].
  destruct (required_fold jsonData (requiredFields s) (mkValidation true [] []))
    as [Hv0 Hw0].
  pose proof (required_fold_errors jsonData (requiredFields s) (mkValidation true [] []))
    as He0.
  set (r0 := fold_left (required_step jsonData) (requiredFields s)
               (mkValidation true [] [])) in *.
  cbn [isValid warnings errors andb app] in Hv0, Hw0, He0.
  fold (missing_messages s jsonData) in He0.
  assert (Hc0 : isValid r0 = true <-> errors r0 = []).
  { rewrite Hv0, He0, negb_true_iff. unfold missing_messages.
    rewrite <- filter_nil_existsb. split; [intros ->; reflexivity|].
    intros H. apply map_eq_nil in H. exact H. }
  rewrite !getNestedValue_resolved.
  set (p := resolved jsonData (primaryValuePath s)).
  set (c := resolved jsonData (categoriesPath s)).
  assert (Hleaf : forall r : validation,
            isValid r = isValid r0 -> errors r = errors r0 ->
            (List.length (warnings r) <= 2)%nat ->
            (present (categoriesPath s) && negb (is_undef c)
             && container_rejected (categoryValueType s) c)%bool = false ->
            exists r', Ok r = Ok r'
              /\ (isValid r' = true <-> errors r' = [])
              /\ (List.length (warnings r') <= 2)%nat
              /\ (truthy jsonData = false \/ typeof jsonData <> "object" ->
                  r' = mkValidation false ["JSON data is null or not an object"] [])
              /\ (truthy jsonData = true -> typeof jsonData = "object" ->
                  exists shape,
                    errors r' = (missing_messages s jsonData ++ shape)%list
                    /\ (List.length shape <= 1)%nat
                    /\ (shape = [] <->
                        (present (categoriesPath s) && negb (is_undef c)
                         && container_rejected (categoryValueType s) c)%bool
                        = false))).
  { intros r Hv He Hw Hrej. exists r. split; [reflexivity|].
    split; [rewrite Hv, He; exact Hc0|]. split; [exact Hw|].
    split; [intros [H|H]; [rewrite Ht in H; discriminate H | contradiction]|].
    intros _ _. exists []. rewrite app_nil_r, He, He0.
    split; [reflexivity|]. split; [simpl; lia|]. split; [intros _; exact Hrej | reflexivity]. }
  assert (Hbad : forall (r : validation) (msg : string),
            errors r = errors r0 ->
            (List.length (warnings r) <= 2)%nat ->
            (present (categoriesPath s) && negb (is_undef c)
             && container_rejected (categoryValueType s) c)%bool = true ->
            exists r', Ok (add_error r msg) = Ok r'
              /\ (isValid r' = true <-> errors r' = [])
              /\ (List.length (warnings r') <= 2)%nat
              /\ (truthy jsonData = false \/ typeof jsonData <> "object" ->
                  r' = mkValidation false ["JSON data is null or not an object"] [])
              /\ (truthy jsonData = true -> typeof jsonData = "object" ->
                  exists shape,
                    errors r' = (missing_messages s jsonData ++ shape)%list
                    /\ (List.length shape <= 1)%nat
                    /\ (shape = [] <->
                        (present (categoriesPath s) && negb (is_undef c)
                         && container_rejected (categoryValueType s) c)%bool
                        = false))).
  { intros r msg He Hw Hrej. eexists. split; [reflexivity|].
    cbn [isValid errors warnings add_error].
    split; [split; [discriminate | intros H; destruct (snoc_not_nil _ _ H)]|].
    split; [exact Hw|].
    split; [intros [H|H]; [rewrite Ht in H; discriminate H | contradiction]|].
    intros _ _. exists [msg]. rewrite He, He0.
    split; [reflexivity|]. split; [simpl; lia|]. rewrite Hrej.
    split; discriminate. }
  assert (Hstep1 : exists r1,
    (if present (primaryValuePath s) then
       primaryValue <- Ok p ;;
       Ok (if is_undef primaryValue then
             add_warning r0 ("Primary value path '"
                             ++ field_name (primaryValuePath s) ++ "' not found")
           else if negb (typeof primaryValue =? "number")%string then
             add_warning r0 ("Primary value is not a number: " ++ typeof primaryValue)
           else r0)
     else Ok r0) = Ok r1
    /\ isValid r1 = isValid r0 /\ errors r1 = errors r0
    /\ (List.length (warnings r1) <= 1)%nat).
  { destruct (present (primaryValuePath s)); cbn [bind];
      [|exists r0; rewrite Hw0; repeat split; simpl; lia].
    destruct (is_undef p);
      [eexists; split; [reflexivity|]; cbn [isValid errors warnings add_warning];
       rewrite Hw0; repeat split; simpl; lia|].
    destruct (negb (typeof p =? "number")%string);
      [eexists; split; [reflexivity|]; cbn [isValid errors warnings add_warning];
       rewrite Hw0; repeat split; simpl; lia|].
    exists r0. rewrite Hw0. repeat split; simpl; lia. }
  destruct Hstep1 as (r1 & -> & Hv1 & He1 & Hw1). cbn [bind].
  destruct (present (categoriesPath s)) eqn:Hcp; cbn [bind andb];
    [|apply Hleaf; [exact Hv1 | exact He1 | lia | reflexivity]].
  destruct (is_undef c) eqn:Hu; cbn [negb andb].
  { apply Hleaf; cbn [isValid errors warnings add_warning];
      [exact Hv1 | exact He1 | rewrite length_app; simpl; lia | reflexivity]. }
  unfold container_rejected in *.
  destruct (categoryValueType s) as [[|]|].
  - destruct (isArray c || negb (typeof c =? "object")%string)%bool eqn:E.
    + apply Hbad; [exact He1 | lia | reflexivity].
    + apply Hleaf; [exact Hv1 | exact He1 | lia | reflexivity].
  - destruct (negb (isArray c)) eqn:E.
    + apply Hbad; [exact He1 | lia | reflexivity].
    + apply Hleaf; [exact Hv1 | exact He1 | lia | reflexivity].
  - apply Hleaf; [exact Hv1 | exact He1 | lia | reflexivity].
Qed.

(** The validator never raises, and its answer is valid exactly when it
    lists no error; it gives at most two warnings.  A value that is not an
    object gives the one error that says so, under a registered key and
    under the name of a member the registry inherits; an object under such
    a name is answered valid, with no error and no warning.  Any other
    unregistered key gives the one error that names it.  For an object
    under a registered key, the errors are the messages of the missing
    required fields in the order of the schema, followed by at most one
    more, which is there exactly when the container is defined and fails
    the test of its declared kind. *)
Theorem validateJsonStructure_report (jsonData : value) (schemaKey : string) :
  exists r,
    validateJsonStructure jsonData schemaKey = Ok r
    /\ (isValid r = true <-> errors r = [])
    /\ (List.length (warnings r) <= 2)%nat
    /\ (assoc schemaKey COLUMN_SCHEMAS = None ->
        inherited schemaKey = false ->
        r = mkValidation false ["Unknown schema key: " ++ schemaKey]%string [])
    /\ (inherited schemaKey = true ->
        truthy jsonData = true ->
        typeof jsonData = "object" ->
        r = mkValidation true [] [])
    /\ (inherited schemaKey = true \/ assoc schemaKey COLUMN_SCHEMAS <> None ->
        truthy jsonData = false \/ typeof jsonData <> "object" ->
        r = mkValidation false ["JSON data is null or not an object"] [])
    /\ (forall s,
          assoc schemaKey COLUMN_SCHEMAS = Some s ->
          truthy jsonData = true ->
          typeof jsonData = "object" ->
          exists shape,
            errors r = (missing_messages s jsonData ++ shape)%list
            /\ (List.length shape <= 1)%nat
            /\ (shape = [] <->
                (present (categoriesPath s)
                 && negb (is_undef (resolved jsonData (categoriesPath s)))
                 && container_rejected (categoryValueType s)
                      (resolved jsonData (categoriesPath s)))%bool = false)).
Proof.
  destruct (assoc schemaKey COLUMN_SCHEMAS) as [s|] eqn:Hs.
  - destruct (validateJsonStructure_registered jsonData schemaKey s Hs)
      as (r & Hrun & Hvalid & Hwarn & Hnot & Hobject).
    assert (Hni : inherited schemaKey = false).
    { destruct (inherited schemaKey) eqn:E; [|reflexivity].
      rewrite (inherited_unregistered _ E) in Hs. discriminate Hs. }
    exists r. split; [exact Hrun|]. split; [exact Hvalid|]. split; [exact Hwarn|].
    split; [intros H; discriminate H|].
    split; [rewrite Hni; intros H; discriminate H|].
    split; [intros _; exact Hnot|].
    intros s0 H. injection H as <-. exact Hobject.
  - unfold validateJsonStructure. rewrite Hs.
    destruct (inherited schemaKey).
    + destruct (negb (truthy jsonData) || negb (typeof jsonData =? "object")%string)%bool
        eqn:Hguard.
      * eexists. split; [reflexivity|]. cbn [isValid errors warnings add_error app].
        split; [split; discriminate|]. split; [simpl; lia|].
        split; [intros _ H; discriminate H|].
        split; [intros _ Ht Hty; rewrite Ht, Hty, String.eqb_refl in Hguard;
                discriminate Hguard|].
        split; [intros _ _; reflexivity | intros s0 H; discriminate H].
      * apply orb_false_iff in Hguard. destruct Hguard as [Ht Hty].
        apply negb_false_iff in Ht, Hty. apply String.eqb_eq in Hty.
        eexists. split; [reflexivity|]. cbn [isValid errors warnings].
        split; [split; reflexivity|]. split; [simpl; lia|].
        split; [intros _ H; discriminate H|].
        split; [intros _ _ _; reflexivity|].
        split; [intros _ [H|H]; [rewrite Ht in H; discriminate H | contradiction]|].
        intros s0 H; discriminate H.
    + eexists. split; [reflexivity|]. cbn [isValid errors warnings add_error app].
      split; [split; discriminate|]. split; [simpl; lia|].
      split; [intros _ _; reflexivity|].
      split; [intros H; discriminate H|].
      split; [intros [H|H]; [discriminate H | contradiction]|].
      intros s0 H; discriminate H.
Qed.

Lemma validateJsonStructure_report_witness :
  validateJsonStructure tier_summaries_example "constructor" = Ok (mkValidation true [] [])
  /\ validateJsonStructure VNull "toString"
     = Ok (mkValidation false ["JSON data is null or not an object"] [])
  /\ validateJsonStructure tier_summaries_example "tiers"
     = Ok (mkValidation false ["Unknown schema key: tiers"] [])
  /\ exists r,
       validateJsonStructure tier_summaries_example "sumTier" = Ok r
       /\ errors r = ["Missing required field: source_file";
                      "Missing required field: processed_date"].
Proof.
  destruct (validateJsonStructure_report tier_summaries_example "constructor")
    as (r1 & Hr1 & _ & _ & _ & Hmember & _).
  destruct (validateJsonStructure_report VNull "toString")
    as (r2 & Hr2 & _ & _ & _ & _ & Hnot & _).
  destruct (validateJsonStructure_report tier_summaries_example "tiers")
    as (r3 & Hr3 & _ & _ & Hunknown & _).
  destruct (validateJsonStructure_report tier_summaries_example "sumTier")
    as (r4 & Hr4 & _ & _ & _ & _ & _ & Hobject).
  rewrite Hr1, Hr2, Hr3, Hr4.
  rewrite (Hmember eq_refl eq_refl eq_refl).
  rewrite (Hnot (or_introl eq_refl) (or_introl eq_refl)).
  rewrite (Hunknown eq_refl eq_refl).
  split; [reflexivity|]. split; [reflexivity|]. split; [reflexivity|].
  exists r4. split; [reflexivity|].
  destruct (Hobject _ eq_refl eq_refl eq_refl) as (shape & Herr & _ & Hshape).
  rewrite Herr, (proj2 Hshape) by (vm_compute; reflexivity).
  vm_compute. reflexivity.
Defined.

(** ** The reports of a row *)

Lemma assoc_forget {A : Type} (k : string) (fs : list (string * A)) :
  assoc k (forget fs) = option_map (fun _ => tt) (assoc k fs).
Proof.
  induction fs as [|[k' v'] fs IH]; [reflexivity|]. simpl.
  destruct (k' =? k)%string; [reflexivity | exact IH].
Qed.

Lemma replace_field_keys {A : Type} (k : string) (v : A) (fs : list (string * A)) :
  map fst (replace_field k v fs) = map fst fs.
Proof.
  induction fs as [|[k' v'] fs IH]; [reflexivity|]. simpl.
  destruct (k' =? k)%string; simpl; [reflexivity | f_equal; exact IH].
Qed.

Lemma insert_index_keys {A : Type} (n : Z) (k : string) (v : A) (fs : list (string * A)) :
  map fst (insert_index n k v fs) = map fst (insert_index n k tt (forget fs)).
Proof.
  induction fs as [|[k' v'] fs IH]; [reflexivity|]. simpl.
  destruct (array_index k') as [m|]; [|simpl; unfold forget; rewrite map_map; reflexivity].
  destruct (m <? n)%Z; simpl; [f_equal; exact IH|].
  unfold forget; rewrite map_map; reflexivity.
Qed.

Lemma set_field_keys {A : Type} (k : string) (v : A) (fs : list (string * A)) :
  map fst (set_field k v fs) = map fst (set_field k tt (forget fs)).
Proof.
  unfold set_field. rewrite assoc_forget.
  destruct (assoc k fs); cbn [option_map].
  - rewrite !replace_field_keys. unfold forget. rewrite map_map. reflexivity.
  - destruct (array_index k) as [n|]; [apply insert_index_keys|].
    unfold forget. rewrite !map_app, map_map. reflexivity.
Qed.

Lemma forget_keys {A : Type} (fs : list (string * A)) (gs : list (string * unit)) :
  map fst fs = map fst gs -> forget fs = gs.
Proof.
  revert gs. induction fs as [|[k v] fs IH]; intros [|[k' []] gs] H; try discriminate H.
  - reflexivity.
  - simpl in H. injection H as -> H. simpl. f_equal. apply IH, H.
Qed.

Section Keys.

Context {A B : Type}.
Variable step : list (string * A) -> string * B -> list (string * A).
Variable f : string * B -> option A.
Variable stored : string * B -> bool.
Hypothesis step_stores : forall acc e, step acc e = store (fst e) (f e) acc.

Lemma fold_store_keys (l : list (string * B)) :
  (forall e, In e l -> is_some (f e) = stored e) ->
  forall acc,
    map fst (fold_left step l acc)
    = map fst (fold_left (fun ks e => if stored e then set_field (fst e) tt ks else ks)
                 l (forget acc)).
Proof.
  induction l as [|e l IH]; intros Hf acc.
  - simpl. unfold forget. rewrite map_map. reflexivity.
  - cbn [fold_left]. rewrite IH by (intros e' He'; apply Hf; right; exact He').
    f_equal. f_equal. rewrite step_stores, <- (Hf e) by (left; reflexivity).
    unfold store. destruct (f e) as [v|]; cbn [is_some]; [|reflexivity].
    apply forget_keys. rewrite set_field_keys. reflexivity.
Qed.

Lemma fold_store_inv (l : list (string * B)) (key : string) (v : A) :
  forall acc,
    assoc key (fold_left step l acc) = Some v ->
    assoc key acc = Some v \/ exists e, In e l /\ fst e = key /\ f e = Some v.
Proof.
  induction l as [|e l IH]; intros acc H; [left; exact H|].
  cbn [fold_left] in H. destruct (IH _ H) as [Hacc|(e' & Hin & Hk & Hf)].
  - rewrite step_stores in Hacc. unfold store in Hacc.
    destruct (f e) as [v'|] eqn:Hf; [|left; exact Hacc].
    rewrite assoc_set_field in Hacc.
    destruct (fst e =? key)%string eqn:E; [|left; exact Hacc].
    apply String.eqb_eq in E. right. exists e.
    split; [left; reflexivity|]. split; [exact E|]. rewrite Hf. exact Hacc.
  - right. exists e'. split; [right; exact Hin|]. split; assumption.
Qed.

End Keys.

Lemma column_report_status (JSON_parse : string -> decoded) (rowData : list value)
  (key schemaKey : string) (report : value) :
  column_report JSON_parse rowData key schemaKey = Ok (Some report) ->
  isNaN_text key = true
  /\ own_get report "schemaKey" = VStr schemaKey
  /\ exists status,
       own_get report "status" = VStr status
       /\ In status ["empty"; "parse_error"; "valid"; "invalid"].
Proof.
  unfold column_report.
  destruct (isNaN_text key); cbn [negb]; [|discriminate].
  destruct (assoc schemaKey COLUMN_SCHEMAS) as [s|]; [|discriminate].
  set (cell := nth (columnIndex s) rowData VUndef).
  destruct (if negb (truthy cell) then Ok true
            else t <- call_trim cell ;; Ok (t =? "")%string) as [blank|e];
    cbn [bind]; [|discriminate].
  destruct blank.
  - intros H. injection H as <-. split; [reflexivity|]. split; [reflexivity|].
    exists "empty". split; [reflexivity | simpl; tauto].
  - destruct (parseAndValidateJson JSON_parse cell) as [r|e]; cbn [bind]; [|discriminate].
    destruct (negb (parsed_isValid r)).
    + intros H. injection H as <-. split; [reflexivity|]. split; [reflexivity|].
      exists "parse_error". split; [reflexivity | simpl; tauto].
    + destruct (validateJsonStructure (parsed_data r) schemaKey) as [r'|e];
        cbn [bind]; [|discriminate].
      intros H. injection H as <-. split; [reflexivity|]. split; [reflexivity|].
      destruct (isValid r').
      * exists "valid". split; [reflexivity | simpl; tauto].
      * exists "invalid". split; [reflexivity | simpl; tauto].
Qed.

Lemma column_report_stored (JSON_parse : string -> decoded) (rowData : list value)
  (key schemaKey : string) (r : option value) :
  column_report JSON_parse rowData key schemaKey = Ok r ->
  is_some r = isNaN_text key.
Proof.
  unfold column_report.
  destruct (isNaN_text key); cbn [negb]; [|intros H; injection H as <-; reflexivity].
  destruct (assoc schemaKey COLUMN_SCHEMAS) as [s|]; [|discriminate].
  set (cell := nth (columnIndex s) rowData VUndef).
  destruct (if negb (truthy cell) then Ok true
            else t <- call_trim cell ;; Ok (t =? "")%string) as [blank|e];
    cbn [bind]; [|discriminate].
  destruct blank; [intros H; injection H as <-; reflexivity|].
  destruct (parseAndValidateJson JSON_parse cell) as [r0|e]; cbn [bind]; [|discriminate].
  destruct (negb (parsed_isValid r0)); [intros H; injection H as <-; reflexivity|].
  destruct (validateJsonStructure (parsed_data r0) schemaKey) as [r'|e];
    cbn [bind]; [|discriminate].
  intros H; injection H as <-; reflexivity.
Qed.

(** Over a row of texts and empty cells, [validateRowJsonColumns] returns
    one report per column letter of the registry, in the order of the
    registry, and none under the numeric keys of the index map.  Each
    report names the schema key the map gives for its letter and carries
    one of the four statuses. *)
Theorem validateRowJsonColumns_letters (JSON_parse : string -> decoded)
  (rowData : list value) :
  forallb text_or_empty rowData = true ->
  exists results,
    validateRowJsonColumns JSON_parse rowData = Ok (VObj results)
    /\ map fst results = map (fun e => column (snd e)) COLUMN_SCHEMAS
    /\ forall key report,
         assoc key results = Some report ->
         exists schemaKey status,
           assoc key COLUMN_INDEX_MAP = Some schemaKey
           /\ own_get report "schemaKey" = VStr schemaKey
           /\ own_get report "status" = VStr status
           /\ In status ["empty"; "parse_error"; "valid"; "invalid"].
Proof.
  intros Hrow. rewrite (validateRowJsonColumns_fold _ _ Hrow).
  eexists. split; [reflexivity|].
  assert (Hreport : forall e, In e COLUMN_INDEX_MAP ->
            column_report JSON_parse rowData (fst e) (snd e)
            = Ok (report_of JSON_parse rowData e)).
  { intros [key schemaKey] Hin. unfold report_of. cbn [fst snd].
    destruct (column_report_total JSON_parse rowData key schemaKey Hrow Hin) as (r & ->).
    reflexivity. }
  split.
  - rewrite (fold_store_keys _ (report_of JSON_parse rowData)
               (fun e => isNaN_text (fst e))).
    + vm_compute. reflexivity.
    + intros acc e. reflexivity.
    + intros e Hin. eapply column_report_stored. apply Hreport, Hin.
  - intros key report Hkey.
    apply (fold_store_inv _ (report_of JSON_parse rowData)) in Hkey;
      [|intros acc e; reflexivity].
    destruct Hkey as [Hkey|([k schemaKey] & Hin & Hk & Hf)]; [discriminate Hkey|].
    cbn [fst] in Hk. subst k.
    pose proof (Hreport _ Hin) as Hrun. cbn [fst snd] in Hrun. rewrite Hf in Hrun.
    destruct (column_report_status _ _ _ _ _ Hrun) as (Hnan & Hschema & status & Hst & Hin').
    exists schemaKey, status. split; [|split; [exact Hschema|split; assumption]].
    clear - Hin Hnan. revert Hin Hnan.
    unfold COLUMN_INDEX_MAP. cbn [In].
    intros H Hnan.
    repeat (destruct H as [H|H];
            [injection H as <- <-; first [reflexivity | discriminate Hnan]|]).
    contradiction.
Qed.

Lemma column_report_throws (JSON_parse : string -> decoded) (rowData : list value)
  (key schemaKey : string) (e : exn) :
  column_report JSON_parse rowData key schemaKey = Throw e -> e = TypeError.
Proof.
  unfold column_report.
  destruct (isNaN_text key); cbn [negb]; [|discriminate].
  destruct (assoc schemaKey COLUMN_SCHEMAS) as [s|]; [|intros H; injection H as <-; reflexivity].
  set (cell := nth (columnIndex s) rowData VUndef).
  destruct (truthy cell); cbn [negb bind].
  - destruct cell as [| | | | |t| |]; cbn [call_trim bind];
      try (intros H; injection H as <-; reflexivity).
    destruct (trim t =? "")%string; [discriminate|].
    destruct (parseAndValidateJson_total JSON_parse (VStr t)) as (r & ->). cbn [bind].
    destruct (negb (parsed_isValid r)); [discriminate|].
    destruct (validateJsonStructure_total (parsed_data r) schemaKey) as (r' & ->).
    discriminate.
  - discriminate.
Qed.

Lemma letters_not_numerals :
  forallb (fun e : string * schema => isNaN_text (column (snd e))) COLUMN_SCHEMAS = true.
Proof. vm_compute. reflexivity. Qed.

(** A cell of a registered column that is truthy and not a text (a number,
    say) makes [validateRowJsonColumns] raise a [TypeError], whatever the
    other cells hold. *)
Theorem validateRowJsonColumns_not_text (JSON_parse : string -> decoded)
  (rowData : list value) (schemaKey : string) (s : schema) :
  assoc schemaKey COLUMN_SCHEMAS = Some s ->
  truthy (nth (columnIndex s) rowData VUndef) = true ->
  is_str (nth (columnIndex s) rowData VUndef) = false ->
  validateRowJsonColumns JSON_parse rowData = Throw TypeError.
Proof.
  intros Hs Ht Hstr. unfold validateRowJsonColumns.
  rewrite (forEach_throws _ TypeError COLUMN_INDEX_MAP
             (fun e => (isNaN_text (fst e) && (snd e =? schemaKey)%string)%bool)).
  - reflexivity.
  - intros results [key k] Hbad. cbn [fst snd] in *.
    apply andb_true_iff in Hbad. destruct Hbad as [Hnan Hk].
    apply String.eqb_eq in Hk. subst k.
    unfold column_report. rewrite Hnan, Hs, Ht. cbn [negb].
    destruct (nth (columnIndex s) rowData VUndef); try discriminate Hstr; reflexivity.
  - intros results [key k] e. cbn [fst snd].
    destruct (column_report JSON_parse rowData key k) as [r|e'] eqn:E; cbn [bind];
      [discriminate|].
    intros H. injection H as <-. eapply column_report_throws. exact E.
  - apply existsb_exists. exists (column s, schemaKey).
    pose proof (assoc_In _ _ _ Hs) as Hin.
    pose proof (proj1 (forallb_forall _ _) registry_indexed _ Hin) as H.
    pose proof (proj1 (forallb_forall _ _) letters_not_numerals _ Hin) as Hnan.
    cbn [fst snd] in H, Hnan. apply andb_true_iff in H. destruct H as [H _].
    apply andb_true_iff in H. destruct H as [Hletter _].
    apply same_key_spec in Hletter.
    split; [apply assoc_In, Hletter|]. cbn [fst snd].
    rewrite Hnan, String.eqb_refl. reflexivity.
Qed.

Lemma validateRowJsonColumns_not_text_witness :
  validateRowJsonColumns (decode_table [])
    [VStr "D-1"; VStr "Acme"; VStr ""; VNum 7] = Throw TypeError.
Proof.
  apply (validateRowJsonColumns_not_text (decode_table []) _ "obligations" _ eq_refl);
    reflexivity.
Defined.

Lemma validateRowJsonColumns_letters_witness :
  exists results,
    validateRowJsonColumns (decode_table []) [VStr "D-1"; VStr "Acme"] = Ok (VObj results)
    /\ List.length results = 22%nat.
Proof.
  destruct (validateRowJsonColumns_letters (decode_table []) [VStr "D-1"; VStr "Acme"]
              eq_refl) as (results & Hrun & Hkeys & _).
  exists results. split; [exact Hrun|].
  rewrite <- (length_map fst), Hkeys. reflexivity.
Defined.

(** ** Texts without a brace *)

Lemma forallb_flat_map {A B : Type} (P : B -> bool) (f : A -> list B) (l : list A) :
  forallb P (flat_map f l) = forallb (fun x => forallb P (f x)) l.
Proof.
  induction l as [|x l IH]; [reflexivity|].
  cbn [flat_map forallb]. rewrite forallb_app, IH. reflexivity.
Qed.

Lemma forallb_false_existsb {A : Type} (P : A -> bool) (l : list A) :
  forallb P l = false -> existsb (fun x => negb (P x)) l = true.
Proof.
  induction l as [|x l IH]; [discriminate|]. cbn [forallb existsb].
  destruct (P x); cbn [negb andb orb]; [exact IH | reflexivity].
Qed.

(** The cell an entry of the index map makes the loop read. *)
Lemma report_cells_entry (rowData : list value) (key schemaKey : string) (s : schema) :
  forallb text_or_empty (report_cells rowData) = true ->
  In (key, schemaKey) COLUMN_INDEX_MAP ->
  isNaN_text key = true ->
  assoc schemaKey COLUMN_SCHEMAS = Some s ->
  text_or_empty (nth (columnIndex s) rowData VUndef) = true.
Proof.
  intros Hcells Hin Hkey Hs. unfold report_cells in Hcells.
  rewrite forallb_flat_map in Hcells.
  pose proof (proj1 (forallb_forall _ _) Hcells _ Hin) as H.
  cbn [fst snd] in H. rewrite Hkey, Hs in H. cbn [forallb] in H.
  rewrite andb_true_r in H. exact H.
Qed.

(** When the cells the loop reads are texts or empty, its body never
    throws, whatever the other cells of the row hold. *)
Lemma column_report_returns (JSON_parse : string -> decoded) (rowData : list value)
  (key schemaKey : string) :
  forallb text_or_empty (report_cells rowData) = true ->
  In (key, schemaKey) COLUMN_INDEX_MAP ->
  exists r, column_report JSON_parse rowData key schemaKey = Ok r.
Proof.
  intros Hcells Hin. unfold column_report.
  destruct (isNaN_text key) eqn:Hkey; cbn [negb]; [|eexists; reflexivity].
  pose proof (proj1 (forallb_forall _ _) registered_columns _ Hin) as Hreg.
  cbn [snd] in Hreg.
  destruct (assoc schemaKey COLUMN_SCHEMAS) as [s|] eqn:Hs; [|discriminate].
  pose proof (report_cells_entry rowData key schemaKey s Hcells Hin Hkey Hs) as Hcell.
  set (cell := nth (columnIndex s) rowData VUndef) in *.
  unfold text_or_empty in Hcell.
  destruct (truthy cell) eqn:Ht; cbn [negb orb] in Hcell |- *.
  - destruct cell as [| | | | |t| |]; try discriminate. cbn [call_trim bind].
    destruct (trim t =? "")%string; [eexists; reflexivity|].
    destruct (parseAndValidateJson_total JSON_parse (VStr t)) as (r & ->).
    cbn [bind]. destruct (negb (parsed_isValid r)); [eexists; reflexivity|].
    destruct (validateJsonStructure_total (parsed_data r) schemaKey) as (r' & ->).
    eexists; reflexivity.
  - eexists; reflexivity.
Qed.

Lemma validateRowJsonColumns_returns (JSON_parse : string -> decoded)
  (rowData : list value) :
  forallb text_or_empty (report_cells rowData) = true ->
  validateRowJsonColumns JSON_parse rowData =
  Ok (VObj (fold_left
              (fun results entry =>
                 store_report (fst entry) (report_of JSON_parse rowData entry) results)
              COLUMN_INDEX_MAP [])).
Proof.
  intros Hcells. unfold validateRowJsonColumns.
  rewrite (forEach_pure _
             (fun results entry =>
                store_report (fst entry) (report_of JSON_parse rowData entry) results)).
  - reflexivity.
  - intros results [key schemaKey] Hin. unfold report_of. cbn [fst snd].
    destruct (column_report_returns JSON_parse rowData key schemaKey Hcells Hin)
      as (r & ->).
    reflexivity.
Qed.

(** A cell the loop reads that is truthy and not a text makes it throw. *)
Lemma validateRowJsonColumns_raises (JSON_parse : string -> decoded)
  (rowData : list value) :
  forallb text_or_empty (report_cells rowData) = false ->
  validateRowJsonColumns JSON_parse rowData = Throw TypeError.
Proof.
  intros Hcells. unfold report_cells in Hcells. rewrite forallb_flat_map in Hcells.
  apply forallb_false_existsb in Hcells.
  unfold validateRowJsonColumns.
  erewrite forEach_throws; [reflexivity | | | exact Hcells].
  - intros results [key schemaKey] Hbad. cbn [fst snd] in *.
    unfold column_report.
    destruct (isNaN_text key); cbn [negb forallb] in Hbad |- *; [|discriminate Hbad].
    destruct (assoc schemaKey COLUMN_SCHEMAS) as [s|]; [|reflexivity].
    cbn [forallb] in Hbad. rewrite andb_true_r in Hbad.
    apply negb_true_iff in Hbad. unfold text_or_empty in Hbad.
    apply orb_false_iff in Hbad. destruct Hbad as [Ht Hstr].
    apply negb_false_iff in Ht. rewrite Ht. cbn [negb].
    destruct (nth (columnIndex s) rowData VUndef); try discriminate Hstr; reflexivity.
  - intros results [key k] e. cbn [fst snd].
    destruct (column_report JSON_parse rowData key k) as [r|e'] eqn:E; cbn [bind];
      [discriminate|].
    intros H. injection H as <-. eapply column_report_throws. exact E.
Qed.

(** C10, as the code has it.  A text whose trimmed content does not begin
    with a brace, and any input that is not a text, is answered invalid
    with null data, whatever [JSON.parse] makes of it.  When the cells
    [validateRowJsonColumns] reads are texts or empty, it reports a
    non-blank cell holding such a text as a parse error; when one of them
    is truthy and not a text, it raises a [TypeError] and reports on no
    cell. *)
Theorem parseAndValidateJson_requires_brace (JSON_parse : string -> decoded) :
  (forall s,
     startsWith (trim s) "{" = false ->
     exists r,
       parseAndValidateJson JSON_parse (VStr s) = Ok r
       /\ parsed_isValid r = false /\ parsed_data r = VNull)
  /\ (forall v,
        typeof v <> "string" ->
        parseAndValidateJson JSON_parse v =
        Ok (mkParsed false VNull (VStr "Input is not a string")))
  /\ (forall rowData key schemaKey s text,
        forallb text_or_empty (report_cells rowData) = true ->
        In (key, schemaKey) COLUMN_INDEX_MAP ->
        isNaN_text key = true ->
        assoc schemaKey COLUMN_SCHEMAS = Some s ->
        nth (columnIndex s) rowData VUndef = VStr text ->
        trim text <> "" ->
        startsWith (trim text) "{" = false ->
        exists results,
          validateRowJsonColumns JSON_parse rowData = Ok (VObj results)
          /\ assoc key results =
             Some (VObj [ ("status", VStr "parse_error");
                          ("error", VStr "String does not start with {");
                          ("schemaKey", VStr schemaKey) ]))
  /\ (forall rowData,
        forallb text_or_empty (report_cells rowData) = false ->
        validateRowJsonColumns JSON_parse rowData = Throw TypeError).
Proof.
  split; [|split; [|split]].
  - intros s Hb. rewrite (parseAndValidateJson_no_brace _ _ Hb).
    eexists. repeat split.
  - intros v Hty. unfold parseAndValidateJson.
    destruct (typeof v =? "string")%string eqn:E.
    + apply String.eqb_eq in E. contradiction.
    + cbn [negb]. rewrite orb_true_r. reflexivity.
  - intros rowData key schemaKey s text Hrow Hin Hkey Hs Hcell Hne Hb.
    rewrite (validateRowJsonColumns_returns _ _ Hrow). eexists. split; [reflexivity|].
    apply (fold_store
             (fun results entry =>
                store_report (fst entry) (report_of JSON_parse rowData entry) results)
             (report_of JSON_parse rowData))
      with (e := (key, schemaKey)).
    + intros acc e. reflexivity.
    + reflexivity.
    + exact Hin.
    + unfold report_of, column_report. cbn [fst snd].
      rewrite Hkey, Hs, Hcell. cbn [negb].
      assert (Htext : text <> "").
      { intros ->. apply Hne. reflexivity. }
      assert (Ht : truthy (VStr text) = true).
      { simpl. destruct (text =? "")%string eqn:E; [|reflexivity].
        apply String.eqb_eq in E. contradiction. }
      rewrite Ht. cbn [negb call_trim bind].
      destruct (trim text =? "")%string eqn:E.
      * apply String.eqb_eq in E. contradiction.
      * rewrite (parseAndValidateJson_no_brace _ _ Hb). cbn [bind parsed_isValid negb].
        destruct (text =? "")%string eqn:E'.
        -- apply String.eqb_eq in E'. contradiction.
        -- reflexivity.
  - intros rowData. apply validateRowJsonColumns_raises.
Qed.

Lemma parseAndValidateJson_requires_brace_witness :
  let parse := decode_table [("[1, 2]", VArr [VNum 1; VNum 2])] in
  let rowData := [VNum 12; VStr "Acme"; VStr ""; VStr " [1, 2] "] in
  parse "[1, 2]" = Decoded (VArr [VNum 1; VNum 2])
  /\ (exists r,
        parseAndValidateJson parse (VStr " [1, 2] ") = Ok r
        /\ parsed_isValid r = false /\ parsed_data r = VNull)
  /\ (exists results,
        validateRowJsonColumns parse rowData = Ok (VObj results)
        /\ assoc "D" results =
           Some (VObj [ ("status", VStr "parse_error");
                        ("error", VStr "String does not start with {");
                        ("schemaKey", VStr "obligations") ]))
  /\ validateRowJsonColumns parse
       [VNum 12; VStr "Acme"; VStr ""; VStr " [1, 2] "; VBool true] = Throw TypeError.
Proof.
  intros parse rowData. split; [reflexivity|]. split; [|split].
  - apply (proj1 (parseAndValidateJson_requires_brace parse)). reflexivity.
  - refine (proj1 (proj2 (proj2 (parseAndValidateJson_requires_brace parse)))
              rowData "D" "obligations" _ " [1, 2] " eq_refl _ eq_refl eq_refl eq_refl
              _ eq_refl).
    + vm_compute. tauto.
    + discriminate.
  - apply (proj2 (proj2 (proj2 (parseAndValidateJson_requires_brace parse)))).
    reflexivity.
Defined.

(** C10 as stated fails: the cell under column D holds the text [[1, 2]],
    which is not blank and decodes, but the number under column E makes
    [validateRowJsonColumns] raise, so the cell is not classified at
    all. *)
Lemma validateRowJsonColumns_classifies_nothing :
  let parse := decode_table [("[1, 2]", VArr [VNum 1; VNum 2])] in
  parse "[1, 2]" = Decoded (VArr [VNum 1; VNum 2])
  /\ nth 3 [VStr "D-1"; VStr "Acme"; VStr ""; VStr "[1, 2]"; VNum 7] VUndef
     = VStr "[1, 2]"
  /\ validateRowJsonColumns parse
       [VStr "D-1"; VStr "Acme"; VStr ""; VStr "[1, 2]"; VNum 7] = Throw TypeError.
Proof. intros parse. split; [reflexivity|]. split; vm_compute; reflexivity. Qed.

(** ** The entities of a sheet *)

Section Unstored.

Context {A B : Type}.
Variable step : list (string * A) -> string * B -> list (string * A).
Variable f : string * B -> option A.
Hypothesis step_stores : forall acc e, step acc e = store (fst e) (f e) acc.

Lemma fold_store_unstored (l : list (string * B)) (key : string) :
  (forall e, In e l -> fst e = key -> f e = None) ->
  forall acc, assoc key (fold_left step l acc) = assoc key acc.
Proof.
  induction l as [|e l IH]; intros Hnone acc; [reflexivity|].
  cbn [fold_left]. rewrite IH by (intros e' He'; apply Hnone; right; exact He').
  rewrite step_stores. unfold store.
  destruct (f e) as [v|] eqn:Hf; [|reflexivity].
  rewrite assoc_set_field.
  destruct (fst e =? key)%string eqn:E; [|reflexivity].
  apply String.eqb_eq in E. rewrite (Hnone e (or_introl eq_refl) E) in Hf.
  discriminate Hf.
Qed.

End Unstored.

Lemma identity_columns (entityType : string) (config : mapping) :
  In (entityType, config) columnMappings ->
  forallb (fun c : string * nat =>
             negb ((fst c =? "id") || (fst c =? "type") || (fst c =? "rowIndex"))%string)
    (columns config) = true.
Proof. intros [H|[H|[H|[]]]]; injection H as <- <-; reflexivity. Qed.

Section Entities.

Variable JSON_parse : string -> decoded.

Lemma stored_columns_identity (entityType : string) (config : mapping) (i : nat)
  (row : list value) (trimmed : string) :
  In (entityType, config) columnMappings ->
  let cols := stored_columns JSON_parse entityType config i row trimmed in
  assoc "id" cols = Some (VStr (entityType ++ "_" ++ dec_nat i))
  /\ assoc "name" cols = Some (VStr trimmed)
  /\ assoc "type" cols = Some (VStr entityType)
  /\ assoc "rowIndex" cols = Some (VNum (Z.of_nat i)).
Proof.
  intros Hin cols. unfold cols, stored_columns.
  pose proof (identity_columns _ _ Hin) as Hcols.
  assert (Hkeep : forall key,
            (forall c, In c (columns config) -> fst c = key ->
                       (fst c =? "name")%string = true) ->
            forall acc,
              assoc key (fold_left (store_column JSON_parse row) (columns config) acc)
              = assoc key acc).
  { intros key Hkey acc.
    apply (fold_store_unstored (store_column JSON_parse row) _
             (store_column_stores JSON_parse row)).
    intros c Hc Hk. rewrite (Hkey c Hc Hk). reflexivity. }
  assert (Hother : forall key,
            ((key =? "id") || (key =? "type") || (key =? "rowIndex"))%string = true ->
            forall c, In c (columns config) -> fst c = key ->
                      (fst c =? "name")%string = true).
  { intros key Hkey c Hc Hk.
    pose proof (proj1 (forallb_forall _ _) Hcols c Hc) as H. cbv beta in H.
    rewrite Hk, Hkey in H. discriminate H. }
  rewrite !Hkeep.
  - repeat split.
  - apply Hother. reflexivity.
  - apply Hother. reflexivity.
  - intros c _ ->. reflexivity.
  - apply Hother. reflexivity.
Qed.

Lemma trim_blank (t : string) : (t =? "")%string = true -> (trim t =? "")%string = true.
Proof. intros H. apply String.eqb_eq in H. subst t. reflexivity. Qed.

Lemma load_row_identity (entityType : string) (config : mapping) (i : nat)
  (row : list value) (r : option value) :
  In (entityType, config) columnMappings ->
  load_row JSON_parse entityType config i row = Ok r ->
  map identity (match r with Some entity => [entity] | None => [] end)
  = map (identity_of entityType) (named_rows i [row]).
Proof.
  intros Hin Hload. destruct (mapping_facts _ _ Hin) as (Hn & _).
  pose proof (load_row_cases JSON_parse entityType config i row 2 Hn) as Hc.
  cbn [named_rows].
  destruct (cell row 2) as [| |b|z| |t|xs|fs];
    try (rewrite Hc in Hload; injection Hload as <-; reflexivity);
    try (rewrite Hc in Hload; discriminate Hload).
  - destruct b; rewrite Hc in Hload; [discriminate Hload|].
    injection Hload as <-; reflexivity.
  - cbn [truthy] in Hc. destruct (negb (z =? 0)%Z); rewrite Hc in Hload;
      [discriminate Hload|]. injection Hload as <-; reflexivity.
  - destruct (trim t =? "")%string eqn:Et; cbn [orb] in Hc.
    + rewrite Hc in Hload. injection Hload as <-. reflexivity.
    + destruct (t =? "")%string eqn:Et'.
      { rewrite (trim_blank _ Et') in Et. discriminate Et. }
      destruct Hc as (tier & ai & Hc). rewrite Hc in Hload. injection Hload as <-.
      destruct (stored_columns_identity entityType config i row (trim t) Hin)
        as (Hid & Hname & Htype & Hrow).
      cbn [map]. unfold identity, identity_of. cbn [own_get fst snd].
      rewrite !assoc_set_field. cbn [String.eqb Ascii.eqb Bool.eqb].
      rewrite Hid, Hname, Htype, Hrow. reflexivity.
Qed.

Lemma named_rows_cons (i : nat) (row : list value) (rows : list (list value)) :
  named_rows i (row :: rows) = (named_rows i [row] ++ named_rows (S i) rows)%list.
Proof.
  cbn [named_rows]. destruct (cell row 2); try reflexivity.
  destruct (trim _ =? "")%string; reflexivity.
Qed.

Lemma load_rows_identity (entityType : string) (config : mapping)
  (rows : list (list value)) :
  In (entityType, config) columnMappings ->
  forall i entities loaded,
    load_rows JSON_parse entityType config i rows entities = Ok loaded ->
    map identity loaded
    = (map identity entities ++ map (identity_of entityType) (named_rows i rows))%list.
Proof.
  intros Hin. induction rows as [|row rows IH]; intros i entities loaded Hload.
  - cbn in Hload. injection Hload as <-. cbn [named_rows map]. rewrite app_nil_r.
    reflexivity.
  - cbn [load_rows] in Hload.
    destruct (load_row JSON_parse entityType config i row) as [r|e] eqn:Hrow;
      cbn [bind] in Hload; [|discriminate Hload].
    rewrite (IH _ _ _ Hload), named_rows_cons, map_app, app_assoc. f_equal.
    rewrite <- (load_row_identity _ _ _ _ _ Hin Hrow).
    destruct r; [rewrite map_app; reflexivity | rewrite app_nil_r; reflexivity].
Qed.

End Entities.

Lemma named_rows_from (rows : list (list value)) :
  forall i r, In r (named_rows i rows) ->
    (i <= fst r)%nat
    /\ exists row t, nth_error rows (fst r - i) = Some row
                     /\ cell row 2 = VStr t /\ snd r = trim t /\ trim t <> "".
Proof.
  induction rows as [|row rows IH]; intros i r Hin; [contradiction|].
  assert (Hrest : In r (named_rows (S i) rows) ->
                  (i <= fst r)%nat
                  /\ exists row0 t, nth_error (row :: rows) (fst r - i) = Some row0
                       /\ cell row0 2 = VStr t /\ snd r = trim t /\ trim t <> "").
  { intros H. destruct (IH _ _ H) as (Hle & row0 & t & Hnth & Hrest).
    split; [lia|]. exists row0, t. split; [|exact Hrest].
    replace (fst r - i)%nat with (S (fst r - S i)) by lia. exact Hnth. }
  cbn [named_rows] in Hin.
  destruct (cell row 2) as [| | | | |t| |] eqn:Hcell; try (apply Hrest, Hin).
  destruct (trim t =? "")%string eqn:Et; [apply Hrest, Hin|].
  destruct Hin as [<-|Hin]; [|apply Hrest, Hin].
  cbn [fst snd]. split; [lia|]. exists row, t. rewrite Nat.sub_diag.
  split; [reflexivity|]. split; [exact Hcell|]. split; [reflexivity|].
  intros H. rewrite H in Et. discriminate Et.
Qed.

Lemma named_rows_increasing (rows : list (list value)) :
  forall i, NoDup (map fst (named_rows i rows)).
Proof.
  induction rows as [|row rows IH]; intros i; [constructor|].
  cbn [named_rows]. destruct (cell row 2); try apply IH.
  destruct (trim _ =? "")%string; [apply IH|].
  cbn [map fst]. constructor; [|apply IH].
  intros H. apply in_map_iff in H. destruct H as (r & Hr & Hin).
  destruct (named_rows_from _ _ _ Hin) as (Hle & _). lia.
Qed.

Lemma dec_nat_injective (a b : nat) : dec_nat a = dec_nat b -> a = b.
Proof.
  unfold dec_nat. intros H.
  pose proof (dec_reads_back (Z.of_nat a)) as Ha.
  rewrite H, dec_reads_back in Ha. injection Ha as Ha.
  apply (f_equal Z.of_int) in Ha. rewrite !DecimalZ.of_to in Ha. lia.
Qed.

Lemma append_injective (p a b : string) : (p ++ a = p ++ b)%string -> a = b.
Proof.
  induction p as [|c p IH]; cbn [String.append]; [intros H; exact H|].
  intros H. injection H as H. apply IH, H.
Qed.

Lemma ids_distinct (entityType : string) (l : list (nat * string)) :
  NoDup (map fst l) ->
  NoDup (map (fun r => fst (fst (fst (identity_of entityType r)))) l).
Proof.
  induction l as [|r l IH]; intros Hd; [constructor|].
  cbn [map] in *. inversion Hd as [|x xs Hnot Hd']. subst.
  constructor; [|apply IH, Hd'].
  intros H. apply in_map_iff in H. destruct H as (r' & Heq & Hin).
  apply Hnot. apply in_map_iff. exists r'. split; [|exact Hin].
  unfold identity_of in Heq. cbn [fst] in Heq. injection Heq as Heq.
  apply append_injective in Heq. apply (append_injective "_") in Heq.
  apply dec_nat_injective, Heq.
Qed.

(** The entities [loadEntitySheet] makes of a sheet are those of the rows
    after the header whose name cell holds a text that is not blank, in
    the order of the rows: each has the id made of its type and of the
    index of its row in the sheet, the trimmed name, its type and that
    index; the ids are pairwise different.  The list is a new array, and
    the cache is not touched. *)
Theorem loadEntitySheet_entities (JSON_parse : string -> decoded) (spreadsheet : source)
  (entityType : string) (config : mapping) (values : list (list value))
  (m m' : manager) (l : entity_list) :
  In (entityType, config) columnMappings ->
  sheet spreadsheet (sheetName config) = Rows values ->
  loadEntitySheet JSON_parse spreadsheet entityType m = (Ok l, m') ->
  map identity (items l) = map (identity_of entityType) (named_rows 1 (tl values))
  /\ NoDup (map (fun entity => own_get entity "id") (items l))
  /\ (forall r, In r (named_rows 1 (tl values)) ->
        exists row t, nth_error values (fst r) = Some row
                      /\ cell row 2 = VStr t /\ snd r = trim t /\ trim t <> "")
  /\ address l = next_address m
  /\ cache m' = cache m.
Proof.
  intros Hin Hsheet Hrun.
  assert (Hconfig : assoc entityType columnMappings = Some config).
  { destruct Hin as [H|[H|[H|[]]]]; injection H as <- <-; reflexivity. }
  unfold loadEntitySheet in Hrun. rewrite Hconfig, Hsheet in Hrun.
  unfold bindM, call_service, new_array, lift, ret in Hrun. cbn in Hrun.
  destruct (load_rows JSON_parse entityType config 1 (tl values) []) as [loaded|e]
    eqn:Hload; [|discriminate Hrun].
  injection Hrun as <- <-. cbn [items address cache].
  pose proof (load_rows_identity JSON_parse _ _ _ Hin _ _ _ Hload) as Hid.
  cbn [map app] in Hid.
  split; [exact Hid|]. split; [|split; [|split; reflexivity]].
  - replace (map (fun entity => own_get entity "id") loaded)
      with (map (fun x => fst (fst (fst x))) (map identity loaded))
      by (rewrite map_map; reflexivity).
    rewrite Hid, map_map. apply ids_distinct, named_rows_increasing.
  - intros r Hr. destruct (named_rows_from _ _ _ Hr) as (Hle & row & t & Hnth & Hrest).
    exists row, t. split; [|exact Hrest].
    destruct values as [|header rows]; [contradiction Hr|].
    cbn [tl] in Hnth. destruct (fst r) as [|j]; [lia|].
    cbn [nth_error]. replace (S j - 1)%nat with j in Hnth by lia. exact Hnth.
Qed.

Lemma loadEntitySheet_entities_witness :
  exists l m',
    loadEntitySheet (decode_table []) oem_unreadable "agency" (mkManager empty_cache 0 [])
    = (Ok l, m')
    /\ map identity (items l) = [(VStr "agency_1", VStr "Acme", VStr "agency", VNum 1)].
Proof.
  assert (Hrun : exists l m',
            loadEntitySheet (decode_table []) oem_unreadable "agency"
              (mkManager empty_cache 0 []) = (Ok l, m'))
    by (eexists; eexists; vm_compute; reflexivity).
  destruct Hrun as (l & m' & Hrun). exists l, m'. split; [exact Hrun|].
  destruct (loadEntitySheet_entities (decode_table []) oem_unreadable "agency"
              agency_mapping
              [ [VStr "Code"; VStr "Agency"]; [VStr "A-1"; VStr "Acme"] ]
              _ _ _ (or_introl eq_refl) eq_refl Hrun) as (Hid & _).
  rewrite Hid. vm_compute. reflexivity.
Defined.

(** ** Rows with cells that do not parse *)

Lemma named_rows_single (i : nat) (row : list value) :
  named_rows i [row] = [] \/ exists t, named_rows i [row] = [(i, t)].
Proof.
  cbn [named_rows]. destruct (cell row 2); try (left; reflexivity).
  destruct (trim _ =? "")%string; [left; reflexivity | right; eexists; reflexivity].
Qed.

Lemma Forall2_weaken {A B : Type} (R R' : A -> B -> Prop) (l : list A) (l' : list B) :
  Forall2 R l l' ->
  (forall x y, In y l' -> R x y -> R' x y) ->
  Forall2 R' l l'.
Proof.
  induction 1 as [|x y l l' Hxy Hrest IH]; intros Himp; constructor.
  - apply Himp; [left; reflexivity | exact Hxy].
  - apply IH. intros x' y' Hin. apply Himp. right; exact Hin.
Qed.

(** The loop over the rows adds one entity for each named row, in the
    order of the rows. *)
Lemma load_rows_entities (JSON_parse : string -> decoded) (entityType : string)
  (config : mapping) (rows : list (list value)) :
  In (entityType, config) columnMappings ->
  forall i entities loaded,
    load_rows JSON_parse entityType config i rows entities = Ok loaded ->
    exists news,
      loaded = (entities ++ news)%list
      /\ Forall2 (loaded_from JSON_parse entityType rows i) news (named_rows i rows).
Proof.
  intros Hin. induction rows as [|row rows IH]; intros i entities loaded Hload.
  - cbn in Hload. injection Hload as <-. exists []. rewrite app_nil_r.
    split; [reflexivity | constructor].
  - cbn [load_rows] in Hload.
    destruct (load_row JSON_parse entityType config i row) as [r|e] eqn:Hrow;
      cbn [bind] in Hload; [|discriminate Hload].
    destruct (IH _ _ _ Hload) as (news & -> & Hnews).
    assert (Hrest : Forall2 (loaded_from JSON_parse entityType (row :: rows) i) news
                      (named_rows (S i) rows)).
    { apply (Forall2_weaken _ _ _ _ Hnews). intros entity r0 Hr0 (Hid & row0 & Hnth & Hf).
      destruct (named_rows_from _ _ _ Hr0) as (Hle & _).
      split; [exact Hid|]. exists row0. split; [|exact Hf].
      replace (fst r0 - i)%nat with (S (fst r0 - S i)) by lia. exact Hnth. }
    pose proof (load_row_identity JSON_parse _ _ _ _ _ Hin Hrow) as Hid.
    rewrite named_rows_cons.
    destruct r as [entity|].
    + exists (entity :: news). split; [rewrite <- app_assoc; reflexivity|].
      destruct (named_rows_single i row) as [Hnone|(t & Hone)]; rewrite ?Hnone, ?Hone in *;
        [discriminate Hid|].
      cbn [map] in Hid. cbn [app]. constructor; [|exact Hrest].
      split; [congruence|]. exists row. cbn [fst]. rewrite Nat.sub_diag.
      split; [reflexivity|].
      apply (proj2 (load_row_fields JSON_parse _ _ _ _ _ Hin Hrow)).
    + exists news. split; [reflexivity|].
      destruct (named_rows_single i row) as [Hnone|(t & Hone)]; rewrite ?Hnone, ?Hone in *;
        [exact Hrest | discriminate Hid].
Qed.

Lemma trim_not_blank (s : string) : trim s <> "" -> s <> "".
Proof. intros H ->. apply H. reflexivity. Qed.

(** C8, as the code has it.  [parseJSON] answers null for an empty cell,
    for a cell whose trimmed text is empty, [{}] or [[]], and for a text
    [JSON.parse] rejects.  [parseAndValidateJson] answers such a cell
    invalid, with null data, but for [{}], which it answers valid, with an
    empty object as data.  The three extractors give nothing for null (no
    primary value, no fiscal years, no categories), while
    [extractNormalizedData] raises on null under a registered key.  And
    the sheet goes on: rows whose name cell is a text or empty, and whose
    obligations can be totalled, make the loop over the rows return one
    entity for each named row, in the order of the rows, whatever their
    cells hold otherwise, and each JSON column of an entity holds what
    [parseJSON] makes of its cell. *)
Theorem parseJSON_tolerant (JSON_parse : string -> decoded) :
  (forall v, truthy v = false -> parseJSON JSON_parse v = VNull)
  /\ (forall s,
        trim s = "" \/ trim s = "{}" \/ trim s = "[]" ->
        parseJSON JSON_parse (VStr s) = VNull)
  /\ (forall s message,
        JSON_parse (trim s) = Malformed message ->
        parseJSON JSON_parse (VStr s) = VNull
        /\ exists r,
             parseAndValidateJson JSON_parse (VStr s) = Ok r
             /\ parsed_isValid r = false /\ parsed_data r = VNull)
  /\ (forall s,
        trim s = "" \/ trim s = "[]" ->
        exists r,
          parseAndValidateJson JSON_parse (VStr s) = Ok r
          /\ parsed_isValid r = false /\ parsed_data r = VNull)
  /\ (forall s,
        trim s = "{}" ->
        JSON_parse "{}" = Decoded (VObj []) ->
        parseAndValidateJson JSON_parse (VStr s) = Ok (mkParsed true (VObj []) VNull))
  /\ (forall schemaKey,
        getPrimaryValue VNull schemaKey = Ok VUndef
        /\ getFiscalYearData VNull schemaKey = Ok VUndef
        /\ getCategories VNull schemaKey = Ok (VArr [])
        /\ (assoc schemaKey COLUMN_SCHEMAS <> None ->
            extractNormalizedData VNull schemaKey = Throw TypeError))
  /\ (forall entityType config rows,
        In (entityType, config) columnMappings ->
        forallb (fun row => text_or_empty (cell row 2)) rows = true ->
        forallb (tame JSON_parse) rows = true ->
        exists loaded,
          load_rows JSON_parse entityType config 1 rows [] = Ok loaded
          /\ Forall2 (loaded_from JSON_parse entityType rows 1) loaded
               (named_rows 1 rows)).
Proof.
  split; [|split; [|split; [|split; [|split; [|split]]]]].
  - intros v Hv. unfold parseJSON. rewrite Hv. reflexivity.
  - intros s Hs. unfold parseJSON.
    destruct (truthy (VStr s)); [|reflexivity]. cbn [negb typeof to_str].
    change ("string" =? "object")%string with false. cbv iota.
    destruct Hs as [-> | [-> | ->]]; reflexivity.
  - intros s message Hm. split.
    + unfold parseJSON. destruct (truthy (VStr s)); [|reflexivity].
      cbn [negb typeof to_str]. change ("string" =? "object")%string with false.
      cbv iota. rewrite Hm.
      destruct ((trim s =? "") || (trim s =? "{}") || (trim s =? "[]"))%string;
        reflexivity.
    + unfold parseAndValidateJson. cbn [typeof].
      rewrite String.eqb_refl. cbn [negb]. rewrite orb_false_r.
      destruct (negb (truthy (VStr s))); [eexists; repeat split|].
      cbn [call_trim bind]. rewrite Hm.
      destruct (negb (startsWith (trim s) "{")); eexists; repeat split.
  - intros s Hs. rewrite parseAndValidateJson_no_brace.
    + eexists. repeat split.
    + destruct Hs as [-> | ->]; reflexivity.
  - intros s Hs Hparse. unfold parseAndValidateJson. cbn [typeof truthy].
    rewrite String.eqb_refl. cbn [negb]. rewrite orb_false_r.
    assert (Hne : (s =? "")%string = false).
    { apply String.eqb_neq, trim_not_blank. rewrite Hs. discriminate. }
    rewrite Hne. cbn [negb call_trim bind]. rewrite Hs.
    change (negb (startsWith "{}" "{")) with false. cbv iota.
    rewrite Hparse. reflexivity.
  - intros schemaKey.
    destruct (extraction_of_null schemaKey) as (Hp & Hfy & Hc).
    split; [exact Hp|]. split; [exact Hfy|]. split; [exact Hc|].
    intros Hreg. destruct (assoc schemaKey COLUMN_SCHEMAS) as [s|] eqn:Hs;
      [|contradiction].
    exact (extractNormalizedData_null schemaKey s Hs).
  - intros entityType config rows Hin Hrows _.
    destruct (load_rows_total JSON_parse _ _ _ Hin Hrows 1%nat []) as (loaded & Hload).
    exists loaded. split; [exact Hload|].
    destruct (load_rows_entities JSON_parse _ _ _ Hin _ _ _ Hload) as (news & -> & Hnews).
    exact Hnews.
Qed.

Lemma parseJSON_tolerant_witness :
  let parse := decode_table [(total_text, VObj [("total_obligated", VNum 500)])] in
  let rows := [ [VStr "A-1"; VStr "Acme"; VStr ""; VStr "{not json"];
                [VStr "A-2"; VStr " "; VStr ""; VStr total_text];
                [VStr "A-3"; VStr "Apex"; VStr ""; VStr total_text] ] in
  parse (trim "{not json") = Malformed "Unexpected token"
  /\ parseJSON parse (VStr "{not json") = VNull
  /\ parseJSON parse (VStr " {} ") = VNull
  /\ (exists r,
        parseAndValidateJson parse (VStr "{not json") = Ok r
        /\ parsed_isValid r = false /\ parsed_data r = VNull)
  /\ (exists first second,
        load_rows parse "agency" agency_mapping 1 rows [] = Ok [first; second]
        /\ identity first = (VStr "agency_1", VStr "Acme", VStr "agency", VNum 1)
        /\ own_get first "obligations" = VNull
        /\ identity second = (VStr "agency_3", VStr "Apex", VStr "agency", VNum 3)
        /\ own_get second "obligations" = VObj [("total_obligated", VNum 500)]).
Proof.
  intros parse rows.
  pose proof (parseJSON_tolerant parse)
    as (_ & Hblank & Hbad & _ & _ & _ & Hrows).
  split; [reflexivity|]. split; [|split; [|split]].
  - exact (proj1 (Hbad "{not json" "Unexpected token" eq_refl)).
  - apply Hblank. right; left. reflexivity.
  - exact (proj2 (Hbad "{not json" "Unexpected token" eq_refl)).
  - destruct (Hrows "agency" agency_mapping rows (or_introl eq_refl) eq_refl eq_refl)
      as (loaded & Hload & Hall).
    change (named_rows 1 rows) with [(1%nat, "Acme"); (3%nat, "Apex")] in Hall.
    inversion Hall as [|first r1 rest1 l1 (Hid1 & row1 & Hnth1 & Hf1) Hall1]; subst.
    inversion Hall1 as [|second r2 rest2 l2 (Hid2 & row2 & Hnth2 & Hf2) Hall2]; subst.
    inversion Hall2; subst.
    exists first, second. split; [exact Hload|].
    cbn in Hnth1, Hnth2. injection Hnth1 as <-. injection Hnth2 as <-.
    split; [exact Hid1|].
    split; [apply (Hf1 "obligations" 4%nat);
            [right; right; left; reflexivity | reflexivity]|].
    split; [exact Hid2|].
    rewrite (Hf2 "obligations" 4%nat) by
      first [right; right; left; reflexivity | reflexivity].
    vm_compute. reflexivity.
Defined.

(** C8 as stated fails.  For the other parser the claim cites the cell
    [{}] is not absent: [parseAndValidateJson] answers it valid, with the
    empty object as data.  And extraction over a null value is not always
    an empty result: [extractNormalizedData] raises. *)
Lemma parseAndValidateJson_keeps_empty_object :
  let parse := decode_table [("{}", VObj [])] in
  parseJSON parse (VStr "{}") = VNull
  /\ parseAndValidateJson parse (VStr "{}") = Ok (mkParsed true (VObj []) VNull)
  /\ extractNormalizedData VNull "obligations" = Throw TypeError.
Proof. intros parse. repeat split. Qed.

(** ** The numeric value of a column *)

Lemma number_truthy_or_number (z : Z) : truthy_or_number (VNum z).
Proof. right. reflexivity. Qed.

Lemma first_of_ok (attempts : list (outcome (option value))) (d : value)
  (P : value -> Prop) :
  Forall (fun a => exists o, a = Ok o
                             /\ match o with Some v => P v | None => True end) attempts ->
  P d ->
  exists r, first_of attempts (Ok d) = Ok r /\ P r.
Proof.
  intros Hall Hd. induction Hall as [|a attempts (o & -> & Ho) Hall IH].
  - exists d. split; [reflexivity | exact Hd].
  - cbn [first_of bind]. destruct o as [v|]; [exists v; split; [reflexivity | exact Ho]|].
    exact IH.
Qed.

Lemma summary_field_value (jsonData : value) (a : string) :
  truthy jsonData = true ->
  summary_field jsonData a
  = Ok (if truthy (get_opt (own_get jsonData "summary") a)
        then Some (get_opt (own_get jsonData "summary") a) else None).
Proof.
  intros Ht. unfold summary_field. rewrite !(get_truthy _ _ Ht). cbn [bind].
  destruct (truthy (get_opt (own_get jsonData "summary") a)) eqn:Hs; [|reflexivity].
  unfold get, get_opt in *.
  destruct (nullish (own_get jsonData "summary")); [discriminate Hs | reflexivity].
Qed.

Lemma own_field_value (jsonData : value) (a : string) :
  truthy jsonData = true ->
  own_field jsonData a
  = Ok (if truthy (own_get jsonData a) then Some (own_get jsonData a) else None).
Proof.
  intros Ht. unfold own_field. rewrite !(get_truthy _ _ Ht). cbn [bind].
  destruct (truthy (own_get jsonData a)); reflexivity.
Qed.

Lemma summed_field_value (jsonData : value) (a : string) :
  truthy jsonData = true ->
  summed_field jsonData a
  = Ok (if truthy (own_get jsonData a) then Some (summed_years (own_get jsonData a))
        else None).
Proof.
  intros Ht. unfold summed_field. rewrite !(get_truthy _ _ Ht). cbn [bind].
  destruct (truthy (own_get jsonData a)); reflexivity.
Qed.

(** The answer of [extractNumericValue], whatever the value: zero for a
    falsy value and a number itself; for the four columns with totals of
    their own, the first total of the summary, when it is truthy, before
    every other field; for the other columns a truthy [total_obligated].
    When the fiscal-year values it may have to sum are convertible, it
    returns, and what it answers is truthy or a number (a field that is
    truthy, a sum, or zero): never undefined, null, false or an empty
    text. *)
Theorem extractNumericValue_defined (jsonData columnId : value) :
  (truthy jsonData = false -> extractNumericValue jsonData columnId = Ok (VNum 0))
  /\ (truthy jsonData = true ->
      typeof jsonData = "number" ->
      extractNumericValue jsonData columnId = Ok jsonData)
  /\ (forall field,
        truthy jsonData = true -> typeof jsonData <> "number" ->
        hd_error (column_summary_fields columnId) = Some field ->
        truthy (get_opt (own_get jsonData "summary") field) = true ->
        extractNumericValue jsonData columnId
        = Ok (get_opt (own_get jsonData "summary") field))
  /\ (truthy jsonData = true -> typeof jsonData <> "number" ->
      column_summary_fields columnId = [] ->
      truthy (own_get jsonData "total_obligated") = true ->
      extractNumericValue jsonData columnId = Ok (own_get jsonData "total_obligated"))
  /\ (summable (own_get jsonData "fiscal_year_obligations") = true ->
      summable (own_get jsonData "fiscal_years") = true ->
      exists r,
        extractNumericValue jsonData columnId = Ok r /\ truthy_or_number r).
Proof.
  assert (Hrun : exists r,
    extractNumericValue jsonData columnId = Ok r
    /\ truthy_or_number r
    /\ (truthy jsonData = false -> r = VNum 0)
    /\ (truthy jsonData = true -> typeof jsonData = "number" -> r = jsonData)
    /\ (forall field,
          truthy jsonData = true -> typeof jsonData <> "number" ->
          hd_error (column_summary_fields columnId) = Some field ->
          truthy (get_opt (own_get jsonData "summary") field) = true ->
          r = get_opt (own_get jsonData "summary") field)
    /\ (truthy jsonData = true -> typeof jsonData <> "number" ->
        column_summary_fields columnId = [] ->
        truthy (own_get jsonData "total_obligated") = true ->
        r = own_get jsonData "total_obligated")).
  {
    unfold extractNumericValue.
    destruct (truthy jsonData) eqn:Ht; cbn [negb].
    2:{ exists (VNum 0). split; [reflexivity|]. split; [right; reflexivity|].
        split; [reflexivity|]. repeat split; intros; discriminate. }
    destruct (typeof jsonData =? "number")%string eqn:Hty.
    { exists jsonData. split; [reflexivity|]. split; [left; exact Ht|].
      split; [discriminate|]. split; [reflexivity|].
      apply String.eqb_eq in Hty. split; intros; contradiction. }
    rewrite !(own_field_value _ _ Ht), !(summed_field_value _ _ Ht).
    assert (Hgeneric : Forall
              (fun a => exists o, a = Ok o
                 /\ match o with Some v => truthy_or_number v | None => True end)
              [ Ok (if truthy (own_get jsonData "total_obligated")
                    then Some (own_get jsonData "total_obligated") else None);
                Ok (if truthy (own_get jsonData "total_obligations")
                    then Some (own_get jsonData "total_obligations") else None);
                Ok (if truthy (own_get jsonData "total")
                    then Some (own_get jsonData "total") else None);
                Ok (if truthy (own_get jsonData "sum")
                    then Some (own_get jsonData "sum") else None);
                Ok (if truthy (own_get jsonData "fiscal_year_obligations")
                    then Some (summed_years (own_get jsonData "fiscal_year_obligations"))
                    else None);
                Ok (if truthy (own_get jsonData "fiscal_years")
                    then Some (summed_years (own_get jsonData "fiscal_years"))
                    else None) ]).
    { repeat constructor; eexists; (split; [reflexivity|]);
        match goal with
        | |- match (if ?c then _ else _) with _ => _ end => destruct c eqn:E
        end; try exact I; try (left; exact E);
        unfold summed_years;
        match goal with
        | |- truthy_or_number (fold_left _ ?vs (VNum 0)) =>
            destruct (summed_is_number vs 0) as (z & ->); apply number_truthy_or_number
        end. }
    assert (Hsummary : Forall
              (fun a => exists o, a = Ok o
                 /\ match o with Some v => truthy_or_number v | None => True end)
              (map (summary_field jsonData) (column_summary_fields columnId))).
    { apply Forall_forall. intros a Ha. apply in_map_iff in Ha.
      destruct Ha as (field & <- & _). rewrite (summary_field_value _ _ Ht).
      eexists. split; [reflexivity|].
      destruct (truthy (get_opt (own_get jsonData "summary") field)) eqn:E;
        [left; exact E | exact I]. }
    destruct (first_of_ok _ (VNum 0) truthy_or_number
                (proj2 (Forall_app _ _ _) (conj Hsummary Hgeneric))
                (or_intror eq_refl)) as (r & Hr & HP).
    exists r. split; [exact Hr|]. split; [exact HP|]. split; [discriminate|].
    split; [intros _ H; rewrite H in Hty; discriminate Hty|].
    split.
    - intros field _ _ Hhd Hs.
      destruct (column_summary_fields columnId) as [|f fields]; [discriminate Hhd|].
      injection Hhd as ->. cbn [map app first_of] in Hr.
      rewrite (summary_field_value _ _ Ht), Hs in Hr. cbn [bind] in Hr.
      injection Hr as <-. reflexivity.
    - intros _ _ Hnone Hto. rewrite Hnone in Hr. cbn [map app first_of] in Hr.
      rewrite Hto in Hr. cbn [bind] in Hr. injection Hr as <-. reflexivity.
  }
  destruct Hrun as (r & Hr & HP & Hfalsy & Hnumber & Hfirst & Hgeneric).
  rewrite Hr.
  split; [intros H; rewrite (Hfalsy H); reflexivity|].
  split; [intros H1 H2; rewrite (Hnumber H1 H2); reflexivity|].
  split; [intros field H1 H2 H3 H4; rewrite (Hfirst field H1 H2 H3 H4); reflexivity|].
  split; [intros H1 H2 H3 H4; rewrite (Hgeneric H1 H2 H3 H4); reflexivity|].
  intros _ _. exists r. split; [reflexivity | exact HP].
Qed.

Lemma extractNumericValue_defined_witness :
  let json := VObj [("summary", VObj [("total_top_15_resellers", VNum 90);
                                      ("total_all_resellers", VNum 120)]);
                    ("total_obligated", VNum 500)] in
  extractNumericValue json (VStr "reseller") = Ok (VNum 90)
  /\ extractNumericValue json (VStr "obligations") = Ok (VNum 500)
  /\ extractNumericValue VNull (VStr "obligations") = Ok (VNum 0)
  /\ exists r,
       extractNumericValue (VObj [("fiscal_years", VObj [("2024", VStr "n/a")])])
         (VStr "obligations") = Ok r
       /\ truthy_or_number r.
Proof.
  intros json.
  destruct (extractNumericValue_defined json (VStr "reseller"))
    as (_ & _ & Hfirst & _).
  destruct (extractNumericValue_defined json (VStr "obligations"))
    as (_ & _ & _ & Hgeneric & _).
  destruct (extractNumericValue_defined VNull (VStr "obligations")) as (Hfalsy & _).
  destruct (extractNumericValue_defined
              (VObj [("fiscal_years", VObj [("2024", VStr "n/a")])]) (VStr "obligations"))
    as (_ & _ & _ & _ & Hsum).
  split; [apply (Hfirst "total_top_15_resellers"); (discriminate || reflexivity)|].
  split; [apply Hgeneric; (discriminate || reflexivity)|].
  split; [apply Hfalsy; reflexivity|].
  apply Hsum; reflexivity.
Defined.

(** ** A load that succeeds *)

Section Loads.

Variable JSON_parse : string -> decoded.
Variable spreadsheet : source.

Lemma loadEntitySheet_readable (entityType : string) (config : mapping) :
  In (entityType, config) columnMappings ->
  readable spreadsheet (sheetName config) = true ->
  exists loaded,
    entities_of spreadsheet entityType (sheetName config) loaded
    /\ forall m,
         loadEntitySheet JSON_parse spreadsheet entityType m
         = (Ok (mkList (next_address m) loaded),
            mkManager (cache m) (S (next_address m))
              (io_log m ++ sheet_calls spreadsheet (sheetName config))).
Proof.
  intros Hin Hread.
  assert (Hconfig : assoc entityType columnMappings = Some config).
  { destruct Hin as [H|[H|[H|[]]]]; injection H as <- <-; reflexivity. }
  unfold loadEntitySheet, readable, entities_of, sheet_calls in *. rewrite Hconfig.
  destruct (sheet spreadsheet (sheetName config)) as [| |values]; [|discriminate Hread|].
  - exists []. split; [reflexivity|]. intros m. reflexivity.
  - destruct (load_rows_total JSON_parse _ _ _ Hin Hread 1%nat []) as (loaded & Hload).
    exists loaded. split.
    + apply (load_rows_identity JSON_parse _ _ _ Hin _ _ _ Hload).
    + intros m. unfold bindM, call_service, new_array, lift, ret. cbn.
      rewrite Hload. cbn. rewrite <- app_assoc. reflexivity.
Qed.



End Loads.


(** ** A load that fails *)

Section Failures.

Variable JSON_parse : string -> decoded.
Variable spreadsheet : source.

(** A name cell that is truthy and not a text makes the loop over the rows
    throw. *)
Lemma load_rows_raises (entityType : string) (config : mapping)
  (rows : list (list value)) :
  In (entityType, config) columnMappings ->
  forallb (fun row => text_or_empty (cell row 2)) rows = false ->
  forall i entities,
    load_rows JSON_parse entityType config i rows entities = Throw TypeError.
Proof.
  intros Hin. induction rows as [|row rows IH]; intros Hrows i entities;
    [discriminate Hrows|].
  cbn [forallb] in Hrows. cbn [load_rows].
  destruct (text_or_empty (cell row 2)) eqn:Hrow.
  - destruct (load_row_total JSON_parse entityType config i row Hin Hrow) as (r & ->).
    cbn [bind]. apply IH. exact Hrows.
  - destruct (mapping_facts _ _ Hin) as (Hn & _).
    pose proof (load_row_cases JSON_parse entityType config i row 2 Hn) as Hc.
    unfold text_or_empty in Hrow. apply orb_false_iff in Hrow.
    destruct Hrow as [Ht Hstr]. apply negb_false_iff in Ht.
    destruct (cell row 2); try discriminate Hstr; rewrite Ht in Hc; rewrite Hc;
      reflexivity.
Qed.

Lemma sheet_failure_readable (name : string) :
  readable spreadsheet name = true <-> sheet_failure spreadsheet name = None.
Proof.
  unfold readable, sheet_failure.
  destruct (sheet spreadsheet name) as [| |values].
  - split; reflexivity.
  - split; discriminate.
  - destruct (forallb _ (tl values)); split; (reflexivity || discriminate).
Qed.

(** A sheet that fails: loading it raises the error of the sheet, and
    leaves the cache alone. *)
Lemma loadEntitySheet_fails (entityType : string) (config : mapping) (e : exn) :
  In (entityType, config) columnMappings ->
  sheet_failure spreadsheet (sheetName config) = Some e ->
  forall m,
    exists m',
      loadEntitySheet JSON_parse spreadsheet entityType m = (Throw e, m')
      /\ cache m' = cache m.
Proof.
  intros Hin Hfail m.
  assert (Hconfig : assoc entityType columnMappings = Some config).
  { destruct Hin as [H|[H|[H|[]]]]; injection H as <- <-; reflexivity. }
  unfold loadEntitySheet, sheet_failure in *. rewrite Hconfig.
  destruct (sheet spreadsheet (sheetName config)) as [| |values]; [discriminate Hfail| |].
  - injection Hfail as <-. unfold bindM, call_service, throw. cbn.
    eexists. split; reflexivity.
  - destruct (forallb (fun row => text_or_empty (cell row 2)) (tl values)) eqn:Hrows;
      [discriminate Hfail|].
    injection Hfail as <-.
    unfold bindM, call_service, new_array, lift. cbn.
    rewrite (load_rows_raises _ _ _ Hin Hrows). eexists. split; reflexivity.
Qed.

(** The steps of a load: the spreadsheet opens; a sheet loads. *)
Local Ltac opened Hopen :=
  unfold try_catch; unfold bindM at 1, call_service at 1;
  cbn [cache next_address io_log];
  unfold bindM at 1; rewrite Hopen; unfold ret at 1; unfold bindM at 1.

Local Ltac loaded Hrun :=
  rewrite Hrun; cbn [cache next_address io_log];
  unfold bindM at 1, update_cache at 1; cbn [cache next_address io_log];
  unfold bindM at 1.

(** C3, as the code has it.  A load that is due and not already under way
    fails when the spreadsheet does not open or when one of its sheets
    fails, the sheets before it being readable, with obligations that can
    be totalled.  It then raises the error of the first step that fails,
    and so does [getEntities]; the loading flag is down and the timestamp
    is as before.  The lists of the sheets loaded before that step are
    replaced by new arrays that hold the entities of these sheets; the
    list of the sheet that fails and the lists after it are as before.  So
    the cache as a whole is as before only when the spreadsheet does not
    open or the Agency sheet fails. *)
Theorem loadAllData_failure (now later : Z) (forceRefresh : bool) (m : manager) :
  isLoading (cache m) = false ->
  forceRefresh = true \/ needsRefresh now (cache m) = true ->
  let c := cache m in
  let n := next_address m in
  (opens spreadsheet = false ->
   exists m',
     loadAllData JSON_parse spreadsheet now later forceRefresh m = (Throw ServiceError, m')
     /\ cache m' = c)
  /\ (opens spreadsheet = true ->
      (forall e,
         sheet_failure spreadsheet "Agency" = Some e ->
         exists m',
           loadAllData JSON_parse spreadsheet now later forceRefresh m = (Throw e, m')
           /\ cache m' = c)
      /\ (readable spreadsheet "Agency" = true ->
          tame_sheet JSON_parse spreadsheet "Agency" = true ->
          (forall e,
             sheet_failure spreadsheet "OEM" = Some e ->
             exists m' la,
               loadAllData JSON_parse spreadsheet now later forceRefresh m = (Throw e, m')
               /\ cache m' = mkCache (Some (mkList n la)) (oems c) (vendors c)
                               (lastUpdated c) false
               /\ entities_of spreadsheet "agency" "Agency" la)
          /\ (readable spreadsheet "OEM" = true ->
              tame_sheet JSON_parse spreadsheet "OEM" = true ->
              forall e,
                sheet_failure spreadsheet "Vendor" = Some e ->
                exists m' la lo,
                  loadAllData JSON_parse spreadsheet now later forceRefresh m
                  = (Throw e, m')
                  /\ cache m' = mkCache (Some (mkList n la)) (Some (mkList (S n) lo))
                                  (vendors c) (lastUpdated c) false
                  /\ entities_of spreadsheet "agency" "Agency" la
                  /\ entities_of spreadsheet "oem" "OEM" lo)))
  /\ (forall e m' entityType,
        loadAllData JSON_parse spreadsheet now later forceRefresh m = (Throw e, m') ->
        getEntities JSON_parse spreadsheet now later entityType forceRefresh m
        = (Throw e, m')).
Proof.
  intros Hidle Hdue c n. subst c n.
  assert (Hguard : (negb forceRefresh && negb (needsRefresh now (cache m)))%bool = false).
  { destruct Hdue as [-> | ->]; [reflexivity | apply andb_false_r]. }
  destruct m as [[a o v t l] n log]. cbn [cache next_address isLoading] in *. subst l.
  assert (Hstart : forall k : M cache_t,
            loadAllData JSON_parse spreadsheet now later forceRefresh
              (mkManager (mkCache a o v t false) n log)
            = try_catch
                (call_service OpenById ;;;
                 (if opens spreadsheet then ret tt else throw ServiceError) ;;;
                 l <~ loadEntitySheet JSON_parse spreadsheet "agency" ;;
                 update_cache (set_agencies l) ;;;
                 l <~ loadEntitySheet JSON_parse spreadsheet "oem" ;;
                 update_cache (set_oems l) ;;;
                 l <~ loadEntitySheet JSON_parse spreadsheet "vendor" ;;
                 update_cache (set_vendors l) ;;;
                 update_cache (set_lastUpdated later) ;;;
                 update_cache (set_isLoading false) ;;;
                 read_cache)
                (fun error => update_cache (set_isLoading false) ;;; throw error)
                (mkManager (mkCache a o v t true) n log)).
  { intros _. unfold loadAllData, bindM at 1, read_cache at 1.
    cbn [cache isLoading]. rewrite Hguard. reflexivity. }
  specialize (Hstart (ret (mkCache a o v t false))).
  split; [|split].
  - intros Hopen. rewrite Hstart. unfold try_catch.
    unfold bindM at 1, call_service at 1. cbn [cache next_address io_log].
    unfold bindM at 1. rewrite Hopen. unfold throw at 1.
    unfold bindM, update_cache, throw. cbn. eexists. split; reflexivity.
  - intros Hopen. rewrite Hstart.
    split; [intros e Hfail | intros Ha _; split; [intros e Hfail | intros Ho _ e Hfail]].
    + opened Hopen.
      match goal with
      | |- context [loadEntitySheet _ _ "agency" ?m0] =>
          destruct (loadEntitySheet_fails "agency" _ e (or_introl eq_refl) Hfail m0)
            as (m1 & Hrun & Hc)
      end.
      rewrite Hrun. unfold bindM, update_cache, throw. cbn.
      eexists. split; [reflexivity|]. cbn. rewrite Hc. reflexivity.
    + destruct (loadEntitySheet_readable JSON_parse spreadsheet "agency" _
                  (or_introl eq_refl) Ha) as (la & Hla & Hrun_a).
      cbn [sheetName] in Hla, Hrun_a.
      opened Hopen. loaded Hrun_a.
      match goal with
      | |- context [loadEntitySheet _ _ "oem" ?m0] =>
          destruct (loadEntitySheet_fails "oem" _ e
                      (or_intror (or_introl eq_refl)) Hfail m0)
            as (m1 & Hrun & Hc)
      end.
      rewrite Hrun. unfold bindM, update_cache, throw. cbn.
      eexists. exists la. split; [reflexivity|]. cbn. rewrite Hc.
      split; [reflexivity | exact Hla].
    + destruct (loadEntitySheet_readable JSON_parse spreadsheet "agency" _
                  (or_introl eq_refl) Ha) as (la & Hla & Hrun_a).
      destruct (loadEntitySheet_readable JSON_parse spreadsheet "oem" _
                  (or_intror (or_introl eq_refl)) Ho) as (lo & Hlo & Hrun_o).
      cbn [sheetName] in Hla, Hrun_a, Hlo, Hrun_o.
      opened Hopen. loaded Hrun_a. loaded Hrun_o.
      match goal with
      | |- context [loadEntitySheet _ _ "vendor" ?m0] =>
          destruct (loadEntitySheet_fails "vendor" _ e
                      (or_intror (or_intror (or_introl eq_refl))) Hfail m0)
            as (m1 & Hrun & Hc)
      end.
      rewrite Hrun. unfold bindM, update_cache, throw. cbn.
      eexists. exists la, lo. split; [reflexivity|]. cbn. rewrite Hc.
      split; [reflexivity|]. split; [exact Hla | exact Hlo].
  - intros e m' entityType Hrun. unfold getEntities, bindM at 1.
    rewrite Hrun. reflexivity.
Qed.

End Failures.

Lemma loadAllData_failure_witness :
  exists m' la,
    loadAllData (decode_table []) oem_unreadable 5000 5001 true loaded_manager
    = (Throw ServiceError, m')
    /\ cache m' = mkCache (Some (mkList 3 la))
                    (Some (mkList 1 [VObj [("name", VStr "Old OEM")]]))
                    (Some (mkList 2 [VObj [("name", VStr "Old Vendor")]]))
                    (Some 1000) false
    /\ map identity la = [(VStr "agency_1", VStr "Acme", VStr "agency", VNum 1)]
    /\ getEntities (decode_table []) oem_unreadable 5000 5001 (VStr "oem") true
         loaded_manager = (Throw ServiceError, m').
Proof.
  destruct (loadAllData_failure (decode_table []) oem_unreadable 5000 5001 true
              loaded_manager eq_refl (or_introl eq_refl)) as (_ & Hopen & Hcaller).
  destruct (Hopen eq_refl) as (_ & Hagency).
  destruct (Hagency eq_refl eq_refl) as (Hoem & _).
  destruct (Hoem ServiceError eq_refl) as (m' & la & Hrun & Hcache & Hla).
  exists m', la. split; [exact Hrun|]. split; [exact Hcache|].
  split; [exact Hla|]. apply Hcaller. exact Hrun.
Defined.

(** ** The loading flag *)

Section Flag.

Variable JSON_parse : string -> decoded.
Variable spreadsheet : source.

Lemma loadAllData_idle (now later : Z) (forceRefresh : bool) (m m' : manager)
  (r : outcome cache_t) :
  isLoading (cache m) = false ->
  loadAllData JSON_parse spreadsheet now later forceRefresh m = (r, m') ->
  isLoading (cache m') = false.
Proof.
  intros Hidle. unfold loadAllData, bindM at 1, read_cache at 1.
  destruct (negb forceRefresh && negb (needsRefresh now (cache m)))%bool;
    [unfold read_cache; intros H; injection H as _ <-; exact Hidle|].
  rewrite Hidle. unfold try_catch.
  unfold bindM at 1, update_cache at 1.
  unfold bindM at 1, call_service at 1. cbn [cache next_address io_log].
  set (m1 := mkManager (set_isLoading true (cache m)) (next_address m)
               (io_log m ++ [OpenById])).
  unfold bindM at 1.
  destruct (opens spreadsheet).
  - unfold ret at 1. unfold bindM at 1.
    destruct (loadEntitySheet JSON_parse spreadsheet "agency" m1) as [[l1|e1] m2];
      [|unfold bindM, update_cache, throw; cbn; intros H; injection H as _ <-;
        reflexivity].
    unfold bindM at 1, update_cache at 1. unfold bindM at 1.
    set (m3 := mkManager (set_agencies l1 (cache m2)) (next_address m2) (io_log m2)).
    destruct (loadEntitySheet JSON_parse spreadsheet "oem" m3) as [[l2|e2] m4];
      [|unfold bindM, update_cache, throw; cbn; intros H; injection H as _ <-;
        reflexivity].
    unfold bindM at 1, update_cache at 1. unfold bindM at 1.
    set (m5 := mkManager (set_oems l2 (cache m4)) (next_address m4) (io_log m4)).
    destruct (loadEntitySheet JSON_parse spreadsheet "vendor" m5) as [[l3|e3] m6];
      unfold bindM, update_cache, read_cache, throw; cbn; intros H;
      injection H as _ <-; reflexivity.
  - unfold throw at 1. unfold bindM, update_cache, throw. cbn.
    intros H; injection H as _ <-. reflexivity.
Qed.

(** The loading flag is down after every call that found it down, whether
    the call returns or raises; so a call never finds it up.  Were it up,
    [loadAllData] would hand back the cache as it is, without a call to
    the service, even when a refresh is forced. *)
Theorem loadAllData_flag (now later : Z) (forceRefresh : bool) (m : manager) :
  (isLoading (cache m) = false ->
   forall r m',
     loadAllData JSON_parse spreadsheet now later forceRefresh m = (r, m') ->
     isLoading (cache m') = false)
  /\ (isLoading (cache m) = false ->
      forall entityType r m',
        getEntities JSON_parse spreadsheet now later entityType forceRefresh m = (r, m') ->
        isLoading (cache m') = false)
  /\ (isLoading (cache m) = true ->
      loadAllData JSON_parse spreadsheet now later forceRefresh m = (Ok (cache m), m)).
Proof.
  split; [|split].
  - intros Hidle r m' Hrun. eapply loadAllData_idle; eassumption.
  - intros Hidle entityType r m'. unfold getEntities, bindM at 1.
    destruct (loadAllData JSON_parse spreadsheet now later forceRefresh m)
      as [[data|e] m1] eqn:Hload;
      [|intros H; injection H as _ <-; eapply loadAllData_idle; eassumption].
    pose proof (loadAllData_idle _ _ _ _ _ _ Hidle Hload) as Hidle1.
    assert (Hall : forall r m',
              (l <~ spread3 (agencies data) (oems data) (vendors data) ;; ret (Some l)) m1
              = (r, m') -> isLoading (cache m') = false).
    { intros r0 m0. unfold bindM, spread3, new_array, throw, ret.
      destruct (agencies data), (oems data), (vendors data); cbn;
        intros H; injection H as _ <-; exact Hidle1. }
    unfold bindM at 1, lift.
    destruct (lowered entityType) as [[s|]|e]; [| |intros H; injection H as _ <-; exact Hidle1].
    + destruct (s =? "agency")%string; [unfold ret; intros H; injection H as _ <-; exact Hidle1|].
      destruct (s =? "oem")%string; [unfold ret; intros H; injection H as _ <-; exact Hidle1|].
      destruct (s =? "vendor")%string; [unfold ret; intros H; injection H as _ <-; exact Hidle1|].
      apply Hall.
    + apply Hall.
  - intros Hbusy. unfold loadAllData, bindM, read_cache. rewrite Hbusy.
    destruct (negb forceRefresh && negb (needsRefresh now (cache m)))%bool; reflexivity.
Qed.

End Flag.

Lemma loadAllData_flag_witness :
  let busy := mkManager (mkCache None None None None true) 0 [] in
  loadAllData (decode_table []) oem_unreadable 5000 5001 true busy = (Ok (cache busy), busy)
  /\ exists r m',
       getEntities (decode_table []) oem_unreadable 5000 5001 (VStr "agency") true
         loaded_manager = (r, m')
       /\ isLoading (cache m') = false.
Proof.
  intros busy.
  destruct (loadAllData_flag (decode_table []) oem_unreadable 5000 5001 true busy)
    as (_ & _ & Hbusy).
  destruct (loadAllData_flag (decode_table []) oem_unreadable 5000 5001 true
              loaded_manager) as (_ & Hidle & _).
  split; [apply Hbusy; reflexivity|].
  assert (Hrun : exists r m',
            getEntities (decode_table []) oem_unreadable 5000 5001 (VStr "agency") true
              loaded_manager = (r, m'))
    by (eexists; eexists; vm_compute; reflexivity).
  destruct Hrun as (r & m' & Hrun). exists r, m'. split; [exact Hrun|].
  eapply Hidle; [reflexivity | exact Hrun].
Defined.

(** ** The status of the cache *)

(** [getCacheStatus] changes nothing.  A cache it reports fresh has data,
    and each count is the length of its list.  After [clearCache] the
    report is: no data, no timestamp, stale, no entity; the arrays handed
    out before and the calls made so far are left as they were. *)
Theorem getCacheStatus_reports (now : Z) (m : manager) :
  exists st,
    getCacheStatus now m = (Ok st, m)
    /\ (isStale st = false ->
        hasData st = true
        /\ exists a o v,
             agencies (cache m) = Some a /\ oems (cache m) = Some o
             /\ vendors (cache m) = Some v
             /\ count_agencies st = Z.of_nat (List.length (items a))
             /\ count_oems st = Z.of_nat (List.length (items o))
             /\ count_vendors st = Z.of_nat (List.length (items v)))
    /\ (hasData st = false ->
        isStale st = true
        /\ count_agencies st = 0 /\ count_oems st = 0 /\ count_vendors st = 0)
    /\ (bindM clearCache (fun _ => getCacheStatus now) m
        = (Ok (mkStatus false None true 0 0 0),
           mkManager empty_cache (next_address m) (io_log m))).
Proof.
  eexists. split; [reflexivity|].
  cbn [isStale hasData count_agencies count_oems count_vendors].
  split; [|split; [|reflexivity]].
  - unfold needsRefresh. intros Hfresh.
    destruct (lastUpdated (cache m)) as [t|]; [|discriminate Hfresh].
    destruct (t =? 0)%Z; [discriminate Hfresh|].
    destruct (agencies (cache m)) as [a|]; [|discriminate Hfresh].
    destruct (oems (cache m)) as [o|]; [|discriminate Hfresh].
    destruct (vendors (cache m)) as [v|]; [|discriminate Hfresh].
    split; [reflexivity|]. exists a, o, v. repeat split.
  - intros Hnone. unfold needsRefresh.
    destruct (agencies (cache m)) as [a|]; [discriminate Hnone|].
    destruct (oems (cache m)) as [o|]; [discriminate Hnone|].
    destruct (vendors (cache m)) as [v|]; [discriminate Hnone|].
    split; [|repeat split].
    destruct (lastUpdated (cache m)) as [t|]; [|reflexivity].
    destruct (t =? 0)%Z; reflexivity.
Qed.

Lemma getCacheStatus_reports_witness :
  exists st,
    getCacheStatus 1500 loaded_manager = (Ok st, loaded_manager)
    /\ isStale st = false /\ hasData st = true /\ count_agencies st = 1.
Proof.
  destruct (getCacheStatus_reports 1500 loaded_manager) as (st & Hrun & Hfresh & _).
  exists st. split; [exact Hrun|].
  assert (Hst : isStale st = false).
  { vm_compute in Hrun. injection Hrun as <-. reflexivity. }
  split; [exact Hst|].
  destruct (Hfresh Hst) as (Hdata & a & o & v & Ha & _ & _ & Hcount & _).
  split; [exact Hdata|]. rewrite Hcount.
  vm_compute in Ha. injection Ha as <-. reflexivity.
Defined.

(** ** A forced refresh *)



(** ** The normalized record *)

Lemma getPrimaryValue_total (jsonData : value) (schemaKey : string) :
  exists v, getPrimaryValue jsonData schemaKey = Ok v.
Proof.
  unfold getPrimaryValue.
  destruct (assoc schemaKey COLUMN_SCHEMAS) as [s|]; [|eexists; reflexivity].
  destruct (negb (present (primaryValuePath s))); [eexists; reflexivity|].
  apply getNestedValue_total.
Qed.

Lemma extraction_of_nullish (jsonData : value) (schemaKey : string) :
  nullish jsonData = true ->
  getPrimaryValue jsonData schemaKey = Ok VUndef
  /\ getFiscalYearData jsonData schemaKey = Ok VUndef
  /\ getCategories jsonData schemaKey = Ok (VArr []).
Proof.
  intros Hn.
  assert (Hnested : forall path, getNestedValue jsonData path = Ok VUndef).
  { intros path. unfold getNestedValue.
    destruct jsonData; try discriminate Hn; cbn [truthy negb];
      rewrite orb_true_r; reflexivity. }
  unfold getPrimaryValue, getFiscalYearData, getCategories.
  destruct (assoc schemaKey COLUMN_SCHEMAS) as [s|]; [|repeat split].
  rewrite !Hnested. cbn [bind truthy negb].
  destruct (present (primaryValuePath s)), (present (timeSeriesPath s)),
    (present (categoriesPath s)); repeat split.
Qed.

Lemma column_lookup (schemaKey : string) (s : schema) :
  assoc schemaKey COLUMN_SCHEMAS = Some s ->
  assoc (column s) COLUMN_INDEX_MAP = Some schemaKey
  /\ assoc (dec_nat (columnIndex s)) COLUMN_INDEX_MAP = Some schemaKey
  /\ (schemaKey =? "")%string = false.
Proof.
  intros Hs.
  pose proof (proj1 (forallb_forall _ _) registry_indexed _ (assoc_In _ _ _ Hs)) as H.
  cbn [fst snd] in H. apply andb_true_iff in H. destruct H as [H Hne].
  apply andb_true_iff in H. destruct H as [Hletter Hindex].
  apply same_key_spec in Hletter, Hindex. apply negb_true_iff in Hne.
  repeat split; assumption.
Qed.

Lemma extraction_unregistered (jsonData : value) (schemaKey : string) :
  assoc schemaKey COLUMN_SCHEMAS = None ->
  getPrimaryValue jsonData schemaKey = Ok VUndef
  /\ getFiscalYearData jsonData schemaKey = Ok VUndef
  /\ getCategories jsonData schemaKey = Ok (VArr []).
Proof.
  intros Hs. unfold getPrimaryValue, getFiscalYearData, getCategories.
  rewrite Hs. repeat split.
Qed.

(** The normalized record of an unknown key is null, unless the key names
    a member the registry inherits: the record then has an undefined
    schema, no primary value, no fiscal years and no categories.  Under
    such a name and under a registered key the function raises on null
    and undefined, and whatever it raises is a [TypeError]; when it
    returns under a registered key, the record holds what the three
    extractors return, the two metadata fields of the value, and the
    letter and the index of the schema, by either of which
    [getPrimaryValueByColumn] finds the primary value of the record
    again. *)
Theorem extractNormalizedData_assembles (jsonData : value) (schemaKey : string) :
  (assoc schemaKey COLUMN_SCHEMAS = None ->
   inherited schemaKey = false ->
   extractNormalizedData jsonData schemaKey = Ok VNull)
  /\ (inherited schemaKey = true ->
      nullish jsonData = false ->
      extractNormalizedData jsonData schemaKey
      = Ok (VObj
              [ ("schema",
                 VObj [ ("column", VUndef); ("columnIndex", VUndef);
                        ("headerName", VUndef); ("structurePattern", VUndef);
                        ("dataSource", VUndef) ]);
                ("primaryValue", VUndef);
                ("fiscalYears", VUndef);
                ("categories", VArr []);
                ("metadata",
                 VObj [ ("processedDate", own_get jsonData "processed_date");
                        ("sourceFile", own_get jsonData "source_file") ]) ]))
  /\ (forall e, extractNormalizedData jsonData schemaKey = Throw e -> e = TypeError)
  /\ (inherited schemaKey = true \/ assoc schemaKey COLUMN_SCHEMAS <> None ->
      nullish jsonData = true ->
      extractNormalizedData jsonData schemaKey = Throw TypeError)
  /\ (forall s r,
        assoc schemaKey COLUMN_SCHEMAS = Some s ->
        extractNormalizedData jsonData schemaKey = Ok r ->
        getPrimaryValue jsonData schemaKey = Ok (own_get r "primaryValue")
        /\ getFiscalYearData jsonData schemaKey = Ok (own_get r "fiscalYears")
        /\ getCategories jsonData schemaKey = Ok (own_get r "categories")
        /\ own_get (own_get r "metadata") "processedDate"
           = own_get jsonData "processed_date"
        /\ own_get (own_get r "metadata") "sourceFile" = own_get jsonData "source_file"
        /\ own_get (own_get r "schema") "column" = VStr (column s)
        /\ own_get (own_get r "schema") "columnIndex" = VNum (Z.of_nat (columnIndex s))
        /\ getPrimaryValueByColumn jsonData (own_get (own_get r "schema") "column")
           = Ok (own_get r "primaryValue")
        /\ getPrimaryValueByColumn jsonData (own_get (own_get r "schema") "columnIndex")
           = Ok (own_get r "primaryValue")).
Proof.
  split; [|split; [|split; [|split]]].
  - intros Hs Hni. unfold extractNormalizedData. rewrite Hs, Hni. reflexivity.
  - intros Hi Hn. unfold extractNormalizedData.
    pose proof (inherited_unregistered _ Hi) as Hs. rewrite Hs, Hi.
    destruct (extraction_unregistered jsonData schemaKey Hs) as (-> & -> & ->).
    cbn [bind]. rewrite !(get_ok _ _ Hn). reflexivity.
  - intros e. unfold extractNormalizedData.
    destruct (assoc schemaKey COLUMN_SCHEMAS) as [s|];
      [|destruct (inherited schemaKey); [|discriminate]];
      (destruct (getPrimaryValue_total jsonData schemaKey) as (p & ->); cbn [bind];
       destruct (getFiscalYearData jsonData schemaKey) as [fy|e1] eqn:Hfy; cbn [bind];
       [|intros H; injection H as <-; eapply getFiscalYearData_throws_TypeError; exact Hfy];
       destruct (getCategories jsonData schemaKey) as [cats|e2] eqn:Hc; cbn [bind];
       [|intros H; injection H as <-; eapply getCategories_throws_TypeError; exact Hc];
       unfold get; destruct (nullish jsonData); cbn [bind]; [|discriminate];
       intros H; injection H as <-; reflexivity).
  - intros Hkey Hn. unfold extractNormalizedData.
    destruct (extraction_of_nullish jsonData schemaKey Hn) as (-> & -> & ->).
    destruct (assoc schemaKey COLUMN_SCHEMAS) as [s|] eqn:Hs.
    + cbn [bind]. unfold get. rewrite Hn. reflexivity.
    + destruct Hkey as [Hi|Hreg]; [|contradiction].
      rewrite Hi. cbn [bind]. unfold get. rewrite Hn. reflexivity.
  - intros s r Hs. unfold extractNormalizedData. rewrite Hs.
    destruct (getPrimaryValue jsonData schemaKey) as [p|e0] eqn:Hp; cbn [bind];
      [|discriminate].
    destruct (getFiscalYearData jsonData schemaKey) as [fy|e1]; cbn [bind];
      [|discriminate].
    destruct (getCategories jsonData schemaKey) as [cats|e2]; cbn [bind];
      [|discriminate].
    unfold get. destruct (nullish jsonData); cbn [bind]; [discriminate|].
    intros H; injection H as <-.
    destruct (column_lookup _ _ Hs) as (Hletter & Hindex & Hne).
    cbn [own_get assoc String.eqb Ascii.eqb Bool.eqb of_option].
    repeat (split; [reflexivity|]).
    unfold getPrimaryValueByColumn. cbn [to_str]. fold (dec_nat (columnIndex s)).
    rewrite Hletter, Hindex, Hne, Hp. split; reflexivity.
Qed.

Lemma extractNormalizedData_assembles_witness :
  (exists r,
     extractNormalizedData tier_summaries_example "sumTier" = Ok r
     /\ getPrimaryValueByColumn tier_summaries_example
          (own_get (own_get r "schema") "column") = Ok (VNum 300))
  /\ extractNormalizedData VUndef "sumTier" = Throw TypeError
  /\ extractNormalizedData tier_summaries_example "tiers" = Ok VNull
  /\ exists r,
       extractNormalizedData tier_summaries_example "constructor" = Ok r
       /\ own_get (own_get r "schema") "column" = VUndef
       /\ own_get r "categories" = VArr [].
Proof.
  destruct (extractNormalizedData_assembles tier_summaries_example "sumTier")
    as (_ & _ & _ & _ & Hfields).
  destruct (extractNormalizedData_assembles VUndef "sumTier") as (_ & _ & _ & Hnull & _).
  destruct (extractNormalizedData_assembles tier_summaries_example "tiers")
    as (Hunknown & _).
  destruct (extractNormalizedData_assembles tier_summaries_example "constructor")
    as (_ & Hmember & _).
  split; [|split; [|split]].
  - assert (Hrun : exists r, extractNormalizedData tier_summaries_example "sumTier" = Ok r)
      by (eexists; vm_compute; reflexivity).
    destruct Hrun as (r & Hrun). exists r. split; [exact Hrun|].
    destruct (Hfields _ r eq_refl Hrun) as (Hp & _ & _ & _ & _ & _ & _ & Hby & _).
    rewrite Hby, <- Hp. vm_compute. reflexivity.
  - apply Hnull; [right; discriminate | reflexivity].
  - apply Hunknown; reflexivity.
  - eexists. split; [apply Hmember; reflexivity|]. split; reflexivity.
Defined.

(** ** The columns of the data manager and the registry *)

(** Each schema but the profile has a JSON column of the data manager at
    its place in the sheet. *)
Lemma registry_mapped :
  forallb (fun e : string * schema =>
             (fst e =? "usaiProfile")%string
             || existsb (fun c : string * nat =>
                           (fst c =? manager_name (fst e))%string
                           && Nat.eqb (snd c) (S (columnIndex (snd e)))
                           && isJsonColumn (fst c))
                  shared_columns)%bool
    COLUMN_SCHEMAS = true.
Proof. vm_compute. reflexivity. Qed.

(** The data manager and the registry agree on where the columns are: an
    entity loaded from a row holds, under the data manager's name for the
    column of a schema (the profile apart, which the data manager does not
    load), the parsed cell at the index the schema gives, which is the cell
    [validateRowJsonColumns] examines for that schema; so the extractors
    can be run on it under the key of the schema. *)
Theorem entity_columns_registered (JSON_parse : string -> decoded)
  (entityType : string) (config : mapping) (i : nat) (row : list value)
  (entity : value) (schemaKey : string) (s : schema) :
  In (entityType, config) columnMappings ->
  load_row JSON_parse entityType config i row = Ok (Some entity) ->
  assoc schemaKey COLUMN_SCHEMAS = Some s ->
  schemaKey <> "usaiProfile" ->
  isJsonColumn (manager_name schemaKey) = true
  /\ own_get entity (manager_name schemaKey)
     = parseJSON JSON_parse (nth (columnIndex s) row VUndef)
  /\ exists primary, getPrimaryValue (own_get entity (manager_name schemaKey)) schemaKey
                     = Ok primary.
Proof.
  intros Hin Hload Hs Hne.
  destruct (load_row_fields JSON_parse _ _ _ _ _ Hin Hload) as (_ & Hfields).
  pose proof (proj1 (forallb_forall _ _) registry_mapped _ (assoc_In _ _ _ Hs)) as H.
  cbn [fst snd] in H. apply orb_true_iff in H. destruct H as [H|H].
  { apply String.eqb_eq in H. contradiction. }
  apply existsb_exists in H. destruct H as ([key colIndex] & Hc & H).
  cbn [fst snd] in H. apply andb_true_iff in H. destruct H as [H Hjson].
  apply andb_true_iff in H. destruct H as [Hkey Hcol].
  apply String.eqb_eq in Hkey. apply Nat.eqb_eq in Hcol. subst key colIndex.
  split; [exact Hjson|]. split.
  - rewrite (Hfields _ _ Hc Hjson). unfold cell. cbn [Nat.sub].
    rewrite Nat.sub_0_r. reflexivity.
  - apply getPrimaryValue_total.
Qed.

Lemma entity_columns_registered_witness :
  let parse := decode_table [(total_text, VObj [("total_obligated", VNum 500)])] in
  let row := [VStr "A-1"; VStr "Acme"; VStr ""; VStr total_text] in
  exists entity,
    load_row parse "agency" agency_mapping 1 row = Ok (Some entity)
    /\ own_get entity "obligations" = VObj [("total_obligated", VNum 500)]
    /\ getPrimaryValue (own_get entity "obligations") "obligations" = Ok (VNum 500).
Proof.
  intros parse row.
  assert (Hload : exists entity,
            load_row parse "agency" agency_mapping 1 row = Ok (Some entity))
    by (eexists; vm_compute; reflexivity).
  destruct Hload as (entity & Hload). exists entity. split; [exact Hload|].
  destruct (entity_columns_registered parse "agency" agency_mapping 1 row entity
              "obligations" _ (or_introl eq_refl) Hload eq_refl)
    as (_ & Hcell & _); [discriminate|].
  change (manager_name "obligations") with "obligations" in Hcell.
  rewrite Hcell. split; vm_compute; reflexivity.
Defined.

(** ** The tier and the AI flag of an entity *)

Lemma extractTier_value (fs : list (string * value)) :
  extractTier (VObj fs)
  = Ok (tier_of (own_get (VObj fs) "oneGovTier") (own_get (VObj fs) "sumTier")).
Proof.
  unfold extractTier, tier_of. rewrite !get_ok by reflexivity. cbn [bind].
  destruct (truthy (get_opt (own_get (VObj fs) "oneGovTier") "mode_tier")) eqn:H1.
  - unfold get. unfold get_opt in H1.
    destruct (nullish (own_get (VObj fs) "oneGovTier")); [discriminate H1 | reflexivity].
  - destruct (truthy (get_opt (own_get (VObj fs) "sumTier") "tier")) eqn:H2;
      [|reflexivity].
    unfold get. unfold get_opt in H2.
    destruct (nullish (own_get (VObj fs) "sumTier")); [discriminate H2 | reflexivity].
Qed.

Lemma tier_of_defined (a b : value) :
  tier_of a b = VNull \/ truthy (tier_of a b) = true.
Proof.
  unfold tier_of, get_opt.
  destruct (nullish a); cbn [truthy].
  - destruct (nullish b); cbn [truthy]; [left; reflexivity|].
    destruct (truthy (own_get b "tier")) eqn:E; [right; exact E | left; reflexivity].
  - destruct (truthy (own_get a "mode_tier")) eqn:E; [right; exact E|].
    destruct (nullish b); cbn [truthy]; [left; reflexivity|].
    destruct (truthy (own_get b "tier")) eqn:E'; [right; exact E' | left; reflexivity].
Qed.

(** The tier and the AI flag of a loaded entity, by the cells of its
    row. *)
Lemma load_row_derived (JSON_parse : string -> decoded) (entityType : string)
  (config : mapping) (i : nat) (row : list value) (entity : value) :
  In (entityType, config) columnMappings ->
  load_row JSON_parse entityType config i row = Ok (Some entity) ->
  own_get entity "tier"
  = tier_of (parseJSON JSON_parse (cell row 24)) (parseJSON JSON_parse (cell row 6))
  /\ own_get entity "hasAIProducts"
     = VBool (truthy (parseJSON JSON_parse (cell row 15))
              && (0 <? List.length (keys (parseJSON JSON_parse (cell row 15))))%nat).
Proof.
  intros Hin Hload. destruct (mapping_facts _ _ Hin) as (Hn & Hd & Hobl & Hincl).
  unfold load_row in Hload. rewrite Hn in Hload.
  destruct (if negb (truthy (nth (2 - 1) row VUndef)) then Ok true
            else t <- call_trim (nth (2 - 1) row VUndef) ;; Ok (t =? "")%string)
    as [skip|e]; cbn [bind] in Hload; [|discriminate Hload].
  destruct skip; [discriminate Hload|].
  destruct (call_trim (nth (2 - 1) row VUndef)) as [trimmed|e]; cbn [bind] in Hload;
    [|discriminate Hload].
  fold (stored_columns JSON_parse entityType config i row trimmed) in Hload.
  set (cols := stored_columns JSON_parse entityType config i row trimmed) in *.
  assert (Hcol : forall key colIndex,
             In (key, colIndex) shared_columns -> isJsonColumn key = true ->
             assoc key cols = Some (parseJSON JSON_parse (cell row colIndex))).
  { intros key colIndex Hk Hj. unfold cols.
    rewrite (stored_columns_field JSON_parse entityType config i row trimmed
               key colIndex Hd (Hincl _ Hk)).
    - rewrite Hj. reflexivity.
    - intros ->. discriminate Hj. }
  assert (Htier : assoc "oneGovTier" cols = Some (parseJSON JSON_parse (cell row 24)))
    by (apply Hcol; [vm_compute; tauto | reflexivity]).
  assert (Hsum : assoc "sumTier" cols = Some (parseJSON JSON_parse (cell row 6)))
    by (apply Hcol; [vm_compute; tauto | reflexivity]).
  assert (Hai : assoc "aiProduct" cols = Some (parseJSON JSON_parse (cell row 15)))
    by (apply Hcol; [vm_compute; tauto | reflexivity]).
  rewrite get_ok in Hload by reflexivity. cbn [bind] in Hload.
  rewrite extractTotalObligations_value in Hload. cbn [bind] in Hload.
  rewrite extractTier_value in Hload. cbn [bind] in Hload.
  unfold checkAIProducts in Hload. rewrite get_ok in Hload by reflexivity.
  cbn [bind] in Hload. injection Hload as <-.
  cbn [own_get]. rewrite !assoc_set_field.
  cbn [String.eqb Ascii.eqb Bool.eqb]. rewrite Htier, Hsum, Hai.
  split; reflexivity.
Qed.

(** The two other derived fields of a loaded entity.  Its tier is the
    mode tier of its OneGov tier column when that is truthy, else the tier
    of its tier summary column when that is truthy, else null: it is never
    undefined.  Its AI flag is a boolean: true exactly when its AI product
    column is truthy and has a key.  Both columns are the parsed cells of
    the row, so an entity whose three cells are empty has the tier null
    and the flag false. *)
Theorem load_row_tier_and_flag (JSON_parse : string -> decoded) (entityType : string)
  (config : mapping) (i : nat) (row : list value) (entity : value) :
  In (entityType, config) columnMappings ->
  load_row JSON_parse entityType config i row = Ok (Some entity) ->
  own_get entity "tier"
  = tier_of (parseJSON JSON_parse (cell row 24)) (parseJSON JSON_parse (cell row 6))
  /\ (own_get entity "tier" = VNull \/ truthy (own_get entity "tier") = true)
  /\ own_get entity "hasAIProducts"
     = VBool (truthy (parseJSON JSON_parse (cell row 15))
              && (0 <? List.length (keys (parseJSON JSON_parse (cell row 15))))%nat)
  /\ (truthy (cell row 24) = false -> truthy (cell row 6) = false ->
      own_get entity "tier" = VNull)
  /\ (truthy (cell row 15) = false -> own_get entity "hasAIProducts" = VBool false).
Proof.
  intros Hin Hload.
  destruct (load_row_derived _ _ _ _ _ _ Hin Hload) as (Htier & Hflag).
  split; [exact Htier|]. split; [rewrite Htier; apply tier_of_defined|].
  split; [exact Hflag|]. split.
  - intros H1 H2. rewrite Htier. unfold parseJSON. rewrite H1, H2. reflexivity.
  - intros H. rewrite Hflag. unfold parseJSON. rewrite H. reflexivity.
Qed.

Lemma load_row_tier_and_flag_witness :
  let parse := decode_table [("{tier}", VObj [("tier", VStr "Tier 2")])] in
  let row := [VStr "A-1"; VStr "Acme"; VStr ""; VStr ""; VStr ""; VStr "{tier}"] in
  exists entity,
    load_row parse "agency" agency_mapping 1 row = Ok (Some entity)
    /\ own_get entity "tier" = VStr "Tier 2"
    /\ own_get entity "hasAIProducts" = VBool false.
Proof.
  intros parse row.
  assert (Hload : exists entity,
            load_row parse "agency" agency_mapping 1 row = Ok (Some entity))
    by (eexists; vm_compute; reflexivity).
  destruct Hload as (entity & Hload). exists entity. split; [exact Hload|].
  destruct (load_row_tier_and_flag parse "agency" agency_mapping 1 row entity
              (or_introl eq_refl) Hload) as (Htier & _ & _ & _ & Hflag).
  split; [rewrite Htier; vm_compute; reflexivity | apply Hflag; reflexivity].
Defined.

(** ** The rows of the dashboard and of the report table *)

Lemma map_each_pure (f : value -> outcome value) (g : value -> value) (xs : list value) :
  (forall x, In x xs -> f x = Ok (g x)) ->
  map_each f xs = Ok (map g xs).
Proof.
  induction xs as [|x xs IH]; intros Hf; [reflexivity|].
  cbn [map_each map]. rewrite Hf by (left; reflexivity). cbn [bind].
  rewrite IH by (intros y Hy; apply Hf; right; exact Hy). reflexivity.
Qed.

Lemma map_each_throws (f : value -> outcome value) (xs : list value) (e : exn) :
  map_each f xs = Throw e -> exists x, In x xs /\ f x = Throw e.
Proof.
  induction xs as [|x xs IH]; [discriminate|]. cbn [map_each].
  destruct (f x) as [y|e'] eqn:Hx; cbn [bind].
  - destruct (map_each f xs) as [ys|e''] eqn:Hxs; cbn [bind]; [discriminate|].
    intros H; injection H as <-. destruct (IH eq_refl) as (x' & Hin & Hx').
    exists x'. split; [right; exact Hin | exact Hx'].
  - intros H; injection H as <-. exists x. split; [left; reflexivity | exact Hx].
Qed.

Lemma map_each_related (f : value -> outcome value) (R : value -> value -> Prop)
  (xs : list value) :
  (forall x, In x xs -> exists y, f x = Ok y /\ R x y) ->
  exists ys, map_each f xs = Ok ys /\ Forall2 R xs ys.
Proof.
  induction xs as [|x xs IH]; intros Hf.
  - exists []. split; [reflexivity | constructor].
  - destruct (Hf x (or_introl eq_refl)) as (y & Hy & HR).
    destruct (IH (fun x' Hx' => Hf x' (or_intror Hx'))) as (ys & Hys & HRs).
    exists (y :: ys). cbn [map_each]. rewrite Hy, Hys. split; [reflexivity|].
    constructor; assumption.
Qed.

Section Views.

Variable JSON_parse : string -> decoded.

Lemma load_rows_members (entityType : string) (config : mapping)
  (rows : list (list value)) :
  forall i entities loaded,
    load_rows JSON_parse entityType config i rows entities = Ok loaded ->
    forall entity, In entity loaded ->
      In entity entities
      \/ exists j row, load_row JSON_parse entityType config j row = Ok (Some entity).
Proof.
  induction rows as [|row rows IH]; intros i entities loaded Hload entity Hin.
  - cbn in Hload. injection Hload as <-. left; exact Hin.
  - cbn [load_rows] in Hload.
    destruct (load_row JSON_parse entityType config i row) as [r|e] eqn:Hrow;
      cbn [bind] in Hload; [|discriminate Hload].
    destruct (IH _ _ _ Hload entity Hin) as [Hacc|Hnew]; [|right; exact Hnew].
    destruct r as [entity'|]; [|left; exact Hacc].
    apply in_app_or in Hacc. destruct Hacc as [Hacc|[<-|[]]]; [left; exact Hacc|].
    right. exists i, row. exact Hrow.
Qed.

Lemma load_row_object (entityType : string) (config : mapping) (i : nat)
  (row : list value) (entity : value) :
  In (entityType, config) columnMappings ->
  load_row JSON_parse entityType config i row = Ok (Some entity) ->
  (exists fs, entity = VObj fs)
  /\ own_get entity "type" = VStr entityType.
Proof.
  intros Hin Hload. split.
  - destruct (mapping_facts _ _ Hin) as (Hn & _).
    pose proof (load_row_cases JSON_parse entityType config i row 2 Hn) as Hc.
    destruct (cell row 2) as [| |b|z| |t|xs|fs];
      try (rewrite Hc in Hload; discriminate Hload).
    + destruct b; rewrite Hc in Hload; discriminate Hload.
    + cbn [truthy] in Hc. destruct (negb (z =? 0)%Z); rewrite Hc in Hload;
        discriminate Hload.
    + destruct ((trim t =? "")%string || (t =? "")%string)%bool;
        [rewrite Hc in Hload; discriminate Hload|].
      destruct Hc as (tier & ai & Hc). rewrite Hc in Hload. injection Hload as <-.
      eexists; reflexivity.
  - pose proof (load_row_identity JSON_parse _ _ _ _ _ Hin Hload) as Hid.
    cbn [map] in Hid. destruct (named_rows i [row]) as [|r rest]; [discriminate Hid|].
    cbn [map] in Hid. apply (f_equal (hd (identity entity))) in Hid. cbn [hd] in Hid.
    apply (f_equal (fun x => snd (fst x))) in Hid. exact Hid.
Qed.

Lemma dashboard_row_object (fs : list (string * value)) :
  exists d, dashboard_row (VObj fs) = Ok d /\ dashboard_of_entity (VObj fs) d.
Proof.
  unfold dashboard_row. rewrite !get_ok by reflexivity. cbn [bind].
  destruct (truthy (own_get (VObj fs) "activeContracts")) eqn:Hac; cbn [bind];
    (eexists; split; [reflexivity|]; unfold dashboard_of_entity; rewrite ?Hac;
     split; [reflexivity|]; split; [|reflexivity];
     intros k Hk; cbn [In] in Hk;
     repeat (destruct Hk as [<-|Hk]; [reflexivity|]); contradiction).
Qed.

Lemma table_row_object (entityType : string) (fs : list (string * value)) :
  own_get (VObj fs) "type" = VStr entityType ->
  exists t, table_row (VObj fs) = Ok t /\ table_of_entity entityType (VObj fs) t.
Proof.
  intros Htype. unfold table_row. rewrite !get_ok by reflexivity. cbn [bind].
  rewrite Htype. cbn [call_toUpperCase bind].
  eexists. split; [reflexivity|]. unfold table_of_entity.
  split; [reflexivity|]. split.
  { intros k Hk. cbn [In] in Hk.
    destruct Hk as [<-|[<-|[<-|[]]]]; try reflexivity.
    cbn [own_get assoc String.eqb Ascii.eqb Bool.eqb of_option]. symmetry. exact Htype. }
  split; [reflexivity|]. split; [reflexivity|].
  cbn [own_get assoc String.eqb Ascii.eqb Bool.eqb of_option].
  unfold or_else.
  split; [reflexivity|]. split.
  - destruct (truthy (of_option (assoc "tier" fs))) eqn:E; [exact E | reflexivity].
  - match goal with
    | |- truthy (if truthy ?x then _ else _) = true \/ _ =>
        destruct (truthy x) eqn:E; [left; exact E | right; reflexivity]
    end.
Qed.

(** The rows the dashboard and the report table get of a loaded sheet.
    Neither transformation raises on the entities [loadEntitySheet]
    returns, and each gives one row per entity, in the order of the
    entities.  A dashboard row has eight fields, the JSON columns not among
    them: the identity and the derived fields of its entity, and as its
    contract count the number of keys of the active contracts column, zero
    when that is empty.  A table row has the type in capitals as its
    category, a tier that is never empty (N/A stands for none), and a
    2024 amount that is truthy or zero. *)
Theorem views_of_sheet (spreadsheet : source) (entityType : string) (config : mapping)
  (m m' : manager) (l : entity_list) :
  In (entityType, config) columnMappings ->
  loadEntitySheet JSON_parse spreadsheet entityType m = (Ok l, m') ->
  exists drows trows,
    transformForDashboard (items l) = Ok drows
    /\ transformForTable (items l) = Ok trows
    /\ Forall2 dashboard_of_entity (items l) drows
    /\ Forall2 (table_of_entity entityType) (items l) trows.
Proof.
  intros Hin Hrun.
  assert (Hloaded : forall entity, In entity (items l) ->
            exists j row, load_row JSON_parse entityType config j row = Ok (Some entity)).
  { assert (Hconfig : assoc entityType columnMappings = Some config).
    { destruct Hin as [H|[H|[H|[]]]]; injection H as <- <-; reflexivity. }
    unfold loadEntitySheet in Hrun. rewrite Hconfig in Hrun.
    unfold bindM, call_service, new_array, lift, ret, throw in Hrun. cbn in Hrun.
    destruct (sheet spreadsheet (sheetName config)) as [| |values]; cbn in Hrun.
    - injection Hrun as <- _. intros entity [].
    - discriminate Hrun.
    - destruct (load_rows JSON_parse entityType config 1 (tl values) []) as [loaded|e]
        eqn:Hload; [|discriminate Hrun].
      injection Hrun as <- _. cbn [items]. intros entity Hentity.
      destruct (load_rows_members _ _ _ _ _ _ Hload entity Hentity) as [[]|H].
      exact H. }
  destruct (map_each_related dashboard_row dashboard_of_entity (items l))
    as (drows & Hd & HRd).
  { intros entity Hentity. destruct (Hloaded _ Hentity) as (j & row & Hload).
    destruct (load_row_object _ _ _ _ _ Hin Hload) as ((fs & ->) & _).
    apply dashboard_row_object. }
  destruct (map_each_related table_row (table_of_entity entityType) (items l))
    as (trows & Ht & HRt).
  { intros entity Hentity. destruct (Hloaded _ Hentity) as (j & row & Hload).
    destruct (load_row_object _ _ _ _ _ Hin Hload) as ((fs & ->) & Htype).
    apply table_row_object, Htype. }
  exists drows, trows. repeat split; assumption.
Qed.

End Views.

Lemma views_of_sheet_witness :
  exists l m' drows trows,
    loadEntitySheet (decode_table []) oem_unreadable "agency" (mkManager empty_cache 0 [])
    = (Ok l, m')
    /\ transformForDashboard (items l) = Ok drows
    /\ transformForTable (items l) = Ok trows
    /\ map (fun t => own_get t "category") trows = [VStr "AGENCY"]
    /\ map (fun t => own_get t "tier") trows = [VStr "N/A"]
    /\ map (fun d => own_get d "contractCount") drows = [VNum 0].
Proof.
  assert (Hrun : exists l m',
            loadEntitySheet (decode_table []) oem_unreadable "agency"
              (mkManager empty_cache 0 []) = (Ok l, m'))
    by (eexists; eexists; vm_compute; reflexivity).
  destruct Hrun as (l & m' & Hrun).
  destruct (views_of_sheet (decode_table []) oem_unreadable "agency" agency_mapping
              _ _ _ (or_introl eq_refl) Hrun) as (drows & trows & Hd & Ht & _).
  exists l, m', drows, trows. split; [exact Hrun|].
  split; [exact Hd|]. split; [exact Ht|].
  vm_compute in Hrun. injection Hrun as <- _.
  vm_compute in Hd. injection Hd as <-.
  vm_compute in Ht. injection Ht as <-.
  vm_compute. repeat split.
Defined.

(** ** The reference tables and the registry *)

Lemma registry_referenced : forallb referenced COLUMN_SCHEMAS = true.
Proof. vm_compute. reflexivity. Qed.

Lemma same_path_spec (a b : option string) : same_path a b = true -> a = b.
Proof.
  destruct a as [x|], b as [y|]; simpl; intros H; try discriminate H; [|reflexivity].
  apply String.eqb_eq in H. subst y. reflexivity.
Qed.

Lemma mem_spec (x : string) (l : list string) : mem x l = true <-> In x l.
Proof.
  unfold mem. rewrite existsb_exists. split.
  - intros (y & Hy & E). apply String.eqb_eq in E. subst y. exact Hy.
  - intros H. exists x. split; [exact H | apply String.eqb_refl].
Qed.

(** The reference tables agree with the registry, but for the categories
    of column X.  For every registered schema the quick reference gives,
    under the letter of the schema, its key and its primary value path,
    lists the letter under its data source and its pattern and under no
    other, and so does [STRUCTURE_PATTERNS] for the letter and the key.
    The categories path of the quick reference is the schema's as well,
    except for [oneGovTier]: there the quick reference gives the path of
    the schema's time series, and the schema has no categories path, so
    that [getCategories] answers the empty list under that key whatever the
    value holds. *)
Theorem QUICK_REFERENCE_agrees (schemaKey : string) (s : schema) :
  assoc schemaKey COLUMN_SCHEMAS = Some s ->
  assoc (column s) (columnToSchema QUICK_REFERENCE) = Some schemaKey
  /\ assoc (column s) (primaryValuePaths QUICK_REFERENCE) = Some (primaryValuePath s)
  /\ (schemaKey <> "oneGovTier" ->
      assoc (column s) (categoriesPaths QUICK_REFERENCE) = Some (categoriesPath s))
  /\ (schemaKey = "oneGovTier" ->
      assoc (column s) (categoriesPaths QUICK_REFERENCE) = Some (timeSeriesPath s)
      /\ assoc (column s) (categoriesPaths QUICK_REFERENCE) = Some (Some "fiscal_year_tiers")
      /\ categoriesPath s = None
      /\ forall jsonData, getCategories jsonData schemaKey = Ok (VArr []))
  /\ (forall source,
        In (column s) (listed (dataSources QUICK_REFERENCE) source)
        <-> source = dataSource s)
  /\ (forall p,
        In (column s) (listed (patternsByColumn QUICK_REFERENCE) p)
        <-> p = pattern_name (structurePattern s))
  /\ (forall p d,
        assoc p STRUCTURE_PATTERNS = Some d ->
        (In (column s) (pattern_columns d) <-> p = pattern_name (structurePattern s))
        /\ (In schemaKey (schemaKeys d) <-> p = pattern_name (structurePattern s))).
Proof.
  intros Hs.
  pose proof (proj1 (forallb_forall _ _) registry_referenced _ (assoc_In _ _ _ Hs)) as H.
  unfold referenced in H.
  apply andb_true_iff in H. destruct H as [H Hdefs].
  apply andb_true_iff in H. destruct H as [H Hpatterns].
  apply andb_true_iff in H. destruct H as [H Hsources].
  apply andb_true_iff in H. destruct H as [H Hcats].
  apply andb_true_iff in H. destruct H as [Hkey Hprimary].
  split; [apply same_key_spec, Hkey|].
  split.
  { destruct (assoc (column s) (primaryValuePaths QUICK_REFERENCE)) as [p|];
      [|discriminate Hprimary].
    apply same_path_spec in Hprimary. subst p. reflexivity. }
  destruct (assoc (column s) (categoriesPaths QUICK_REFERENCE)) as [p|] eqn:Hp;
    [|discriminate Hcats].
  split; [|split].
  - intros Hne. destruct (schemaKey =? "oneGovTier")%string eqn:E.
    + apply String.eqb_eq in E. contradiction.
    + apply same_path_spec in Hcats. subst p. reflexivity.
  - intros ->. cbn [String.eqb Ascii.eqb Bool.eqb] in Hcats.
    apply andb_true_iff in Hcats. destruct Hcats as [Hseries Hnone].
    apply same_path_spec in Hseries. subst p.
    vm_compute in Hs. injection Hs as <-.
    split; [reflexivity|]. split; [reflexivity|]. split; [reflexivity|].
    intros jsonData. reflexivity.
  - assert (Hlisted : forall (table : list (string * list string)) (name : string),
              forallb (fun entry : string * list string =>
                         Bool.eqb (mem (column s) (snd entry)) (fst entry =? name)%string)
                table = true ->
              existsb (String.eqb name) (map fst table) = true ->
              forall other, In (column s) (listed table other) <-> other = name).
    { intros table name Hall Hname other. split.
      - intros Hin. unfold listed in Hin.
        destruct (assoc other table) as [l|] eqn:Hl; [|contradiction].
        pose proof (proj1 (forallb_forall _ _) Hall _ (assoc_In _ _ _ Hl)) as H.
        cbn [fst snd] in H. rewrite (proj2 (mem_spec _ _) Hin) in H.
        apply eqb_prop in H. symmetry in H. apply String.eqb_eq in H. exact H.
      - intros ->. unfold listed.
        destruct (assoc name table) as [l|] eqn:Hl.
        + pose proof (proj1 (forallb_forall _ _) Hall _ (assoc_In _ _ _ Hl)) as H.
          cbn [fst snd] in H. rewrite String.eqb_refl in H.
          apply eqb_prop in H. apply mem_spec, H.
        + exfalso. clear - Hname Hl. induction table as [|[k v] table IH];
            [discriminate Hname|].
          cbn in Hname, Hl. rewrite String.eqb_sym in Hname.
          destruct (k =? name)%string; [discriminate Hl|]. apply IH; assumption. }
    split; [|split].
    + apply Hlisted; [exact Hsources|].
      clear - Hs. apply assoc_In in Hs. revert Hs. unfold COLUMN_SCHEMAS. cbn [In].
      intros H.
      repeat (destruct H as [H|H]; [injection H as _ <-; reflexivity|]).
      contradiction.
    + apply Hlisted; [exact Hpatterns|].
      destruct (structurePattern s); reflexivity.
    + intros p' d Hd.
      pose proof (proj1 (forallb_forall _ _) Hdefs _ (assoc_In _ _ _ Hd)) as H.
      cbn [fst snd] in H. apply andb_true_iff in H. destruct H as [Hcol Hk].
      apply eqb_prop in Hcol, Hk. rewrite <- !mem_spec, Hcol, Hk.
      split; apply String.eqb_eq.
Qed.

Lemma QUICK_REFERENCE_agrees_witness :
  assoc "U" (columnToSchema QUICK_REFERENCE) = Some "fasOem"
  /\ assoc "U" (categoriesPaths QUICK_REFERENCE) = Some (Some "top_10_oem_summaries")
  /\ (In "U" (listed (dataSources QUICK_REFERENCE) "BIC") <-> "BIC" = "FAS").
Proof.
  destruct (QUICK_REFERENCE_agrees "fasOem" _ eq_refl)
    as (Hkey & _ & Hcats & _ & Hsource & _).
  split; [exact Hkey|]. split; [apply Hcats; discriminate | apply Hsource].
Defined.

(** ** The plain columns of an entity *)

(** Each plain column of the data manager is listed in [NON_JSON_COLUMNS]
    at its place in the sheet. *)
Lemma plain_columns_listed :
  forallb (fun m : string * mapping =>
             forallb (fun c : string * nat =>
                        isJsonColumn (fst c)
                        || existsb (fun e : string * (nat * string) =>
                                      Nat.eqb (fst (snd e)) (snd c - 1))
                             NON_JSON_COLUMNS)%bool
               (columns (snd m)))
    columnMappings = true.
Proof. vm_compute. reflexivity. Qed.

(** No place of the sheet is both a JSON column of the registry and a
    plain column. *)
Lemma plain_columns_apart :
  forallb (fun e : string * (nat * string) =>
             negb (existsb (fun r : string * schema =>
                              Nat.eqb (columnIndex (snd r)) (fst (snd e)))
                     COLUMN_SCHEMAS))
    NON_JSON_COLUMNS = true.
Proof. vm_compute. reflexivity. Qed.

(** The data manager copies the plain columns as they are.  A loaded entity
    holds, under each column name that is not a JSON column (the name
    apart, which is trimmed), the cell of the row itself, unparsed; the
    place of the column is one [NON_JSON_COLUMNS] lists, and none the
    registry gives a schema for. *)
Theorem load_row_plain_columns (JSON_parse : string -> decoded) (entityType : string)
  (config : mapping) (i : nat) (row : list value) (entity : value)
  (key : string) (colIndex : nat) :
  In (entityType, config) columnMappings ->
  load_row JSON_parse entityType config i row = Ok (Some entity) ->
  In (key, colIndex) (columns config) ->
  isJsonColumn key = false ->
  key <> "name" ->
  own_get entity key = cell row colIndex
  /\ (exists letter label,
        In (letter, ((colIndex - 1)%nat, label)) NON_JSON_COLUMNS)
  /\ (forall schemaKey s,
        assoc schemaKey COLUMN_SCHEMAS = Some s -> columnIndex s <> (colIndex - 1)%nat).
Proof.
  intros Hin Hload Hkey Hplain Hname.
  destruct (mapping_facts _ _ Hin) as (Hn & Hd & _ & _).
  assert (Hlisted : exists letter label,
            In (letter, ((colIndex - 1)%nat, label)) NON_JSON_COLUMNS).
  { pose proof (proj1 (forallb_forall _ _) plain_columns_listed _ Hin) as H.
    cbn [snd] in H.
    pose proof (proj1 (forallb_forall _ _) H _ Hkey) as H'.
    cbn [fst snd] in H'. rewrite Hplain in H'. cbn [orb] in H'.
    apply existsb_exists in H'. destruct H' as ([letter [index label]] & He & Hi).
    cbn [fst snd] in Hi. apply Nat.eqb_eq in Hi. subst index.
    exists letter, label. exact He. }
  split; [|split; [exact Hlisted|]].
  - pose proof (load_row_cases JSON_parse entityType config i row 2 Hn) as Hc.
    destruct (cell row 2) as [| |b|z| |t|xs|fs];
      try (rewrite Hc in Hload; discriminate Hload).
    + destruct b; rewrite Hc in Hload; discriminate Hload.
    + cbn [truthy] in Hc. destruct (negb (z =? 0)%Z); rewrite Hc in Hload;
        discriminate Hload.
    + destruct ((trim t =? "")%string || (t =? "")%string)%bool;
        [rewrite Hc in Hload; discriminate Hload|].
      destruct Hc as (tier & ai & Hc). rewrite Hc in Hload. injection Hload as <-.
      cbn [own_get]. rewrite !assoc_set_field.
      assert (Hderived : forall derived,
                In derived ["hasAIProducts"; "tier"; "totalObligations"] ->
                (derived =? key)%string = false).
      { intros derived Hderived. destruct (derived =? key)%string eqn:E; [|reflexivity].
        apply String.eqb_eq in E. subst key. exfalso.
        clear - Hkey Hderived Hin.
        destruct Hin as [H|[H|[H|[]]]]; injection H as <- <-;
          cbn [columns shared_columns In] in Hkey;
          cbn [In] in Hderived;
          destruct Hderived as [<-|[<-|[<-|[]]]];
          repeat (destruct Hkey as [Hkey|Hkey]; [discriminate Hkey|]);
          contradiction. }
      rewrite !Hderived by (cbn [In]; tauto).
      rewrite (stored_columns_field JSON_parse entityType config i row (trim t)
                 key colIndex Hd Hkey Hname), Hplain.
      reflexivity.
  - intros schemaKey s Hs Hindex. destruct Hlisted as (letter & label & He).
    pose proof (proj1 (forallb_forall _ _) plain_columns_apart _ He) as H.
    cbn [fst snd] in H. apply negb_true_iff in H.
    assert (Hex : existsb (fun r : string * schema =>
                             Nat.eqb (columnIndex (snd r)) (colIndex - 1))
                    COLUMN_SCHEMAS = true).
    { apply existsb_exists. exists (schemaKey, s).
      split; [apply assoc_In, Hs|]. cbn [snd]. apply Nat.eqb_eq, Hindex. }
    rewrite Hex in H. discriminate H.
Qed.

Lemma load_row_plain_columns_witness :
  let row := [VNum 123456; VStr "Acme"; VStr "{not parsed}"] in
  exists entity,
    load_row (decode_table []) "oem" (mkMapping "OEM" (("duns", 1%nat) :: shared_columns))
      1 row = Ok (Some entity)
    /\ own_get entity "duns" = VNum 123456
    /\ own_get entity "parentCompany" = VStr "{not parsed}".
Proof.
  intros row.
  assert (Hload : exists entity,
            load_row (decode_table []) "oem"
              (mkMapping "OEM" (("duns", 1%nat) :: shared_columns)) 1 row
            = Ok (Some entity))
    by (eexists; vm_compute; reflexivity).
  destruct Hload as (entity & Hload). exists entity. split; [exact Hload|].
  split.
  - refine (proj1 (load_row_plain_columns (decode_table []) "oem" _ 1 row entity
                     "duns" 1 (or_intror (or_introl eq_refl)) Hload _ eq_refl _)).
    + left; reflexivity.
    + discriminate.
  - refine (proj1 (load_row_plain_columns (decode_table []) "oem" _ 1 row entity
                     "parentCompany" 3 (or_intror (or_introl eq_refl)) Hload _ eq_refl _)).
    + right; right; left; reflexivity.
    + discriminate.
Defined.

(** ** The trends and the registry *)

Lemma forEach_ext {A S : Type} (f g : S -> A -> outcome S) (xs : list A) :
  (forall s x, In x xs -> f s x = g s x) ->
  forall s, forEach f xs s = forEach g xs s.
Proof.
  induction xs as [|x xs IH]; intros Hfg s; [reflexivity|].
  rewrite !forEach_cons, Hfg by (left; reflexivity).
  destruct (g s x) as [s'|e]; cbn [bind]; [|reflexivity].
  apply IH. intros s0 y Hy. apply Hfg. right; exact Hy.
Qed.

Lemma get_inv (v x : value) (k : string) :
  get v k = Ok x -> nullish v = false /\ x = own_get v k.
Proof.
  unfold get. destruct (nullish v); [discriminate|].
  intros H; injection H as <-. split; reflexivity.
Qed.

Lemma getFiscalYearData_falsy (jsonData : value) (schemaKey : string) :
  truthy jsonData = false -> getFiscalYearData jsonData schemaKey = Ok VUndef.
Proof.
  intros Ht.
  assert (Hnested : forall path, getNestedValue jsonData path = Ok VUndef).
  { intros path. unfold getNestedValue. rewrite Ht. cbn [negb].
    rewrite orb_true_r. reflexivity. }
  unfold getFiscalYearData.
  destruct (assoc schemaKey COLUMN_SCHEMAS) as [s|]; [|reflexivity].
  rewrite !Hnested. cbn [bind truthy negb].
  destruct (present (timeSeriesPath s)), (present (categoriesPath s)); reflexivity.
Qed.

Lemma summed_summaries_registry (jsonData : value) (schemaKey field : string)
  (s : schema) (fiscalYearData : list (string * value)) :
  assoc schemaKey COLUMN_SCHEMAS = Some s ->
  timeSeriesPath s = None ->
  categoriesPath s = Some field ->
  split "." field = [field] ->
  field <> "" ->
  truthy jsonData = true ->
  isArray (own_get jsonData field) = false ->
  (fyData <- summed_summaries jsonData field ;; Ok (accumulate fiscalYearData fyData))
  = (fyData <- getFiscalYearData jsonData schemaKey ;;
     Ok (accumulate fiscalYearData fyData)).
Proof.
  intros Hs Hseries Hcats Hsplit Hne Ht Harr.
  unfold summed_summaries, getFiscalYearData. rewrite Hs, Hseries, Hcats.
  rewrite (present_some _ Hne). cbn [present].
  rewrite getNestedValue_resolved, (resolved_one _ _ Ht Hsplit Hne).
  rewrite !(get_truthy _ _ Ht). cbn [bind].
  destruct (truthy (own_get jsonData field)) eqn:Hc; cbn [negb bind]; [|reflexivity].
  assert (Hloop : (match own_get jsonData field with
                   | VArr items => forEach array_years_body items []
                   | _ => forEach map_years_body (values (own_get jsonData field)) []
                   end)
                  = forEach map_years_body (values (own_get jsonData field)) []).
  { destruct (own_get jsonData field); try reflexivity. discriminate Harr. }
  rewrite Hloop.
  destruct (forEach map_years_body (values (own_get jsonData field)) []) as [fy|e];
    cbn [bind]; [|reflexivity].
  destruct fy as [|entry fy]; reflexivity.
Qed.

(** For the four columns it treats on their own, [getFiscalYearTrends]
    adds up what the registry extracts: each entity contributes the fiscal
    years [getFiscalYearData] finds in its column under the same key,
    provided the container of the summaries is not an array (for
    [bicOem], whose years are read directly, without a proviso).  For any
    other column it reads four fields at the top of the column only, so
    that entities whose columns have none of them give the empty table,
    whatever their categories hold.  What [getEntities] raises, it
    raises. *)
Theorem getFiscalYearTrends_by_registry (JSON_parse : string -> decoded)
  (spreadsheet : source) (now later : Z) (entityType : value) (columnId : string)
  (m : manager) :
  (forall e m',
     getEntities JSON_parse spreadsheet now later entityType false m = (Throw e, m') ->
     forall selectedEntities,
       getFiscalYearTrends JSON_parse spreadsheet now later entityType columnId
         selectedEntities m = (Throw e, m'))
  /\ (forall l m',
        getEntities JSON_parse spreadsheet now later entityType false m = (Ok (Some l), m') ->
        In columnId ["reseller"; "bicOem"; "fasOem"; "fundingAgency"] ->
        (forall entity s,
           In entity (items l) ->
           columnId <> "bicOem" ->
           assoc columnId COLUMN_SCHEMAS = Some s ->
           isArray (own_get (own_get entity columnId) (field_name (categoriesPath s)))
           = false) ->
        getFiscalYearTrends JSON_parse spreadsheet now later entityType columnId [] m
        = (fiscalYearData <- forEach (registry_body columnId) (items l) [] ;;
           Ok (VObj fiscalYearData),
           m'))
  /\ (forall l m',
        getEntities JSON_parse spreadsheet now later entityType false m = (Ok (Some l), m') ->
        ~ In columnId ["reseller"; "bicOem"; "fasOem"; "fundingAgency"] ->
        (forall entity field,
           In entity (items l) ->
           In field [ "fiscal_year_obligations"; "fiscal_years"; "yearly_totals";
                      "fiscal_year_breakdown" ] ->
           nullish entity = false
           /\ truthy (own_get (own_get entity columnId) field) = false) ->
        getFiscalYearTrends JSON_parse spreadsheet now later entityType columnId [] m
        = (Ok (VObj []), m')).
Proof.
  split; [|split].
  - intros e m' Hrun selectedEntities. unfold getFiscalYearTrends, bindM at 1.
    rewrite Hrun. reflexivity.
  - intros l m' Hrun Hcol Hshape. unfold getFiscalYearTrends, bindM at 1. rewrite Hrun.
    cbn [List.length Nat.ltb Nat.leb]. unfold bindM, ret, lift.
    rewrite (forEach_ext (trend_body columnId) (registry_body columnId)).
    + destruct (forEach (registry_body columnId) (items l) []); reflexivity.
    + intros acc entity Hentity. unfold trend_body, registry_body.
      destruct (get entity columnId) as [jsonData|e] eqn:Hget; cbn [bind]; [|reflexivity].
      destruct (truthy jsonData) eqn:Ht; cbn [negb].
      { destruct (get_inv _ _ _ Hget) as (Hdefined & ->).
        assert (Hnot : columnId <> "bicOem" ->
                       forall s, assoc columnId COLUMN_SCHEMAS = Some s ->
                       isArray (own_get (own_get entity columnId)
                                  (field_name (categoriesPath s))) = false).
        { intros Hne s Hs. apply (Hshape entity s Hentity Hne Hs). }
        cbn [In] in Hcol. destruct Hcol as [<-|[<-|[<-|[<-|[]]]]].
        - apply (summed_summaries_registry _ "reseller" _ _ acc eq_refl);
            try reflexivity; try assumption; try discriminate.
          apply (Hnot ltac:(discriminate) _ eq_refl).
        - unfold entity_years, getFiscalYearData. cbn [String.eqb Ascii.eqb Bool.eqb].
          cbn [assoc COLUMN_SCHEMAS String.eqb Ascii.eqb Bool.eqb timeSeriesPath present negb].
          rewrite getNestedValue_resolved, (resolved_one _ _ Ht) by
            (reflexivity || discriminate).
          rewrite (get_truthy _ _ Ht). reflexivity.
        - apply (summed_summaries_registry _ "fasOem" _ _ acc eq_refl);
            try reflexivity; try assumption; try discriminate.
          apply (Hnot ltac:(discriminate) _ eq_refl).
        - apply (summed_summaries_registry _ "fundingAgency" _ _ acc eq_refl);
            try reflexivity; try assumption; try discriminate.
          apply (Hnot ltac:(discriminate) _ eq_refl). }
      rewrite (getFiscalYearData_falsy _ _ Ht). cbn [bind]. reflexivity.
  - intros l m' Hrun Hcol Hnone. unfold getFiscalYearTrends, bindM at 1. rewrite Hrun.
    cbn [List.length Nat.ltb Nat.leb]. unfold bindM, ret, lift.
    rewrite (forEach_pure (trend_body columnId) (fun acc _ => acc)).
    + assert (Hfold : forall (xs : list value) (acc : list (string * value)),
                fold_left (fun acc _ => acc) xs acc = acc)
        by (induction xs as [|x xs IH]; intros acc; [reflexivity | apply IH]).
      rewrite Hfold. reflexivity.
    + intros acc entity Hentity. unfold trend_body.
      assert (Hfield : forall field,
                In field [ "fiscal_year_obligations"; "fiscal_years"; "yearly_totals";
                           "fiscal_year_breakdown" ] ->
                truthy (own_get (own_get entity columnId) field) = false)
        by (intros field Hf; apply (Hnone entity field Hentity Hf)).
      destruct (Hnone entity "fiscal_years" Hentity ltac:(cbn [In]; tauto)) as (Hd & _).
      rewrite (get_ok _ _ Hd). cbn [bind].
      destruct (truthy (own_get entity columnId)) eqn:Ht; cbn [negb]; [|reflexivity].
      unfold entity_years.
      assert (Hneq : forall k, In k ["reseller"; "bicOem"; "fasOem"; "fundingAgency"] ->
                               (columnId =? k)%string = false).
      { intros k Hk. destruct (columnId =? k)%string eqn:E; [|reflexivity].
        apply String.eqb_eq in E. subst k. contradiction. }
      rewrite !Hneq by (cbn [In]; tauto).
      rewrite !(get_truthy _ _ Ht). cbn [bind].
      rewrite !Hfield by (cbn [In]; tauto). cbn [bind].
      unfold accumulate. rewrite Hfield by (cbn [In]; tauto). reflexivity.
Qed.

Lemma getFiscalYearTrends_by_registry_witness :
  let cisco :=
    VObj [ ("name", VStr "Cisco");
           ("fasOem",
            VObj [ ("top_10_oem_summaries",
                    VObj [ ("A", VObj [("fiscal_years", VObj [("2024", VNum 70)])]);
                           ("B", VObj [("fiscal_years", VObj [("2024", VNum 30);
                                                             ("2025", VNum 5)])]) ]) ]) ] in
  let m := mkManager (mkCache (Some (mkList 0 [])) (Some (mkList 1 [cisco; cisco]))
                        (Some (mkList 2 [])) (Some 1000) false) 3 [] in
  getFiscalYearTrends (decode_table []) oem_unreadable 1500 1501 (VStr "OEM") "fasOem" [] m
  = (Ok (VObj [("2024", VNum 200); ("2025", VNum 10)]), m).
Proof.
  intros cisco m.
  destruct (getFiscalYearTrends_by_registry (decode_table []) oem_unreadable 1500 1501
              (VStr "OEM") "fasOem" m) as (_ & Hsum & _).
  rewrite (Hsum (mkList 1 [cisco; cisco]) m).
  - vm_compute. reflexivity.
  - vm_compute. reflexivity.
  - cbn [In]. tauto.
  - intros entity s Hentity _ Hs. vm_compute in Hs. injection Hs as <-.
    cbn [items In] in Hentity. destruct Hentity as [<-|[<-|[]]]; reflexivity.
Defined.

(** ** All entities, for the dashboard *)

Lemma dashboard_row_defined (entity : value) :
  nullish entity = false ->
  exists d, dashboard_row entity = Ok d /\ dashboard_of_entity entity d.
Proof.
  intros Hd. unfold dashboard_row. rewrite !(get_ok _ _ Hd). cbn [bind].
  destruct (truthy (own_get entity "activeContracts")) eqn:Hac; cbn [bind];
    (eexists; split; [reflexivity|]; unfold dashboard_of_entity; rewrite ?Hac;
     split; [reflexivity|]; split; [|reflexivity];
     intros k Hk; cbn [In] in Hk;
     repeat (destruct Hk as [<-|Hk]; [reflexivity|]); contradiction).
Qed.

Lemma dashboard_row_nullish (entity : value) :
  nullish entity = true -> dashboard_row entity = Throw TypeError.
Proof. intros Hd. unfold dashboard_row, get. rewrite Hd. reflexivity. Qed.

Section AllEntities.

Variable JSON_parse : string -> decoded.
Variable spreadsheet : source.
Variable transformForReportBuilder :
  option entity_list -> value -> value -> M (option entity_list).

Lemma getAllEntities_unfold (now later : Z) (m : manager) :
  getAllEntities JSON_parse spreadsheet transformForReportBuilder now later m
  = match getEntities JSON_parse spreadsheet now later VUndef false m with
    | (Ok (Some l), m') =>
        match transformForDashboard (items l) with
        | Ok rows =>
            (Ok (mkList (next_address m') rows),
             mkManager (cache m') (S (next_address m')) (io_log m'))
        | Throw _ =>
            (Ok (mkList (next_address m') []),
             mkManager (cache m') (S (next_address m')) (io_log m'))
        end
    | (_, m') =>
        (Ok (mkList (next_address m') []),
         mkManager (cache m') (S (next_address m')) (io_log m'))
    end.
Proof.
  unfold getAllEntities, try_catch, getEntitiesForView, bindM at 1.
  unfold bindM at 1. unfold bindM at 1. cbn [opt_entityType no_options].
  destruct (getEntities JSON_parse spreadsheet now later VUndef false m)
    as [[[l|]|e] m']; cbn; try reflexivity.
  unfold bindM, lift, new_array, ret.
  destruct (transformForDashboard (items l)); reflexivity.
Qed.

(** [getAllEntities] never raises: whatever goes wrong, loading or
    transforming, it answers a new empty array.  When the load fails it
    answers the empty array over the manager the failed load leaves.  Over
    a cache that is not stale and holds no null entity it answers, without
    a call to the service, the dashboard rows of the agencies, then of the
    OEMs, then of the vendors; one null entity in the cache makes it answer
    the empty array instead. *)
Theorem getAllEntities_never_raises (now later : Z) (m : manager) :
  (exists l m',
     getAllEntities JSON_parse spreadsheet transformForReportBuilder now later m
     = (Ok l, m'))
  /\ (forall e m1,
        loadAllData JSON_parse spreadsheet now later false m = (Throw e, m1) ->
        getAllEntities JSON_parse spreadsheet transformForReportBuilder now later m
        = (Ok (mkList (next_address m1) []),
           mkManager (cache m1) (S (next_address m1)) (io_log m1)))
  /\ (forall a o v,
        needsRefresh now (cache m) = false ->
        agencies (cache m) = Some a ->
        oems (cache m) = Some o ->
        vendors (cache m) = Some v ->
        let all := (items a ++ items o ++ items v)%list in
        (forallb (fun entity => negb (nullish entity)) all = true ->
         exists rows,
           getAllEntities JSON_parse spreadsheet transformForReportBuilder now later m
           = (Ok (mkList (S (next_address m)) rows),
              mkManager (cache m) (S (S (next_address m))) (io_log m))
           /\ Forall2 dashboard_of_entity all rows)
        /\ (existsb nullish all = true ->
            getAllEntities JSON_parse spreadsheet transformForReportBuilder now later m
            = (Ok (mkList (S (next_address m)) []),
               mkManager (cache m) (S (S (next_address m))) (io_log m)))).
Proof.
  split; [|split].
  - rewrite getAllEntities_unfold.
    destruct (getEntities JSON_parse spreadsheet now later VUndef false m)
      as [[[l|]|e] m']; try (eexists; eexists; reflexivity).
    destruct (transformForDashboard (items l)); eexists; eexists; reflexivity.
  - intros e m1 Hload. rewrite getAllEntities_unfold.
    unfold getEntities, bindM at 1. rewrite Hload. reflexivity.
  - intros a o v Hfresh Ha Ho Hv all.
    assert (Hget : getEntities JSON_parse spreadsheet now later VUndef false m
                   = (Ok (Some (mkList (next_address m) all)),
                      mkManager (cache m) (S (next_address m)) (io_log m))).
    { unfold getEntities, bindM at 1, loadAllData, bindM at 1, read_cache at 1.
      rewrite Hfresh. cbn [negb andb]. unfold read_cache at 1.
      unfold bindM, lift, lowered, spread3, new_array, ret. rewrite Ha, Ho, Hv.
      reflexivity. }
    rewrite getAllEntities_unfold, Hget. cbn [items next_address cache io_log].
    split.
    + intros Hall.
      destruct (map_each_related dashboard_row dashboard_of_entity all) as (rows & Hr & HR).
      { intros entity Hentity. apply dashboard_row_defined.
        apply negb_true_iff. exact (proj1 (forallb_forall _ _) Hall _ Hentity). }
      exists rows. unfold transformForDashboard. rewrite Hr. split; [reflexivity | exact HR].
    + intros Hnull. apply existsb_exists in Hnull. destruct Hnull as (bad & Hbad & Hn).
      destruct (transformForDashboard all) as [rows|e] eqn:Hrows; [|reflexivity].
      exfalso. unfold transformForDashboard in Hrows.
      clear - Hbad Hn Hrows. revert rows Hrows.
      induction all as [|x xs IH]; intros rows Hrows; [contradiction|].
      cbn [map_each] in Hrows. destruct Hbad as [<-|Hbad].
      * rewrite (dashboard_row_nullish _ Hn) in Hrows. discriminate Hrows.
      * destruct (dashboard_row x); cbn [bind] in Hrows; [|discriminate Hrows].
        destruct (map_each dashboard_row xs) as [ys|]; [|discriminate Hrows].
        apply (IH Hbad ys eq_refl).
Qed.

End AllEntities.

Lemma getAllEntities_never_raises_witness :
  let unsorted := fun (_ : option entity_list) (_ _ : value) => throw TypeError in
  exists rows,
    getAllEntities (decode_table []) oem_unreadable unsorted 1500 1501 loaded_manager
    = (Ok (mkList 4 rows), mkManager (cache loaded_manager) 5 [])
    /\ map (fun d => own_get d "name") rows
       = [VStr "Old Agency"; VStr "Old OEM"; VStr "Old Vendor"].
Proof.
  intros unsorted.
  destruct (getAllEntities_never_raises (decode_table []) oem_unreadable unsorted
              1500 1501 loaded_manager) as (_ & _ & Hfresh).
  destruct (Hfresh _ _ _ eq_refl eq_refl eq_refl eq_refl) as (Hrows & _).
  destruct (Hrows eq_refl) as (rows & Hrun & _).
  exists rows. split; [exact Hrun|].
  vm_compute in Hrun. injection Hrun as <-. reflexivity.
Defined.

(** ** The entities of a view *)

Lemma filter_each_pure (p : value -> outcome bool) (q : value -> bool) (xs : list value) :
  (forall x, In x xs -> p x = Ok (q x)) ->
  filter_each p xs = Ok (filter q xs).
Proof.
  induction xs as [|x xs IH]; intros Hp; [reflexivity|].
  cbn [filter_each filter]. rewrite Hp by (left; reflexivity). cbn [bind].
  rewrite IH by (intros y Hy; apply Hp; right; exact Hy). reflexivity.
Qed.

Lemma filter_filter {A : Type} (p q : A -> bool) (xs : list A) :
  filter q (filter p xs) = filter (fun x => p x && q x)%bool xs.
Proof.
  induction xs as [|x xs IH]; [reflexivity|]. cbn [filter].
  destruct (p x); cbn [filter andb]; [|exact IH].
  destruct (q x); [rewrite IH; reflexivity | exact IH].
Qed.

Lemma filter_all {A : Type} (p : A -> bool) (xs : list A) :
  (forall x, In x xs -> p x = true) -> filter p xs = xs.
Proof.
  induction xs as [|x xs IH]; intros Hp; [reflexivity|]. cbn [filter].
  rewrite Hp by (left; reflexivity). f_equal. apply IH.
  intros y Hy. apply Hp. right; exact Hy.
Qed.

(** The detail view hands out the entities [getEntities] answers, filtered:
    in their order, those the selection names and whose parent company is
    strictly equal to the filter.  With no filter it hands out the very
    array [getEntities] answered, which for a type is the array of the
    cache; with a filter it hands out a new array.  The cache and the
    calls to the service are those [getEntities] left. *)
Theorem getEntitiesForView_detail (JSON_parse : string -> decoded) (spreadsheet : source)
  (transformForReportBuilder : option entity_list -> value -> value -> M (option entity_list))
  (now later : Z) (options : view_options) (m m1 : manager) (l : entity_list) :
  getEntities JSON_parse spreadsheet now later (opt_entityType options) false m
  = (Ok (Some l), m1) ->
  forallb (fun entity => negb (nullish entity)) (items l) = true ->
  exists result m',
    getEntitiesForView JSON_parse spreadsheet transformForReportBuilder now later
      (VStr "entityDetail") options m = (Ok (Some result), m')
    /\ items result = filter (chosen options) (items l)
    /\ cache m' = cache m1
    /\ io_log m' = io_log m1
    /\ (unfiltered options = true -> result = l /\ m' = m1)
    /\ (unfiltered options = false ->
        (next_address m1 <= address result < next_address m')%nat).
Proof.
  intros Hget Hall.
  assert (Hdefined : forall entity, In entity (items l) -> nullish entity = false).
  { intros entity Hentity. apply negb_true_iff.
    exact (proj1 (forallb_forall _ _) Hall _ Hentity). }
  unfold getEntitiesForView, bindM at 1. rewrite Hget.
  unfold chosen, unfiltered.
  assert (Hsel : forall selectedEntities xs,
            (forall x, In x xs -> nullish x = false) ->
            filter_each (is_selected selectedEntities) xs
            = Ok (filter (fun entity =>
                            match own_get entity "name" with
                            | VStr s => existsb (String.eqb s) selectedEntities
                            | _ => false
                            end) xs)).
  { intros selectedEntities xs Hxs. apply filter_each_pure. intros x Hx.
    unfold is_selected. rewrite (get_ok _ _ (Hxs x Hx)). reflexivity. }
  assert (Hpar : forall xs,
            (forall x, In x xs -> nullish x = false) ->
            filter_each (fun e => p <- get e "parentCompany" ;;
                                  Ok (strict_eq p (opt_parentFilter options))) xs
            = Ok (filter (fun entity =>
                            strict_eq (own_get entity "parentCompany")
                              (opt_parentFilter options)) xs)).
  { intros xs Hxs. apply filter_each_pure. intros x Hx.
    rewrite (get_ok _ _ (Hxs x Hx)). reflexivity. }
  assert (Hkept : forall (q : value -> bool) x,
            In x (filter q (items l)) -> nullish x = false).
  { intros q x Hx. apply filter_In in Hx. apply Hdefined, Hx. }
  destruct (opt_selectedEntities options) as [[|name names]|];
    destruct (truthy (opt_parentFilter options)) eqn:Hp;
    cbn [List.length Nat.ltb Nat.leb String.eqb Ascii.eqb Bool.eqb andb negb];
    unfold filter_entities; unfold bindM, ret, lift, new_array;
    rewrite ?Hsel by assumption; cbv beta iota; cbn [items];
    rewrite ?Hpar by (assumption || apply Hkept); cbv beta iota; cbn [items];
    rewrite ?filter_filter;
    (eexists; eexists; split; [reflexivity|];
     cbn [items cache io_log next_address address];
     split; [first [reflexivity
                   | symmetry; apply filter_all; intros; reflexivity
                   | apply filter_ext; intros; rewrite andb_true_r; reflexivity]|];
     split; [reflexivity|]; split; [reflexivity|];
     split; [intros H; first [discriminate H | split; reflexivity]
            | intros H; first [discriminate H | lia]]).
Qed.

Lemma getEntitiesForView_detail_witness :
  let unsorted := fun (_ : option entity_list) (_ _ : value) => throw TypeError in
  let acme := VObj [("name", VStr "Acme"); ("parentCompany", VStr "Holding")] in
  let zeta := VObj [("name", VStr "Zeta"); ("parentCompany", VStr "Other")] in
  let m := mkManager (mkCache (Some (mkList 0 [])) (Some (mkList 1 [acme; zeta]))
                        (Some (mkList 2 [])) (Some 1000) false) 3 [] in
  getEntitiesForView (decode_table []) oem_unreadable unsorted 1500 1501
    (VStr "entityDetail") (mkOptions (VStr "oem") VUndef VUndef None VUndef) m
  = (Ok (Some (mkList 1 [acme; zeta])), m)
  /\ exists result m',
       getEntitiesForView (decode_table []) oem_unreadable unsorted 1500 1501
         (VStr "entityDetail") (mkOptions (VStr "oem") VUndef VUndef None (VStr "Holding")) m
       = (Ok (Some result), m')
       /\ items result = [acme].
Proof.
  intros unsorted acme zeta m. split.
  - destruct (getEntitiesForView_detail (decode_table []) oem_unreadable unsorted
                1500 1501 (mkOptions (VStr "oem") VUndef VUndef None VUndef) m m
                (mkList 1 [acme; zeta]) eq_refl eq_refl)
      as (result & m' & Hrun & _ & _ & _ & Hsame & _).
    destruct (Hsame eq_refl) as (-> & ->). exact Hrun.
  - destruct (getEntitiesForView_detail (decode_table []) oem_unreadable unsorted
                1500 1501 (mkOptions (VStr "oem") VUndef VUndef None (VStr "Holding")) m m
                (mkList 1 [acme; zeta]) eq_refl eq_refl)
      as (result & m' & Hrun & Hitems & _).
    exists result, m'. split; [exact Hrun|]. rewrite Hitems. reflexivity.
Defined.

(** ** The two parsers of a cell *)

(** [parseJSONColumn] and the data manager's [parseJSON] answer the same
    for every empty cell, every text and every object; neither raises.
    They part on the other cells, a number or [true]: there
    [parseJSONColumn] answers null, and [parseJSON] what [JSON.parse] makes
    of the cell written as a text. *)
Theorem parseJSONColumn_agrees (JSON_parse : string -> decoded) (v : value) :
  (truthy v = false \/ typeof v = "string" \/ typeof v = "object" ->
   parseJSONColumn JSON_parse v = parseJSON JSON_parse v)
  /\ (truthy v = true -> typeof v <> "string" -> typeof v <> "object" ->
      parseJSONColumn JSON_parse v = VNull
      /\ parseJSON JSON_parse v
         = (if ((trim (to_str v) =? "") || (trim (to_str v) =? "{}")
                || (trim (to_str v) =? "[]"))%string
            then VNull
            else match JSON_parse (trim (to_str v)) with
                 | Decoded data => data
                 | Malformed _ => VNull
                 end)).
Proof.
  split.
  - intros H. unfold parseJSONColumn, parseJSON.
    destruct (truthy v) eqn:Ht; cbn [negb]; [|reflexivity].
    destruct H as [H|[H|H]]; [discriminate H| |rewrite H; reflexivity].
    destruct v; try discriminate H; try (destruct b; discriminate H).
    reflexivity.
  - intros Ht Hs Ho. unfold parseJSONColumn, parseJSON. rewrite Ht. cbn [negb].
    destruct (typeof v =? "object")%string eqn:E;
      [apply String.eqb_eq in E; contradiction|].
    split; [|reflexivity].
    destruct v; try reflexivity. contradiction Hs. reflexivity.
Qed.

Lemma parseJSONColumn_agrees_witness :
  let parse := decode_table [("5", VNum 5); ("{}", VObj [])] in
  parseJSONColumn parse (VStr " {} ") = parseJSON parse (VStr " {} ")
  /\ parseJSONColumn parse (VNum 5) = VNull
  /\ parseJSON parse (VNum 5) = VNum 5.
Proof.
  intros parse.
  destruct (parseJSONColumn_agrees parse (VStr " {} ")) as (Hsame & _).
  destruct (parseJSONColumn_agrees parse (VNum 5)) as (_ & Hpart).
  split; [apply Hsame; right; left; reflexivity|].
  destruct Hpart as (Hnull & Hparsed); [reflexivity | discriminate | discriminate|].
  split; [exact Hnull|]. rewrite Hparsed. vm_compute. reflexivity.
Defined.
